(** * FITHUB: the data-access layer of [app.py]

    A shallow embedding of the SQLite schema created by [init_db] and of the
    data-access functions of [app.py] that work on it (credentials and
    tokens, subscriptions, followers, the personalized feed and chat),
    followed by the properties of the identity and relationship layer.

    Conventions of the embedding.
    - A table is the list of its rows in rowid order together with the
      [AUTOINCREMENT] counter kept in [sqlite_sequence].
    - [datetime.now()] is an argument [now], in microseconds; the value of
      SQLite's [CURRENT_TIMESTAMP] (the [created_at] defaults) is an argument
      [ts].  Timestamps are stored as ISO text, whose lexicographic order is
      the chronological one, so they are compared as integers here.
    - A [date] is its proleptic ordinal ([date.toordinal()]); Python raises
      [OverflowError] outside of [date.min .. date.max].  The clock itself is
      taken to be more than seven days before [datetime.max].
    - [secrets.token_hex] and [secrets.token_urlsafe] are arguments ([salt],
      [auth_token], [new_token]): the caller of the model supplies the random
      draw.  [hashlib.sha256(..).hexdigest()] is a section variable.
    - [REAL] columns are binary64 floats. *)

From Stdlib Require Import ZArith List String Bool Lia Floats.
From Stdlib Require Import Permutation Sorted.
Import ListNotations.
Open Scope string_scope.
Open Scope list_scope.
Open Scope Z_scope.

(** ** Rows of the tables of [init_db] *)

Module Users.
Record row := mk
  { id : Z;
    name : string;
    email : string;
    mobile : string;
    password_hash : string;
    salt : string;
    account_type : string;
    auth_token : option string;
    token_expiry : option Z;
    created_at : Z }.
End Users.

Module Trainers.
Record row := mk
  { id : Z;
    user_id : Z;
    specialization : option string;
    experience_years : option Z;
    bio : option string;
    profile_image : option string }.
End Trainers.

Module FitnessPlans.
Record row := mk
  { id : Z;
    trainer_id : Z;
    title : string;
    description : string;
    price : float;
    duration_days : Z;
    difficulty : string;
    category : string;
    is_active : Z;
    created_at : Z;
    updated_at : Z }.
End FitnessPlans.

Module Subscriptions.
Record row := mk
  { id : Z;
    user_id : Z;
    plan_id : Z;
    start_date : Z;
    end_date : Z;
    payment_status : string;
    amount_paid : float;
    created_at : Z }.
End Subscriptions.

Module Followers.
Record row := mk
  { id : Z;
    user_id : Z;
    trainer_id : Z;
    created_at : Z }.
End Followers.

Module Messages.
Record row := mk
  { id : Z;
    sender_id : Z;
    receiver_id : Z;
    message : string;
    is_read : Z;
    created_at : Z }.
End Messages.

(** ** Tables and the database file *)

Record table (A : Type) := Table
  { rows : list A;
    seq : Z }.
Arguments Table {A} _ _.
Arguments rows {A} _.
Arguments seq {A} _.

(** [INSERT] into a table whose key is [INTEGER PRIMARY KEY AUTOINCREMENT]:
    the new row gets the successor of the largest rowid ever used and goes
    last in rowid order.  The result is the table and [cursor.lastrowid]. *)
Definition insert {A : Type} (mk_row : Z -> A) (t : table A) : table A * Z :=
  let rowid := seq t + 1 in
  (Table (rows t ++ [mk_row rowid]) rowid, rowid).

(** [UPDATE t SET .. WHERE cond]. *)
Definition update {A : Type} (cond : A -> bool) (set : A -> A) (t : table A)
  : table A :=
  Table (map (fun r => if cond r then set r else r) (rows t)) (seq t).

(** [DELETE FROM t WHERE cond], with [cursor.rowcount]. *)
Definition delete {A : Type} (cond : A -> bool) (t : table A) : table A * Z :=
  (Table (filter (fun r => negb (cond r)) (rows t)) (seq t),
   Z.of_nat (List.length (filter cond (rows t)))).

Record db := Db
  { users : table Users.row;
    trainers : table Trainers.row;
    fitness_plans : table FitnessPlans.row;
    subscriptions : table Subscriptions.row;
    followers : table Followers.row;
    messages : table Messages.row }.

Definition set_users (t : table Users.row) (d : db) : db :=
  Db t (trainers d) (fitness_plans d) (subscriptions d) (followers d) (messages d).
Definition set_trainers (t : table Trainers.row) (d : db) : db :=
  Db (users d) t (fitness_plans d) (subscriptions d) (followers d) (messages d).
Definition set_fitness_plans (t : table FitnessPlans.row) (d : db) : db :=
  Db (users d) (trainers d) t (subscriptions d) (followers d) (messages d).
Definition set_subscriptions (t : table Subscriptions.row) (d : db) : db :=
  Db (users d) (trainers d) (fitness_plans d) t (followers d) (messages d).
Definition set_followers (t : table Followers.row) (d : db) : db :=
  Db (users d) (trainers d) (fitness_plans d) (subscriptions d) t (messages d).
Definition set_messages (t : table Messages.row) (d : db) : db :=
  Db (users d) (trainers d) (fitness_plans d) (subscriptions d) (followers d) t.

(** The database right after [init_db] on a fresh file. *)
Definition init_db : db :=
  Db (Table [] 0) (Table [] 0) (Table [] 0) (Table [] 0) (Table [] 0) (Table [] 0).

(** Exceptions the modelled functions meet. *)
Inductive exn := IntegrityError | OverflowError.

(** [cursor.fetchone()]: the first row of the result, or [None]. *)
Definition fetchone {A : Type} (result : list A) : option A := hd_error result.

(** ** [ORDER BY]

    A stable insertion sort: rows with equal keys keep their scan order. *)
Fixpoint insert_by {A : Type} (le : A -> A -> bool) (x : A) (l : list A) : list A :=
  match l with
  | [] => [x]
  | y :: t => if le x y then x :: y :: t else y :: insert_by le x t
  end.

Definition order_by {A : Type} (le : A -> A -> bool) (l : list A) : list A :=
  fold_right (insert_by le) [] l.

(** ** Time *)

Definition usec_per_day : Z := 86400000000.

(** [timedelta(days=n)] added to a [datetime]. *)
Definition plus_days (t : Z) (n : Z) : Z := t + n * usec_per_day.

(** [datetime.now().date()], as an ordinal. *)
Definition date_of (now : Z) : Z := now / usec_per_day.

(** [date.min.toordinal()] and [date.max.toordinal()]. *)
Definition date_min : Z := 1.
Definition date_max : Z := 3652059.

(** [date + timedelta(days=n)]: [OverflowError] outside of the range of
    [date] (and for [abs(n) > 999999999], which leaves the range too). *)
Definition date_plus_days (d n : Z) : exn + Z :=
  if (date_min <=? d + n) && (d + n <=? date_max) then inr (d + n)
  else inl OverflowError.

(** ** Statements run on a connection

    Every function of [app.py] opens its own connection on the database
    file, so it is a function from the file's contents to its result and the
    contents it leaves behind.  Uncommitted work is none in the source:
    each write statement is followed by [conn.commit()]. *)

Definition M (A : Type) : Type := db -> A * db.

(** A function that only runs [SELECT]s. *)
Definition query {A : Type} (q : db -> A) : M A := fun d => (q d, d).

(** [FROM l JOIN r ON on]. *)
Definition join {A B : Type} (on : A -> B -> bool) (l : list A) (r : list B)
  : list (A * B) :=
  flat_map (fun a => map (pair a) (filter (on a) r)) l.

(** [FROM l LEFT JOIN r ON on]. *)
Definition left_join {A B : Type} (on : A -> B -> bool) (l : list A) (r : list B)
  : list (A * option B) :=
  flat_map (fun a =>
              match filter (on a) r with
              | [] => [(a, None)]
              | bs => map (fun b => (a, Some b)) bs
              end) l.

(** An [INSERT] that a [UNIQUE] constraint can reject. *)
Definition insert_unique {A : Type} (conflict : A -> bool) (mk_row : Z -> A)
  (t : table A) : exn + (table A * Z) :=
  if existsb conflict (rows t) then inl IntegrityError else inr (insert mk_row t).

(** ** Password hashing and token authentication *)

(** The dictionary [verify_user] returns. *)
Record login_view := LoginView
  { lv_id : Z;
    lv_name : string;
    lv_email : string;
    lv_account_type : string;
    lv_token : string }.

(** The dictionary [verify_token] returns. *)
Record token_view := TokenView
  { tv_id : Z;
    tv_name : string;
    tv_email : string;
    tv_account_type : string }.

Definition set_token (tok : string) (expiry : Z) (u : Users.row) : Users.row :=
  Users.mk (Users.id u) (Users.name u) (Users.email u) (Users.mobile u)
    (Users.password_hash u) (Users.salt u) (Users.account_type u)
    (Some tok) (Some expiry) (Users.created_at u).

Definition token_is (tok : string) (u : Users.row) : bool :=
  match Users.auth_token u with
  | Some t => t =? tok
  | None => false
  end%string.

Definition expires_after (now : Z) (u : Users.row) : bool :=
  match Users.token_expiry u with
  | Some e => e >? now
  | None => false
  end.

Definition view_of (u : Users.row) : token_view :=
  TokenView (Users.id u) (Users.name u) (Users.email u) (Users.account_type u).

(** [SELECT .. FROM users WHERE auth_token = ? AND token_expiry > ?]. *)
Definition verify_token (token : string) (now : Z) : M (option token_view) :=
  query (fun d =>
    let user :=
      fetchone (filter (fun u => token_is token u && expires_after now u)
                  (rows (users d))) in
    match user with
    | Some u => Some (view_of u)
    | None => None
    end).

Section Operations.

(** [hashlib.sha256(s.encode()).hexdigest()]. *)
Variable sha256_hexdigest : string -> string.

Definition hash_password (password salt : string) : string :=
  let salted := String.append password salt in
  sha256_hexdigest salted.

(** Lines 165-175 of [create_user]: the [INSERT INTO users] and its
    commit; [users.email] is [UNIQUE].  Gives [c.lastrowid]. *)
Definition create_user_insert_user
  (name email mobile password account_type salt auth_token : string)
  (now ts : Z) (d : db) : exn + (Z * db) :=
  let password_hash := hash_password password salt in
  let token_expiry := plus_days now 7 in
  match insert_unique (fun u => (Users.email u =? email)%string)
          (fun i => Users.mk i name email mobile password_hash salt
                      account_type (Some auth_token) (Some token_expiry) ts)
          (users d) with
  | inl e => inl e
  | inr (t, user_id) => inr (user_id, set_users t d)
  end.

(** Lines 177-179: the [INSERT INTO trainers] and its commit;
    [trainers.user_id] is [UNIQUE]. *)
Definition create_user_insert_trainer (user_id : Z) (d : db) : exn + db :=
  match insert_unique (fun t => Trainers.user_id t =? user_id)
          (fun i => Trainers.mk i user_id None None None None)
          (trainers d) with
  | inl e => inl e
  | inr (t, _) => inr (set_trainers t d)
  end.

Definition create_user
  (name email mobile password account_type salt auth_token : string)
  (now ts : Z) : M (bool * string * option string) :=
  fun d =>
    match create_user_insert_user name email mobile password account_type
            salt auth_token now ts d with
    | inl _ => ((false, "Email already exists!", None), d)
    | inr (user_id, d1) =>
        if (account_type =? "trainer")%string then
          match create_user_insert_trainer user_id d1 with
          | inl _ => ((false, "Email already exists!", None), d1)
          | inr d2 => ((true, "Account created successfully!", Some auth_token), d2)
          end
        else ((true, "Account created successfully!", Some auth_token), d1)
    end.

(** The contents of the database file after each [conn.commit()] of
    [create_user], in order. *)
Definition create_user_commits
  (name email mobile password account_type salt auth_token : string)
  (now ts : Z) (d : db) : list db :=
  match create_user_insert_user name email mobile password account_type
          salt auth_token now ts d with
  | inl _ => []
  | inr (user_id, d1) =>
      if (account_type =? "trainer")%string then
        match create_user_insert_trainer user_id d1 with
        | inl _ => [d1]
        | inr d2 => [d1; d2]
        end
      else [d1]
  end.

Definition verify_user (email password new_token : string) (now : Z)
  : M (option login_view) :=
  fun d =>
    let user :=
      fetchone (filter (fun u => (Users.email u =? email)%string)
                  (rows (users d))) in
    match user with
    | Some user =>
        let stored_hash := Users.password_hash user in
        let salt := Users.salt user in
        let computed_hash := hash_password password salt in
        if (computed_hash =? stored_hash)%string then
          let token_expiry := plus_days now 7 in
          (Some (LoginView (Users.id user) (Users.name user) (Users.email user)
                   (Users.account_type user) new_token),
           set_users
             (update (fun u => Users.id u =? Users.id user)
                (set_token new_token token_expiry) (users d)) d)
        else (None, d)
    | None => (None, d)
    end.

(** ** Fitness plans *)

Definition create_fitness_plan (trainer_id : Z) (title description : string)
  (price : float) (duration_days : Z) (difficulty category : string) (ts : Z)
  : M bool :=
  fun d =>
    let '(t, _) :=
      insert (fun i => FitnessPlans.mk i trainer_id title description price
                         duration_days difficulty category 1 ts ts)
        (fitness_plans d) in
    (true, set_fitness_plans t d).

Definition set_plan (title description : string) (price : float)
  (duration_days : Z) (difficulty category : string) (updated_at : Z)
  (p : FitnessPlans.row) : FitnessPlans.row :=
  FitnessPlans.mk (FitnessPlans.id p) (FitnessPlans.trainer_id p) title
    description price duration_days difficulty category
    (FitnessPlans.is_active p) (FitnessPlans.created_at p) updated_at.

Definition owned_plan (plan_id trainer_id : Z) (p : FitnessPlans.row) : bool :=
  (FitnessPlans.id p =? plan_id) && (FitnessPlans.trainer_id p =? trainer_id).

Definition update_fitness_plan (plan_id trainer_id : Z)
  (title description : string) (price : float) (duration_days : Z)
  (difficulty category : string) (now : Z) : M bool :=
  fun d =>
    let affected :=
      Z.of_nat (List.length (filter (owned_plan plan_id trainer_id)
                               (rows (fitness_plans d)))) in
    (affected >? 0,
     set_fitness_plans
       (update (owned_plan plan_id trainer_id)
          (set_plan title description price duration_days difficulty
             category now) (fitness_plans d)) d).

Definition delete_fitness_plan (plan_id trainer_id : Z) : M bool :=
  fun d =>
    let '(t, affected) := delete (owned_plan plan_id trainer_id) (fitness_plans d) in
    (affected >? 0, set_fitness_plans t d).

(** ** Subscriptions *)

Definition subscription_of (user_id plan_id : Z) (s : Subscriptions.row) : bool :=
  (Subscriptions.user_id s =? user_id) && (Subscriptions.plan_id s =? plan_id).

(** An uncaught exception leaves the function before any write. *)
Definition subscribe_to_plan (user_id plan_id : Z) (amount : float) (now ts : Z)
  : M (exn + bool * string) :=
  fun d =>
    (* Check if already subscribed *)
    match fetchone (map Subscriptions.id
                      (filter (subscription_of user_id plan_id)
                         (rows (subscriptions d)))) with
    | Some _ => (inr (false, "Already subscribed to this plan"), d)
    | None =>
        (* Get plan duration *)
        match fetchone (map FitnessPlans.duration_days
                          (filter (fun p => FitnessPlans.id p =? plan_id)
                             (rows (fitness_plans d)))) with
        | None => (inr (false, "Plan not found"), d)
        | Some duration =>
            let start_date := date_of now in
            match date_plus_days start_date duration with
            | inl e => (inl e, d)
            | inr end_date =>
                let '(t, _) :=
                  insert (fun i => Subscriptions.mk i user_id plan_id start_date
                                     end_date "completed" amount ts)
                    (subscriptions d) in
                (inr (true, "Subscription successful!"), set_subscriptions t d)
            end
        end
    end.

Definition is_subscribed (user_id plan_id : Z) (now : Z) : M bool :=
  query (fun d =>
    let result :=
      fetchone (map Subscriptions.id
                  (filter (fun s => subscription_of user_id plan_id s
                                    && (Subscriptions.end_date s >=? date_of now))
                     (rows (subscriptions d)))) in
    match result with
    | Some _ => true
    | None => false
    end).

(** ** Followers *)

Definition follow_edge (user_id trainer_id : Z) (f : Followers.row) : bool :=
  (Followers.user_id f =? user_id) && (Followers.trainer_id f =? trainer_id).

Definition follow_trainer (user_id trainer_id : Z) (ts : Z) : M (bool * string) :=
  fun d =>
    match insert_unique (follow_edge user_id trainer_id)
            (fun i => Followers.mk i user_id trainer_id ts) (followers d) with
    | inr (t, _) => ((true, "Now following trainer!"), set_followers t d)
    | inl _ => ((false, "Already following this trainer"), d)
    end.

Definition unfollow_trainer (user_id trainer_id : Z) : M bool :=
  fun d =>
    let '(t, affected) := delete (follow_edge user_id trainer_id) (followers d) in
    (affected >? 0, set_followers t d).

Definition is_following (user_id trainer_id : Z) : M bool :=
  query (fun d =>
    let result :=
      fetchone (map Followers.id
                  (filter (follow_edge user_id trainer_id) (rows (followers d)))) in
    match result with
    | Some _ => true
    | None => false
    end).

Definition get_trainer_followers_count (trainer_id : Z) : M Z :=
  query (fun d =>
    Z.of_nat (List.length (filter (fun f => Followers.trainer_id f =? trainer_id)
                             (rows (followers d))))).

(** ** Personalized feed *)

(** A row of the result of [get_personalized_feed], columns in the order of
    the [SELECT]. *)
Record feed_row := FeedRow
  { fr_id : Z;
    fr_title : string;
    fr_description : string;
    fr_price : float;
    fr_duration_days : Z;
    fr_difficulty : string;
    fr_category : string;
    fr_trainer_id : Z;
    fr_trainer_name : string;
    fr_created_at : Z;
    is_purchased : Z }.

Definition feed_joined : Type :=
  FitnessPlans.row * Users.row * Followers.row * option Subscriptions.row.

Definition feed_select (r : feed_joined) : feed_row :=
  let '(fp, u, _, s) := r in
  FeedRow (FitnessPlans.id fp) (FitnessPlans.title fp)
    (FitnessPlans.description fp) (FitnessPlans.price fp)
    (FitnessPlans.duration_days fp) (FitnessPlans.difficulty fp)
    (FitnessPlans.category fp) (Users.id u) (Users.name u)
    (FitnessPlans.created_at fp)
    (* CASE WHEN s.id IS NOT NULL THEN 1 ELSE 0 END *)
    match s with Some _ => 1 | None => 0 end.

Definition get_personalized_feed (user_id : Z) : M (list feed_row) :=
  query (fun d =>
    let fp_u :=
      join (fun fp u => FitnessPlans.trainer_id fp =? Users.id u)
        (rows (fitness_plans d)) (rows (users d)) in
    let fp_u_f :=
      join (fun '(_, u) f => (Followers.trainer_id f =? Users.id u)
                             && (Followers.user_id f =? user_id))
        fp_u (rows (followers d)) in
    let fp_u_f_s :=
      left_join (fun '(fp, _, _) s =>
                   (Subscriptions.plan_id s =? FitnessPlans.id fp)
                   && (Subscriptions.user_id s =? user_id))
        fp_u_f (rows (subscriptions d)) in
    let selected :=
      filter (fun '(fp, _, _, _) => FitnessPlans.is_active fp =? 1) fp_u_f_s in
    (* ORDER BY fp.created_at DESC *)
    let ordered :=
      order_by (fun '(fp1, _, _, _) '(fp2, _, _, _) =>
                  FitnessPlans.created_at fp1 >=? FitnessPlans.created_at fp2)
        selected in
    map feed_select ordered).

(** ** Chat *)

Definition send_message (sender_id receiver_id : Z) (message : string) (ts : Z)
  : M bool :=
  fun d =>
    let '(t, _) :=
      insert (fun i => Messages.mk i sender_id receiver_id message 0 ts)
        (messages d) in
    (true, set_messages t d).

(** A row of the result of [get_conversation]. *)
Record conversation_row := ConversationRow
  { cr_id : Z;
    cr_sender_id : Z;
    cr_receiver_id : Z;
    cr_message : string;
    cr_created_at : Z;
    cr_sender_name : string }.

Definition conversation_select (r : Messages.row * Users.row) : conversation_row :=
  let '(m, u) := r in
  ConversationRow (Messages.id m) (Messages.sender_id m) (Messages.receiver_id m)
    (Messages.message m) (Messages.created_at m) (Users.name u).

Definition get_conversation (user1_id user2_id : Z) : M (list conversation_row) :=
  query (fun d =>
    let m_u :=
      join (fun m u => Messages.sender_id m =? Users.id u)
        (rows (messages d)) (rows (users d)) in
    let selected :=
      filter (fun '(m, _) =>
                ((Messages.sender_id m =? user1_id)
                 && (Messages.receiver_id m =? user2_id))
                || ((Messages.sender_id m =? user2_id)
                    && (Messages.receiver_id m =? user1_id)))
        m_u in
    (* ORDER BY m.created_at ASC *)
    let ordered :=
      order_by (fun '(m1, _) '(m2, _) =>
                  Messages.created_at m1 <=? Messages.created_at m2)
        selected in
    map conversation_select ordered).

Definition get_unread_count (user_id : Z) : M Z :=
  query (fun d =>
    Z.of_nat (List.length
                (filter (fun m => (Messages.receiver_id m =? user_id)
                                  && (Messages.is_read m =? 0))
                   (rows (messages d))))).

Definition set_is_read (v : Z) (m : Messages.row) : Messages.row :=
  Messages.mk (Messages.id m) (Messages.sender_id m) (Messages.receiver_id m)
    (Messages.message m) v (Messages.created_at m).

Definition mark_messages_read (user_id sender_id : Z) : M unit :=
  fun d =>
    (tt,
     set_messages
       (update (fun m => (Messages.receiver_id m =? user_id)
                         && (Messages.sender_id m =? sender_id))
          (set_is_read 1) (messages d)) d).

(** ** Trainer profile *)

Definition set_profile (specialization : string) (experience : Z) (bio : string)
  (t : Trainers.row) : Trainers.row :=
  Trainers.mk (Trainers.id t) (Trainers.user_id t) (Some specialization)
    (Some experience) (Some bio) (Trainers.profile_image t).

Definition update_trainer_profile (user_id : Z) (specialization : string)
  (experience : Z) (bio : string) : M unit :=
  fun d =>
    (tt,
     set_trainers
       (update (fun t => Trainers.user_id t =? user_id)
          (set_profile specialization experience bio) (trainers d)) d).

Definition get_trainer_profile (user_id : Z) : M (option Trainers.row) :=
  query (fun d =>
    fetchone (filter (fun t => Trainers.user_id t =? user_id) (rows (trainers d)))).

(** ** Reachable databases

    A call of one of the functions above that writes to the tables of the
    model, with the clock readings and random draws it meets. *)
Inductive call :=
| CreateUser (name email mobile password account_type salt auth_token : string)
    (now ts : Z)
| VerifyUser (email password new_token : string) (now : Z)
| CreateFitnessPlan (trainer_id : Z) (title description : string) (price : float)
    (duration_days : Z) (difficulty category : string) (ts : Z)
| UpdateFitnessPlan (plan_id trainer_id : Z) (title description : string)
    (price : float) (duration_days : Z) (difficulty category : string) (now : Z)
| DeleteFitnessPlan (plan_id trainer_id : Z)
| SubscribeToPlan (user_id plan_id : Z) (amount : float) (now ts : Z)
| FollowTrainer (user_id trainer_id : Z) (ts : Z)
| UnfollowTrainer (user_id trainer_id : Z)
| SendMessage (sender_id receiver_id : Z) (message : string) (ts : Z)
| MarkMessagesRead (user_id sender_id : Z)
| UpdateTrainerProfile (user_id : Z) (specialization : string) (experience : Z)
    (bio : string).

(** The database a call leaves behind. *)
Definition exec (c : call) (d : db) : db :=
  match c with
  | CreateUser name email mobile password account_type salt auth_token now ts =>
      snd (create_user name email mobile password account_type salt auth_token
             now ts d)
  | VerifyUser email password new_token now =>
      snd (verify_user email password new_token now d)
  | CreateFitnessPlan trainer_id title description price duration_days
      difficulty category ts =>
      snd (create_fitness_plan trainer_id title description price duration_days
             difficulty category ts d)
  | UpdateFitnessPlan plan_id trainer_id title description price duration_days
      difficulty category now =>
      snd (update_fitness_plan plan_id trainer_id title description price
             duration_days difficulty category now d)
  | DeleteFitnessPlan plan_id trainer_id =>
      snd (delete_fitness_plan plan_id trainer_id d)
  | SubscribeToPlan user_id plan_id amount now ts =>
      snd (subscribe_to_plan user_id plan_id amount now ts d)
  | FollowTrainer user_id trainer_id ts => snd (follow_trainer user_id trainer_id ts d)
  | UnfollowTrainer user_id trainer_id => snd (unfollow_trainer user_id trainer_id d)
  | SendMessage sender_id receiver_id message ts =>
      snd (send_message sender_id receiver_id message ts d)
  | MarkMessagesRead user_id sender_id => snd (mark_messages_read user_id sender_id d)
  | UpdateTrainerProfile user_id specialization experience bio =>
      snd (update_trainer_profile user_id specialization experience bio d)
  end.

(** The databases reached from [init_db] by complete calls. *)
Inductive reachable : db -> Prop :=
| reachable_init : reachable init_db
| reachable_call (c : call) (d : db) : reachable d -> reachable (exec c d).

End Operations.

(** ** Tokens

    No token is held by rows of two different users. *)
Definition token_owners_unique (d : db) : Prop :=
  forall u1 u2 tok,
    In u1 (rows (users d)) -> In u2 (rows (users d)) ->
    Users.auth_token u1 = Some tok -> Users.auth_token u2 = Some tok ->
    Users.id u1 = Users.id u2.

(** The draw [tok] of [generate_auth_token] is fresh in [d]. *)
Definition fresh_token (tok : string) (d : db) : Prop :=
  forall u, In u (rows (users d)) -> Users.auth_token u <> Some tok.

(** ** Trainer profiles

    The trainer-typed users of [d] that have no row in [trainers]. *)
Definition missing_profiles (d : db) : list Users.row :=
  filter (fun u => (Users.account_type u =? "trainer")%string
                   && negb (existsb (fun t => Trainers.user_id t =? Users.id u)
                              (rows (trainers d))))
    (rows (users d)).

Definition trainer_profiles_complete (d : db) : Prop :=
  forall u, In u (rows (users d)) -> Users.account_type u = "trainer" ->
            exists t, In t (rows (trainers d)) /\ Trainers.user_id t = Users.id u.

(** No profile row is ahead of the [AUTOINCREMENT] counter of [users]. *)
Definition profiles_behind_users (d : db) : Prop :=
  forall t, In t (rows (trainers d)) -> Trainers.user_id t <= seq (users d).

(** ** A concrete run

    A stand-in for SHA-256 to run the model with, and the scenario of the
    specification: alice signs up as a user and bob as a trainer, alice
    follows bob, bob creates the 30-day plan P1, alice subscribes to it. *)
Definition toy_sha256 (s : string) : string := String.append "sha256:" s.

Definition day0 : Z := 739000.
Definition t0 : Z := day0 * usec_per_day.

Definition run (sha256 : string -> string) (cs : list call) (d : db) : db :=
  fold_left (fun d c => exec sha256 c d) cs d.

Definition scenario_calls : list call :=
  [ CreateUser "alice" "alice@x.com" "555-0100" "secret1" "user" "salt-a" "token-a" t0 1;
    CreateUser "bob" "bob@x.com" "555-0101" "secret1" "trainer" "salt-b" "token-b" t0 2;
    FollowTrainer 1 2 3;
    CreateFitnessPlan 2 "P1" "thirty days" 10%float 30 "Beginner" "General" 4 ].

Definition scenario_db : db := run toy_sha256 scenario_calls init_db.

Definition subscribed_db : db :=
  exec toy_sha256 (SubscribeToPlan 1 1 10%float t0 5) scenario_db.

(** The row of alice in [scenario_db], and the row of P1 in her feed once
    she has subscribed. *)
Definition alice_row : Users.row :=
  Users.mk 1 "alice" "alice@x.com" "555-0100" (toy_sha256 "secret1salt-a") "salt-a"
    "user" (Some "token-a") (Some (plus_days t0 7)) 1.

Definition p1_purchased : feed_row :=
  FeedRow 1 "P1" "thirty days" 10%float 30 "Beginner" "General" 2 "bob" 4 1.

(** ** The other queries over plans, subscriptions, followers and chat *)

(** A row of [get_all_plans] and of [get_plan_details]. *)
Record plan_row := PlanRow
  { pr_id : Z;
    pr_title : string;
    pr_description : string;
    pr_price : float;
    pr_duration_days : Z;
    pr_difficulty : string;
    pr_category : string;
    pr_trainer_id : Z;
    pr_trainer_name : string;
    pr_created_at : Z }.

Definition plan_select (r : FitnessPlans.row * Users.row) : plan_row :=
  let '(fp, u) := r in
  PlanRow (FitnessPlans.id fp) (FitnessPlans.title fp) (FitnessPlans.description fp)
    (FitnessPlans.price fp) (FitnessPlans.duration_days fp)
    (FitnessPlans.difficulty fp) (FitnessPlans.category fp) (Users.id u)
    (Users.name u) (FitnessPlans.created_at fp).

Definition get_all_plans : M (list plan_row) :=
  query (fun d =>
    let fp_u :=
      join (fun fp u => FitnessPlans.trainer_id fp =? Users.id u)
        (rows (fitness_plans d)) (rows (users d)) in
    let selected := filter (fun '(fp, _) => FitnessPlans.is_active fp =? 1) fp_u in
    (* ORDER BY fp.created_at DESC *)
    let ordered :=
      order_by (fun '(fp1, _) '(fp2, _) =>
                  FitnessPlans.created_at fp1 >=? FitnessPlans.created_at fp2)
        selected in
    map plan_select ordered).

Definition get_plan_details (plan_id : Z) : M (option plan_row) :=
  query (fun d =>
    let fp_u :=
      join (fun fp u => FitnessPlans.trainer_id fp =? Users.id u)
        (rows (fitness_plans d)) (rows (users d)) in
    fetchone (map plan_select
                (filter (fun '(fp, _) => FitnessPlans.id fp =? plan_id) fp_u))).

(** A row of [get_trainer_plans]. *)
Record trainer_plan_row := TrainerPlanRow
  { tp_id : Z;
    tp_title : string;
    tp_description : string;
    tp_price : float;
    tp_duration_days : Z;
    tp_difficulty : string;
    tp_category : string;
    tp_is_active : Z;
    tp_created_at : Z }.

Definition trainer_plan_select (fp : FitnessPlans.row) : trainer_plan_row :=
  TrainerPlanRow (FitnessPlans.id fp) (FitnessPlans.title fp)
    (FitnessPlans.description fp) (FitnessPlans.price fp)
    (FitnessPlans.duration_days fp) (FitnessPlans.difficulty fp)
    (FitnessPlans.category fp) (FitnessPlans.is_active fp)
    (FitnessPlans.created_at fp).

Definition get_trainer_plans (trainer_id : Z) : M (list trainer_plan_row) :=
  query (fun d =>
    map trainer_plan_select
      (order_by (fun fp1 fp2 =>
                   FitnessPlans.created_at fp1 >=? FitnessPlans.created_at fp2)
         (filter (fun fp => FitnessPlans.trainer_id fp =? trainer_id)
            (rows (fitness_plans d))))).

(** A row of [get_user_subscriptions]. *)
Record subscription_row := SubscriptionRow
  { sr_id : Z;
    sr_plan_id : Z;
    sr_title : string;
    sr_description : string;
    sr_price : float;
    sr_duration_days : Z;
    sr_trainer_name : string;
    sr_start_date : Z;
    sr_end_date : Z;
    sr_amount_paid : float }.

Definition subscription_select
  (r : Subscriptions.row * FitnessPlans.row * Users.row) : subscription_row :=
  let '(s, fp, u) := r in
  SubscriptionRow (Subscriptions.id s) (FitnessPlans.id fp) (FitnessPlans.title fp)
    (FitnessPlans.description fp) (FitnessPlans.price fp)
    (FitnessPlans.duration_days fp) (Users.name u) (Subscriptions.start_date s)
    (Subscriptions.end_date s) (Subscriptions.amount_paid s).

Definition get_user_subscriptions (user_id : Z) : M (list subscription_row) :=
  query (fun d =>
    let s_fp :=
      join (fun s fp => Subscriptions.plan_id s =? FitnessPlans.id fp)
        (rows (subscriptions d)) (rows (fitness_plans d)) in
    let s_fp_u :=
      join (fun '(_, fp) u => FitnessPlans.trainer_id fp =? Users.id u)
        s_fp (rows (users d)) in
    let selected :=
      filter (fun '(s, _, _) => Subscriptions.user_id s =? user_id) s_fp_u in
    (* ORDER BY s.created_at DESC *)
    let ordered :=
      order_by (fun '(s1, _, _) '(s2, _, _) =>
                  Subscriptions.created_at s1 >=? Subscriptions.created_at s2)
        selected in
    map subscription_select ordered).

(** The badge of a subscription in the "My Subscriptions" tab (lines
    1105-1109): [days_left] is the stored [end_date] minus today's date. *)
Inductive badge := DaysLeft (days_left : Z) | Expired.

Definition subscription_badge (end_date now : Z) : badge :=
  let days_left := end_date - date_of now in
  if days_left >? 0 then DaysLeft days_left else Expired.

(** A row of [get_followed_trainers] and of [get_all_trainers]; the columns
    of [trainers] are [NULL] when the [LEFT JOIN] finds no profile. *)
Record trainer_row := TrainerRow
  { tr_id : Z;
    tr_name : string;
    tr_email : string;
    tr_specialization : option string;
    tr_experience_years : option Z;
    tr_bio : option string }.

Definition trainer_select (u : Users.row) (t : option Trainers.row) : trainer_row :=
  match t with
  | Some t =>
      TrainerRow (Users.id u) (Users.name u) (Users.email u)
        (Trainers.specialization t) (Trainers.experience_years t) (Trainers.bio t)
  | None => TrainerRow (Users.id u) (Users.name u) (Users.email u) None None None
  end.

Definition get_followed_trainers (user_id : Z) : M (list trainer_row) :=
  query (fun d =>
    let f_u :=
      join (fun f u => Followers.trainer_id f =? Users.id u)
        (rows (followers d)) (rows (users d)) in
    let f_u_t :=
      left_join (fun '(_, u) t => Users.id u =? Trainers.user_id t)
        f_u (rows (trainers d)) in
    let selected :=
      filter (fun '(f, _, _) => Followers.user_id f =? user_id) f_u_t in
    map (fun '(_, u, t) => trainer_select u t) selected).

Definition get_all_trainers : M (list trainer_row) :=
  query (fun d =>
    let u_t :=
      left_join (fun u t => Users.id u =? Trainers.user_id t)
        (rows (users d)) (rows (trainers d)) in
    let selected :=
      filter (fun '(u, _) => (Users.account_type u =? "trainer")%string) u_t in
    map (fun '(u, t) => trainer_select u t) selected).

(** [get_all_users]: SQLite reads the double-quoted ["user"] as a string
    literal, no column having that name. *)
Definition get_all_users : M (list token_view) :=
  query (fun d =>
    map view_of
      (filter (fun u => (Users.account_type u =? "user")%string) (rows (users d)))).

(** A row of [get_chat_contacts]. *)
Record contact_row := ContactRow
  { ct_id : Z;
    ct_name : string;
    ct_account_type : string }.

Definition contact_row_eq_dec (a b : contact_row) : {a = b} + {a <> b}.
Proof. decide equality; first [apply string_dec | apply Z.eq_dec]. Defined.

(** [CASE WHEN m.sender_id = ? THEN m.receiver_id ELSE m.sender_id END]. *)
Definition contact_id (user_id : Z) (m : Messages.row) : Z :=
  if Messages.sender_id m =? user_id then Messages.receiver_id m
  else Messages.sender_id m.

(** [SELECT DISTINCT]: one copy of each row is kept. *)
Definition get_chat_contacts (user_id : Z) : M (list contact_row) :=
  query (fun d =>
    let m_u :=
      join (fun m u => Users.id u =? contact_id user_id m)
        (rows (messages d)) (rows (users d)) in
    let selected :=
      filter (fun '(m, _) => (Messages.sender_id m =? user_id)
                             || (Messages.receiver_id m =? user_id)) m_u in
    nodup contact_row_eq_dec
      (map (fun '(m, u) =>
              ContactRow (contact_id user_id m) (Users.name u) (Users.account_type u))
         selected)).

(** The plan columns of a feed row, as a row of [get_all_plans]. *)
Definition feed_plan (r : feed_row) : plan_row :=
  PlanRow (fr_id r) (fr_title r) (fr_description r) (fr_price r)
    (fr_duration_days r) (fr_difficulty r) (fr_category r) (fr_trainer_id r)
    (fr_trainer_name r) (fr_created_at r).

(** ** The constraints of the schema

    The primary key of a table: no two rows share an id, and no id is ahead
    of the [AUTOINCREMENT] counter. *)
Definition table_ok {A : Type} (id : A -> Z) (t : table A) : Prop :=
  NoDup (map id (rows t)) /\ forall r, In r (rows t) -> id r <= seq t.

Definition subscription_key (s : Subscriptions.row) : Z * Z :=
  (Subscriptions.user_id s, Subscriptions.plan_id s).

Definition follower_key (f : Followers.row) : Z * Z :=
  (Followers.user_id f, Followers.trainer_id f).

(** The primary keys and the [UNIQUE] constraints of [init_db]. *)
Record schema_ok (d : db) : Prop := SchemaOk
  { ok_users : table_ok Users.id (users d);
    ok_trainers : table_ok Trainers.id (trainers d);
    ok_fitness_plans : table_ok FitnessPlans.id (fitness_plans d);
    ok_subscriptions : table_ok Subscriptions.id (subscriptions d);
    ok_followers : table_ok Followers.id (followers d);
    ok_messages : table_ok Messages.id (messages d);
    unique_email : NoDup (map Users.email (rows (users d)));
    unique_trainer : NoDup (map Trainers.user_id (rows (trainers d)));
    unique_subscription : NoDup (map subscription_key (rows (subscriptions d)));
    unique_follower : NoDup (map follower_key (rows (followers d))) }.

(** What [users] keeps of a user besides the token columns. *)
Definition stored_identity (u : Users.row)
  : Z * string * string * string * string * string * string * Z :=
  (Users.id u, Users.name u, Users.email u, Users.mobile u, Users.password_hash u,
   Users.salt u, Users.account_type u, Users.created_at u).

(** What [messages] keeps of a message besides [is_read]. *)
Definition message_content (m : Messages.row) : Z * Z * Z * string * Z :=
  (Messages.id m, Messages.sender_id m, Messages.receiver_id m, Messages.message m,
   Messages.created_at m).

(** ** Workouts and goals

    The tables [workouts] and [goals] of [init_db] and the functions over
    them; no other function reads or writes these two tables, so they are
    kept in a store of their own. *)

Module Workouts.
Record row := mk
  { id : Z;
    user_id : Z;
    workout_name : string;
    duration_minutes : Z;
    calories_burned : Z;
    workout_date : Z;
    notes : string;
    created_at : Z }.
End Workouts.

Module Goals.
Record row := mk
  { id : Z;
    user_id : Z;
    goal_type : string;
    target_value : float;
    current_value : float;
    deadline : Z;
    status : string;
    created_at : Z }.
End Goals.

Record tracker := Tracker
  { workouts : table Workouts.row;
    goals : table Goals.row }.

Definition init_tracker : tracker := Tracker (Table [] 0) (Table [] 0).

Definition add_workout (user_id : Z) (workout_name : string) (duration calories : Z)
  (workout_date : Z) (notes : string) (ts : Z) (t : tracker) : unit * tracker :=
  let '(w, _) :=
    insert (fun i => Workouts.mk i user_id workout_name duration calories
                       workout_date notes ts) (workouts t) in
  (tt, Tracker w (goals t)).

(** A row of [get_user_workouts]. *)
Record workout_row := WorkoutRow
  { wr_id : Z;
    wr_workout_name : string;
    wr_duration_minutes : Z;
    wr_calories_burned : Z;
    wr_workout_date : Z;
    wr_notes : string }.

Definition workout_select (w : Workouts.row) : workout_row :=
  WorkoutRow (Workouts.id w) (Workouts.workout_name w) (Workouts.duration_minutes w)
    (Workouts.calories_burned w) (Workouts.workout_date w) (Workouts.notes w).

Definition get_user_workouts (user_id : Z) (t : tracker) : list workout_row :=
  map workout_select
    (* ORDER BY workout_date DESC *)
    (order_by (fun w1 w2 => Workouts.workout_date w1 >=? Workouts.workout_date w2)
       (filter (fun w => Workouts.user_id w =? user_id) (rows (workouts t)))).

(** [current_value] and [status] take their defaults, [0] and ['active']. *)
Definition add_goal (user_id : Z) (goal_type : string) (target_value : float)
  (deadline : Z) (ts : Z) (t : tracker) : unit * tracker :=
  let '(g, _) :=
    insert (fun i => Goals.mk i user_id goal_type target_value 0%float deadline
                       "active" ts) (goals t) in
  (tt, Tracker (workouts t) g).

(** A row of [get_user_goals]. *)
Record goal_row := GoalRow
  { gr_id : Z;
    gr_goal_type : string;
    gr_target_value : float;
    gr_current_value : float;
    gr_deadline : Z;
    gr_status : string }.

Definition goal_select (g : Goals.row) : goal_row :=
  GoalRow (Goals.id g) (Goals.goal_type g) (Goals.target_value g)
    (Goals.current_value g) (Goals.deadline g) (Goals.status g).

Definition get_user_goals (user_id : Z) (t : tracker) : list goal_row :=
  map goal_select
    (* ORDER BY created_at DESC *)
    (order_by (fun g1 g2 => Goals.created_at g1 >=? Goals.created_at g2)
       (filter (fun g => Goals.user_id g =? user_id) (rows (goals t)))).

Definition set_current_value (v : float) (g : Goals.row) : Goals.row :=
  Goals.mk (Goals.id g) (Goals.user_id g) (Goals.goal_type g) (Goals.target_value g)
    v (Goals.deadline g) (Goals.status g) (Goals.created_at g).

(** [UPDATE goals SET current_value = ? WHERE id = ?]. *)
Definition update_goal_progress (goal_id : Z) (current_value : float) (t : tracker)
  : unit * tracker :=
  (tt,
   Tracker (workouts t)
     (update (fun g => Goals.id g =? goal_id) (set_current_value current_value)
        (goals t))).

(** A call that writes [workouts] or [goals]. *)
Inductive tracker_call :=
| AddWorkout (user_id : Z) (workout_name : string) (duration calories : Z)
    (workout_date : Z) (notes : string) (ts : Z)
| AddGoal (user_id : Z) (goal_type : string) (target_value : float) (deadline : Z)
    (ts : Z)
| UpdateGoalProgress (goal_id : Z) (current_value : float).

Definition tracker_exec (c : tracker_call) (t : tracker) : tracker :=
  match c with
  | AddWorkout user_id workout_name duration calories workout_date notes ts =>
      snd (add_workout user_id workout_name duration calories workout_date notes ts t)
  | AddGoal user_id goal_type target_value deadline ts =>
      snd (add_goal user_id goal_type target_value deadline ts t)
  | UpdateGoalProgress goal_id current_value =>
      snd (update_goal_progress goal_id current_value t)
  end.

Definition tracker_run (cs : list tracker_call) (t : tracker) : tracker :=
  fold_left (fun t c => tracker_exec c t) cs t.

(** The row of [get_user_goals] after [update_goal_progress]. *)
Definition with_current_value (goal_id : Z) (v : float) (g : goal_row) : goal_row :=
  if gr_id g =? goal_id
  then GoalRow (gr_id g) (gr_goal_type g) (gr_target_value g) v (gr_deadline g)
         (gr_status g)
  else g.

(** ** More of the concrete run

    The rows of bob and of the plan P1 in [scenario_db], and the database
    after alice and bob have exchanged two messages. *)
Definition bob_row : Users.row :=
  Users.mk 2 "bob" "bob@x.com" "555-0101" (toy_sha256 "secret1salt-b") "salt-b"
    "trainer" (Some "token-b") (Some (plus_days t0 7)) 2.

Definition p1_row : FitnessPlans.row :=
  FitnessPlans.mk 1 2 "P1" "thirty days" 10%float 30 "Beginner" "General" 1 4 4.

Definition chat_db : db :=
  run toy_sha256 [SendMessage 1 2 "hello" 9; SendMessage 2 1 "welcome" 10]
    subscribed_db.

(** ** Tactics

    Unfolding the calls of the model and the case analyses they make. *)
Ltac unfold_call :=
  unfold create_user, create_user_insert_user, create_user_insert_trainer,
    verify_user, create_fitness_plan, update_fitness_plan, delete_fitness_plan,
    subscribe_to_plan, follow_trainer, unfollow_trainer, send_message,
    mark_messages_read, update_trainer_profile, insert_unique, insert, delete.

Ltac break_call :=
  repeat (cbn [fst snd];
          match goal with
          | |- context [if ?b then _ else _] => destruct b
          | |- context [match ?x with Some _ => _ | None => _ end] => destruct x
          | |- context [match ?x with inl _ => _ | inr _ => _ end] => destruct x
          end).

Ltac break_mark :=
  repeat match goal with
         | |- context [if ?c then set_is_read 1 ?m else ?m] => destruct c
         end.

(** * Properties *)

(** ** Result sets *)

Section ResultSets.

Context {A B : Type}.

Lemma fetchone_is_some (f : A -> B) (p : A -> bool) (l : list A) :
  match fetchone (map f (filter p l)) with Some _ => true | None => false end
  = existsb p l.
Proof.
  induction l as [|x l IH]; simpl; [reflexivity|].
  destruct (p x); simpl; [reflexivity | exact IH].
Qed.

Lemma fetchone_none (p : A -> bool) (l : list A) :
  fetchone (filter p l) = None <-> existsb p l = false.
Proof.
  induction l as [|x l IH]; simpl; [tauto|].
  destruct (p x); simpl; [split; discriminate | exact IH].
Qed.

Lemma fetchone_some (p : A -> bool) (l : list A) (x : A) :
  fetchone (filter p l) = Some x -> In x l /\ p x = true.
Proof.
  unfold fetchone. intros H.
  apply filter_In. destruct (filter p l); inversion H; subst. now left.
Qed.

Lemma existsb_false_forall (p : A -> bool) (l : list A) :
  existsb p l = false <-> forall x, In x l -> p x = false.
Proof.
  induction l as [|x l IH]; simpl.
  - split; [intros _ y [] | reflexivity].
  - rewrite orb_false_iff, IH. split.
    + intros [Hx Hl] y [<-|Hy]; auto.
    + intros H. split; [apply H | intros y Hy; apply H]; auto.
Qed.

Lemma update_twice (c : A -> bool) (set : A -> A) (t : table A) :
  (forall r, c (set r) = c r) ->
  (forall r, set (set r) = set r) ->
  update c set (update c set t) = update c set t.
Proof.
  intros Hc Hs. unfold update. simpl. f_equal.
  rewrite map_map. apply map_ext. intros r.
  destruct (c r) eqn:E; [rewrite Hc, E; apply Hs | now rewrite E].
Qed.

End ResultSets.

(** ** [ORDER BY] returns the selected rows, sorted *)

Section OrderBy.

Context {A : Type} (le : A -> A -> bool).

Lemma insert_by_perm (x : A) (l : list A) : Permutation (x :: l) (insert_by le x l).
Proof.
  induction l as [|y l IH]; simpl; [reflexivity|].
  destruct (le x y); [reflexivity|].
  rewrite perm_swap. now apply perm_skip.
Qed.

Lemma order_by_perm (l : list A) : Permutation l (order_by le l).
Proof.
  induction l as [|x l IH]; simpl; [constructor|].
  rewrite <- insert_by_perm. now apply perm_skip.
Qed.

Lemma order_by_In (x : A) (l : list A) : In x (order_by le l) <-> In x l.
Proof.
  split; apply Permutation_in; [symmetry|]; apply order_by_perm.
Qed.

Hypothesis le_total : forall x y, le x y = false -> le y x = true.

Lemma insert_by_sorted (x : A) (l : list A) :
  Sorted (fun a b => le a b = true) l ->
  Sorted (fun a b => le a b = true) (insert_by le x l).
Proof.
  induction 1 as [|y l Hl IH Hy]; simpl.
  - repeat constructor.
  - destruct (le x y) eqn:E.
    + repeat constructor; assumption.
    + constructor; [exact IH|].
      destruct Hy as [|z l' Hz]; simpl.
      * constructor. now apply le_total.
      * destruct (le x z); constructor; auto.
Qed.

Lemma order_by_sorted (l : list A) : Sorted (fun a b => le a b = true) (order_by le l).
Proof.
  induction l as [|x l IH]; simpl; [constructor | now apply insert_by_sorted].
Qed.

End OrderBy.

Lemma Sorted_map {A B : Type} (f : A -> B) (R : A -> A -> Prop) (S : B -> B -> Prop)
  (l : list A) :
  (forall a b, R a b -> S (f a) (f b)) -> Sorted R l -> Sorted S (map f l).
Proof.
  intros HRS. induction 1 as [|x l Hl IH Hx]; simpl; constructor; auto.
  destruct Hx; simpl; constructor; auto.
Qed.

(** ** Followers *)

Lemma rowcount_positive {A : Type} (p : A -> bool) (l : list A) :
  (Z.of_nat (List.length (filter p l)) >? 0) = existsb p l.
Proof.
  induction l as [|x l IH]; simpl; [reflexivity|].
  destruct (p x); simpl; [|exact IH].
  apply Z.gtb_lt. lia.
Qed.

Lemma deleted_rows_gone {A : Type} (p : A -> bool) (l : list A) :
  existsb p (filter (fun r => negb (p r)) l) = false.
Proof.
  apply existsb_false_forall. intros x Hx.
  apply filter_In in Hx. destruct Hx as [_ Hx]. now apply negb_true_iff.
Qed.

Lemma is_following_spec (user_id trainer_id : Z) (d : db) :
  fst (is_following user_id trainer_id d)
  = existsb (follow_edge user_id trainer_id) (rows (followers d)).
Proof. unfold is_following, query. simpl. apply fetchone_is_some. Qed.

Lemma follow_edge_refl (i user_id trainer_id ts : Z) :
  follow_edge user_id trainer_id (Followers.mk i user_id trainer_id ts) = true.
Proof. unfold follow_edge. simpl. now rewrite !Z.eqb_refl. Qed.

Lemma follow_trainer_following (user_id trainer_id ts : Z) (d : db) :
  fst (is_following user_id trainer_id (snd (follow_trainer user_id trainer_id ts d)))
  = true.
Proof.
  rewrite is_following_spec. unfold follow_trainer, insert_unique.
  destruct (existsb _ (rows (followers d))) eqn:E; simpl; [exact E|].
  rewrite existsb_app. simpl. rewrite follow_edge_refl. apply orb_true_iff. right. reflexivity.
Qed.

Lemma follow_trainer_already (user_id trainer_id ts : Z) (d : db) :
  fst (is_following user_id trainer_id d) = true ->
  follow_trainer user_id trainer_id ts d
  = ((false, "Already following this trainer"), d).
Proof.
  rewrite is_following_spec. intros E.
  unfold follow_trainer, insert_unique. now rewrite E.
Qed.

Lemma unfollow_trainer_result (user_id trainer_id : Z) (d : db) :
  fst (unfollow_trainer user_id trainer_id d) = fst (is_following user_id trainer_id d).
Proof.
  rewrite is_following_spec. unfold unfollow_trainer, delete. simpl.
  apply rowcount_positive.
Qed.

Lemma unfollow_trainer_removes (user_id trainer_id : Z) (d : db) :
  fst (is_following user_id trainer_id (snd (unfollow_trainer user_id trainer_id d)))
  = false.
Proof.
  rewrite is_following_spec. unfold unfollow_trainer, delete. simpl.
  apply deleted_rows_gone.
Qed.

(** C7.  [follow_trainer] then [unfollow_trainer] leaves [is_following]
    false; [unfollow_trainer] returns [True] exactly when a follow edge
    existed, and the edge is gone afterwards; a second [follow_trainer]
    with no [unfollow_trainer] in between is refused with "Already following
    this trainer" and writes nothing. *)
Theorem follow_unfollow_is_following (user_id trainer_id ts ts' : Z) (d : db) :
  fst (is_following user_id trainer_id
         (snd (unfollow_trainer user_id trainer_id
                 (snd (follow_trainer user_id trainer_id ts d))))) = false
  /\ (fst (unfollow_trainer user_id trainer_id d) = true
      <-> fst (is_following user_id trainer_id d) = true)
  /\ fst (is_following user_id trainer_id
            (snd (unfollow_trainer user_id trainer_id d))) = false
  /\ follow_trainer user_id trainer_id ts'
       (snd (follow_trainer user_id trainer_id ts d))
     = ((false, "Already following this trainer"),
        snd (follow_trainer user_id trainer_id ts d)).
Proof.
  split; [apply unfollow_trainer_removes|].
  split; [now rewrite unfollow_trainer_result|].
  split; [apply unfollow_trainer_removes|].
  apply follow_trainer_already, follow_trainer_following.
Qed.

(** ** Chat *)

Lemma mark_messages_read_twice (user_id sender_id : Z) (d : db) :
  snd (mark_messages_read user_id sender_id (snd (mark_messages_read user_id sender_id d)))
  = snd (mark_messages_read user_id sender_id d).
Proof.
  unfold mark_messages_read, set_messages. simpl. f_equal.
  apply update_twice; reflexivity.
Qed.

Lemma mark_messages_read_rows (user_id sender_id : Z) (l : list Messages.row) :
  Forall2
    (fun m m' =>
       Messages.id m' = Messages.id m
       /\ Messages.sender_id m' = Messages.sender_id m
       /\ Messages.receiver_id m' = Messages.receiver_id m
       /\ Messages.message m' = Messages.message m
       /\ Messages.created_at m' = Messages.created_at m
       /\ (Messages.sender_id m = sender_id /\ Messages.receiver_id m = user_id ->
           Messages.is_read m' = 1)
       /\ (~ (Messages.sender_id m = sender_id /\ Messages.receiver_id m = user_id) ->
           Messages.is_read m' = Messages.is_read m))
    l
    (map (fun m => if (Messages.receiver_id m =? user_id)
                      && (Messages.sender_id m =? sender_id)
                   then set_is_read 1 m else m) l).
Proof.
  induction l as [|m l IH]; simpl; constructor; [|exact IH].
  destruct (Z.eqb_spec (Messages.receiver_id m) user_id) as [Hr|Hr];
    destruct (Z.eqb_spec (Messages.sender_id m) sender_id) as [Hs|Hs];
    simpl; repeat split; auto; intros; tauto.
Qed.

(** C8.  [mark_messages_read] is idempotent: a second call leaves the very
    database of the first, hence the same [get_unread_count]; and it sets
    [is_read = 1] on the messages from [sender_id] to [user_id] and changes
    nothing else, in the messages or in the other tables. *)
Theorem mark_messages_read_idempotent (user_id sender_id : Z) (d : db) :
  snd (mark_messages_read user_id sender_id (snd (mark_messages_read user_id sender_id d)))
  = snd (mark_messages_read user_id sender_id d)
  /\ (forall u,
         fst (get_unread_count u
                (snd (mark_messages_read user_id sender_id
                        (snd (mark_messages_read user_id sender_id d)))))
         = fst (get_unread_count u (snd (mark_messages_read user_id sender_id d))))
  /\ Forall2
       (fun m m' =>
          Messages.id m' = Messages.id m
          /\ Messages.sender_id m' = Messages.sender_id m
          /\ Messages.receiver_id m' = Messages.receiver_id m
          /\ Messages.message m' = Messages.message m
          /\ Messages.created_at m' = Messages.created_at m
          /\ (Messages.sender_id m = sender_id /\ Messages.receiver_id m = user_id ->
              Messages.is_read m' = 1)
          /\ (~ (Messages.sender_id m = sender_id /\ Messages.receiver_id m = user_id) ->
              Messages.is_read m' = Messages.is_read m))
       (rows (messages d))
       (rows (messages (snd (mark_messages_read user_id sender_id d))))
  /\ users (snd (mark_messages_read user_id sender_id d)) = users d
  /\ trainers (snd (mark_messages_read user_id sender_id d)) = trainers d
  /\ fitness_plans (snd (mark_messages_read user_id sender_id d)) = fitness_plans d
  /\ subscriptions (snd (mark_messages_read user_id sender_id d)) = subscriptions d
  /\ followers (snd (mark_messages_read user_id sender_id d)) = followers d.
Proof.
  split; [apply mark_messages_read_twice|].
  split; [intros u; now rewrite mark_messages_read_twice|].
  split; [apply mark_messages_read_rows|].
  repeat split.
Qed.

Lemma in_join {A B : Type} (on : A -> B -> bool) (l : list A) (r : list B) (a : A) (b : B) :
  In (a, b) (join on l r) <-> In a l /\ In b r /\ on a b = true.
Proof.
  unfold join. rewrite in_flat_map. split.
  - intros [x [Hx Hin]]. apply in_map_iff in Hin.
    destruct Hin as [y [Heq Hy]]. inversion Heq; subst.
    apply filter_In in Hy. tauto.
  - intros [Ha [Hb Hon]]. exists a. split; [exact Ha|].
    apply in_map, filter_In. tauto.
Qed.

Lemma get_conversation_In (user1_id user2_id : Z) (d : db) (r : conversation_row) :
  In r (fst (get_conversation user1_id user2_id d))
  <-> exists m u,
      In m (rows (messages d)) /\ In u (rows (users d))
      /\ Messages.sender_id m = Users.id u
      /\ ((Messages.sender_id m = user1_id /\ Messages.receiver_id m = user2_id)
          \/ (Messages.sender_id m = user2_id /\ Messages.receiver_id m = user1_id))
      /\ r = conversation_select (m, u).
Proof.
  unfold get_conversation, query. simpl. rewrite in_map_iff. split.
  - intros [[m u] [Hr Hin]]. apply order_by_In, filter_In in Hin.
    destruct Hin as [Hin Hsel]. apply in_join in Hin.
    apply orb_true_iff in Hsel. rewrite !andb_true_iff, !Z.eqb_eq in Hsel.
    rewrite Z.eqb_eq in Hin.
    exists m, u. repeat split; try tauto. now symmetry.
  - intros [m [u [Hm [Hu [Hid [Hb Hr]]]]]]. exists (m, u).
    split; [now symmetry|]. apply order_by_In, filter_In. split.
    + apply in_join. rewrite Z.eqb_eq. tauto.
    + apply orb_true_iff. rewrite !andb_true_iff, !Z.eqb_eq. exact Hb.
Qed.

(** C9.  [get_conversation] gives the same rows in the same order whichever
    way round the two users are passed; the rows are those of the messages
    exchanged between the two (joined with the sender's name), in ascending
    order of [created_at]; and the database is left as it was. *)
Theorem get_conversation_symmetric (user1_id user2_id : Z) (d : db) :
  fst (get_conversation user1_id user2_id d) = fst (get_conversation user2_id user1_id d)
  /\ Sorted (fun r1 r2 => cr_created_at r1 <= cr_created_at r2)
       (fst (get_conversation user1_id user2_id d))
  /\ (forall r,
         In r (fst (get_conversation user1_id user2_id d))
         <-> exists m u,
             In m (rows (messages d)) /\ In u (rows (users d))
             /\ Messages.sender_id m = Users.id u
             /\ ((Messages.sender_id m = user1_id /\ Messages.receiver_id m = user2_id)
                 \/ (Messages.sender_id m = user2_id /\ Messages.receiver_id m = user1_id))
             /\ r = conversation_select (m, u))
  /\ snd (get_conversation user1_id user2_id d) = d
  /\ snd (get_conversation user2_id user1_id d) = d.
Proof.
  split; [|split; [|split; [|split; reflexivity]]].
  - unfold get_conversation, query. simpl. do 2 f_equal.
    apply filter_ext. intros [m u]. apply orb_comm.
  - unfold get_conversation, query. simpl.
    eapply Sorted_map; [|apply order_by_sorted].
    + intros [m1 u1] [m2 u2]. simpl. apply Z.leb_le.
    + intros [m1 u1] [m2 u2] H. apply Z.leb_le. apply Z.leb_gt in H. lia.
  - intros r. apply get_conversation_In.
Qed.

(** ** Tokens *)

Lemma token_is_iff (tok : string) (u : Users.row) :
  token_is tok u = true <-> Users.auth_token u = Some tok.
Proof.
  unfold token_is. destruct (Users.auth_token u) as [t|].
  - rewrite String.eqb_eq. split; congruence.
  - split; discriminate.
Qed.

Lemma expires_after_iff (now : Z) (u : Users.row) :
  expires_after now u = true <-> exists e, Users.token_expiry u = Some e /\ now < e.
Proof.
  unfold expires_after. destruct (Users.token_expiry u) as [e|].
  - rewrite Z.gtb_lt. split; [eauto|]. intros [e' [He Hlt]]. congruence.
  - split; [discriminate | intros [e [He _]]; discriminate].
Qed.

Lemma verify_token_some (tok : string) (now : Z) (d : db) (v : token_view) :
  fst (verify_token tok now d) = Some v ->
  exists u, In u (rows (users d))
            /\ Users.auth_token u = Some tok
            /\ (exists e, Users.token_expiry u = Some e /\ now < e)
            /\ v = view_of u.
Proof.
  unfold verify_token, query. simpl.
  destruct (fetchone _) as [u|] eqn:E; [|discriminate].
  intros Hv. apply fetchone_some in E. destruct E as [Hin Hp].
  apply andb_true_iff in Hp. rewrite token_is_iff, expires_after_iff in Hp.
  exists u. intuition congruence.
Qed.

Lemma verify_token_none (tok : string) (now : Z) (d : db) :
  (forall u, In u (rows (users d)) -> token_is tok u && expires_after now u = false) ->
  fst (verify_token tok now d) = None.
Proof.
  intros H. apply existsb_false_forall, fetchone_none in H.
  unfold verify_token, query. simpl. now rewrite H.
Qed.

Lemma verify_token_found (tok : string) (now : Z) (d : db) (u : Users.row) :
  In u (rows (users d)) -> token_is tok u = true -> expires_after now u = true ->
  exists v, fst (verify_token tok now d) = Some v.
Proof.
  intros Hin Ht He. unfold verify_token, query. simpl.
  destruct (fetchone _) as [u'|] eqn:E; [eauto|].
  apply fetchone_none in E.
  rewrite existsb_false_forall in E. specialize (E u Hin).
  rewrite Ht, He in E. discriminate.
Qed.

Section CredentialStore.

Variable sha256 : string -> string.

(** C10.  When the email is not in [users], or the hash recomputed with the
    stored salt differs from the stored hash, [verify_user] returns [None]
    and leaves the database as it was, so every token that verified before
    the attempt verifies after it, with the same result. *)
Theorem verify_user_failure_writes_nothing
  (email password new_token : string) (now : Z) (d : db) :
  (existsb (fun u => (Users.email u =? email)%string) (rows (users d)) = false
   \/ exists user,
       fetchone (filter (fun u => (Users.email u =? email)%string) (rows (users d)))
       = Some user
       /\ hash_password sha256 password (Users.salt user) <> Users.password_hash user) ->
  fst (verify_user sha256 email password new_token now d) = None
  /\ snd (verify_user sha256 email password new_token now d) = d
  /\ (forall tok now',
         verify_token tok now' (snd (verify_user sha256 email password new_token now d))
         = verify_token tok now' d).
Proof.
  intros H.
  assert (E : verify_user sha256 email password new_token now d = (None, d)).
  { unfold verify_user. destruct H as [H|[user [Hu Hh]]].
    - apply fetchone_none in H. now rewrite H.
    - rewrite Hu. apply String.eqb_neq in Hh. now rewrite Hh. }
  rewrite E. simpl. auto.
Qed.

(** The converse: a [None] from [verify_user] is one of the two failures. *)
Lemma verify_user_none_inv (email password new_token : string) (now : Z) (d : db) :
  fst (verify_user sha256 email password new_token now d) = None ->
  existsb (fun u => (Users.email u =? email)%string) (rows (users d)) = false
  \/ exists user,
      fetchone (filter (fun u => (Users.email u =? email)%string) (rows (users d)))
      = Some user
      /\ hash_password sha256 password (Users.salt user) <> Users.password_hash user.
Proof.
  unfold verify_user.
  destruct (fetchone _) as [user|] eqn:E.
  - destruct (String.eqb_spec (hash_password sha256 password (Users.salt user))
                (Users.password_hash user)) as [Hh|Hh]; simpl; [discriminate|].
    intros _. right. eauto.
  - intros _. left. now apply fetchone_none.
Qed.

Lemma verify_user_success (email password new_token : string) (now : Z) (d : db)
  (user : Users.row) :
  fetchone (filter (fun u => (Users.email u =? email)%string) (rows (users d)))
  = Some user ->
  hash_password sha256 password (Users.salt user) = Users.password_hash user ->
  verify_user sha256 email password new_token now d
  = (Some (LoginView (Users.id user) (Users.name user) (Users.email user)
             (Users.account_type user) new_token),
     set_users
       (update (fun u => Users.id u =? Users.id user)
          (set_token new_token (plus_days now 7)) (users d)) d).
Proof.
  intros Hu Hh. unfold verify_user. rewrite Hu.
  apply String.eqb_eq in Hh. now rewrite Hh.
Qed.

(** The rows of [users] after the [UPDATE] of a successful login. *)
Lemma rotated_rows (new_token : string) (expiry uid : Z) (t : table Users.row)
  (u' : Users.row) :
  In u' (rows (update (fun u => Users.id u =? uid) (set_token new_token expiry) t)) ->
  (Users.id u' = uid /\ Users.auth_token u' = Some new_token
   /\ Users.token_expiry u' = Some expiry)
  \/ (Users.id u' <> uid /\ In u' (rows t)).
Proof.
  unfold update. simpl. rewrite in_map_iff. intros [u [Hu Hin]].
  destruct (Z.eqb_spec (Users.id u) uid) as [E|E]; subst u'; simpl; auto.
Qed.

(** C3.  A successful [verify_user] overwrites the user's token: the token
    the user held before no longer verifies, the new token verifies as this
    user until seven days after the login and not later, and no other token
    verifies as this user.  The draw of [generate_auth_token] is taken fresh
    (no row of [users] holds it), and the old token is held by this user
    only. *)
Theorem verify_user_rotates_token
  (email password new_token old : string) (now : Z) (d : db) (user : Users.row) :
  fetchone (filter (fun u => (Users.email u =? email)%string) (rows (users d)))
  = Some user ->
  hash_password sha256 password (Users.salt user) = Users.password_hash user ->
  Users.auth_token user = Some old ->
  fresh_token new_token d ->
  (forall u, In u (rows (users d)) -> Users.id u <> Users.id user ->
             Users.auth_token u <> Some old) ->
  fst (verify_user sha256 email password new_token now d)
  = Some (LoginView (Users.id user) (Users.name user) (Users.email user)
            (Users.account_type user) new_token)
  /\ (forall now',
         fst (verify_token old now'
                (snd (verify_user sha256 email password new_token now d))) = None)
  /\ (forall now', now' < plus_days now 7 ->
         exists v,
           fst (verify_token new_token now'
                  (snd (verify_user sha256 email password new_token now d))) = Some v
           /\ tv_id v = Users.id user)
  /\ (forall now', plus_days now 7 <= now' ->
         fst (verify_token new_token now'
                (snd (verify_user sha256 email password new_token now d))) = None)
  /\ (forall tok now' v,
         fst (verify_token tok now'
                (snd (verify_user sha256 email password new_token now d))) = Some v ->
         tv_id v = Users.id user ->
         tok = new_token /\ now' < plus_days now 7).
Proof.
  intros Hu Hh Hold Hfresh Hother.
  rewrite (verify_user_success _ _ _ _ _ _ Hu Hh). cbn [fst snd].
  pose proof (fetchone_some _ _ _ Hu) as [Hin _].
  assert (Hneq : old <> new_token).
  { intros ->. exact (Hfresh user Hin Hold). }
  split; [reflexivity|]. split; [|split; [|split]].
  - intros now'. apply verify_token_none. simpl. intros u' Hu'.
    apply andb_false_iff. left.
    destruct (token_is old u') eqn:E; [|reflexivity].
    apply token_is_iff in E.
    apply rotated_rows in Hu'. destruct Hu' as [[_ [Ht _]]|[Hid Hu']].
    + congruence.
    + exfalso. exact (Hother u' Hu' Hid E).
  - intros now' Hlt.
    destruct (verify_token_found new_token now'
                (set_users (update (fun u => Users.id u =? Users.id user)
                              (set_token new_token (plus_days now 7)) (users d)) d)
                (set_token new_token (plus_days now 7) user)) as [v Hv].
    + simpl. apply in_map_iff. exists user. now rewrite Z.eqb_refl.
    + apply token_is_iff. reflexivity.
    + apply expires_after_iff. simpl. eauto.
    + exists v. split; [exact Hv|].
      apply verify_token_some in Hv. destruct Hv as [u' [Hu' [Ht [_ ->]]]].
      simpl in Hu'. apply rotated_rows in Hu'. destruct Hu' as [[Hid _]|[_ Hu']].
      * exact Hid.
      * exfalso. exact (Hfresh u' Hu' Ht).
  - intros now' Hge. apply verify_token_none. simpl. intros u' Hu'.
    apply rotated_rows in Hu'. destruct Hu' as [[_ [_ He]]|[_ Hu']].
    + apply andb_false_iff. right. unfold expires_after. rewrite He.
      rewrite Z.gtb_ltb. apply Z.ltb_ge. exact Hge.
    + apply andb_false_iff. left.
      destruct (token_is new_token u') eqn:E; [|reflexivity].
      apply token_is_iff in E. exfalso. exact (Hfresh u' Hu' E).
  - intros tok now' v Hv Hid.
    apply verify_token_some in Hv. destruct Hv as [u' [Hu' [Ht [[e [He Hlt]] ->]]]].
    simpl in Hu', Hid. apply rotated_rows in Hu'.
    destruct Hu' as [[_ [Ht' He']]|[Hid' _]]; [|contradiction].
    split; [congruence|]. congruence.
Qed.

(** The [users] table after a signup that reported success. *)
Lemma create_user_success
  (name email mobile password account_type salt auth_token msg : string)
  (tok : option string) (now ts : Z) (d : db) :
  fst (create_user sha256 name email mobile password account_type salt auth_token
         now ts d) = (true, msg, tok) ->
  tok = Some auth_token
  /\ existsb (fun u => (Users.email u =? email)%string) (rows (users d)) = false
  /\ users (snd (create_user sha256 name email mobile password account_type salt
                   auth_token now ts d))
     = Table (rows (users d)
              ++ [Users.mk (seq (users d) + 1) name email mobile
                    (hash_password sha256 password salt) salt account_type
                    (Some auth_token) (Some (plus_days now 7)) ts])
         (seq (users d) + 1).
Proof.
  unfold create_user, create_user_insert_user, create_user_insert_trainer,
    insert_unique, insert.
  destruct (existsb _ (rows (users d))) eqn:E; simpl; [discriminate|].
  destruct (account_type =? "trainer")%string; simpl.
  - destruct (existsb _ (rows (trainers d))); simpl; [discriminate|].
    intros H; inversion H; auto.
  - intros H; inversion H; auto.
Qed.

Lemma create_user_duplicate
  (name email mobile password account_type salt auth_token : string)
  (now ts : Z) (d : db) :
  existsb (fun u => (Users.email u =? email)%string) (rows (users d)) = true ->
  create_user sha256 name email mobile password account_type salt auth_token now ts d
  = ((false, "Email already exists!", None), d).
Proof.
  intros E. unfold create_user, create_user_insert_user, insert_unique.
  now rewrite E.
Qed.

(** C5.  A signup that reports success returns the token it stored; that
    token verifies at any time before seven days after the signup (as the
    new user, when the draw of [generate_auth_token] is fresh); and any later
    signup with the same email is refused with "Email already exists!" and
    leaves the whole database, the existing user included, as it was. *)
Theorem create_user_token_verifies
  (name email mobile password account_type salt auth_token msg : string)
  (tok : option string) (now ts : Z) (d : db) :
  fst (create_user sha256 name email mobile password account_type salt auth_token
         now ts d) = (true, msg, tok) ->
  tok = Some auth_token
  /\ (forall now', now' < plus_days now 7 ->
         exists v,
           fst (verify_token auth_token now'
                  (snd (create_user sha256 name email mobile password account_type
                          salt auth_token now ts d))) = Some v)
  /\ (fresh_token auth_token d ->
      forall now', now' < plus_days now 7 ->
         fst (verify_token auth_token now'
                (snd (create_user sha256 name email mobile password account_type
                        salt auth_token now ts d)))
         = Some (TokenView (seq (users d) + 1) name email account_type))
  /\ (forall name2 mobile2 password2 account_type2 salt2 auth_token2 now2 ts2,
         create_user sha256 name2 email mobile2 password2 account_type2 salt2
           auth_token2 now2 ts2
           (snd (create_user sha256 name email mobile password account_type salt
                   auth_token now ts d))
         = ((false, "Email already exists!", None),
            snd (create_user sha256 name email mobile password account_type salt
                   auth_token now ts d))).
Proof.
  intros Hok. apply create_user_success in Hok. destruct Hok as [Htok [Hnew Hrows]].
  split; [exact Htok|]. split; [|split].
  - intros now' Hlt.
    eapply verify_token_found with
      (u := Users.mk (seq (users d) + 1) name email mobile
              (hash_password sha256 password salt) salt account_type
              (Some auth_token) (Some (plus_days now 7)) ts).
    + rewrite Hrows. simpl. apply in_or_app. right. now left.
    + apply token_is_iff. reflexivity.
    + apply expires_after_iff. simpl. eauto.
  - intros Hfresh now' Hlt. unfold verify_token, query. cbn [fst].
    rewrite Hrows. cbn [rows]. rewrite filter_app.
    assert (E : filter (fun u => token_is auth_token u && expires_after now' u)
                  (rows (users d)) = []).
    { assert (F : fetchone (filter (fun u => token_is auth_token u
                                             && expires_after now' u)
                              (rows (users d))) = None).
      { apply fetchone_none, existsb_false_forall. intros u Hu.
        apply andb_false_iff. left.
        destruct (token_is auth_token u) eqn:T; [|reflexivity].
        apply token_is_iff in T. exfalso. exact (Hfresh u Hu T). }
      unfold fetchone in F. destruct (filter _ (rows (users d))); [reflexivity|discriminate]. }
    rewrite E. simpl. unfold token_is, expires_after. simpl.
    rewrite String.eqb_refl. simpl.
    apply Z.gtb_lt in Hlt. now rewrite Hlt.
  - intros. apply create_user_duplicate. rewrite Hrows. simpl.
    rewrite existsb_app. simpl. rewrite String.eqb_refl.
    apply orb_true_iff. right. reflexivity.
Qed.

(** Fresh draws keep every token with one user: the assumption of C3 on
    the old token is an invariant of the store. *)
Lemma verify_user_keeps_tokens_unique (email password new_token : string) (now : Z)
  (d : db) :
  token_owners_unique d -> fresh_token new_token d ->
  token_owners_unique (snd (verify_user sha256 email password new_token now d)).
Proof.
  intros Hu Hf. unfold verify_user.
  destruct (fetchone _) as [user|]; [|exact Hu].
  destruct (_ =? _)%string; [|exact Hu].
  cbn [snd]. intros u1 u2 tok H1 H2 T1 T2. cbn in H1, H2.
  apply rotated_rows in H1, H2.
  destruct H1 as [[I1 [A1 _]]|[_ H1]], H2 as [[I2 [A2 _]]|[_ H2]].
  - congruence.
  - exfalso. apply (Hf u2 H2). congruence.
  - exfalso. apply (Hf u1 H1). congruence.
  - exact (Hu u1 u2 tok H1 H2 T1 T2).
Qed.

Lemma create_user_keeps_tokens_unique
  (name email mobile password account_type salt auth_token : string) (now ts : Z)
  (d : db) :
  token_owners_unique d -> fresh_token auth_token d ->
  token_owners_unique
    (snd (create_user sha256 name email mobile password account_type salt auth_token
            now ts d)).
Proof.
  intros Hu Hf.
  assert (G : token_owners_unique
                (set_users
                   (Table (rows (users d)
                           ++ [Users.mk (seq (users d) + 1) name email mobile
                                 (hash_password sha256 password salt) salt
                                 account_type (Some auth_token)
                                 (Some (plus_days now 7)) ts])
                      (seq (users d) + 1)) d)).
  { intros u1 u2 tok H1 H2 T1 T2. cbn in H1, H2.
    apply in_app_or in H1, H2.
    destruct H1 as [H1|[<-|[]]], H2 as [H2|[<-|[]]].
    - exact (Hu u1 u2 tok H1 H2 T1 T2).
    - exfalso. apply (Hf u1 H1). cbn in T2. congruence.
    - exfalso. apply (Hf u2 H2). cbn in T1. congruence.
    - reflexivity. }
  unfold create_user, create_user_insert_user, create_user_insert_trainer,
    insert_unique, insert.
  destruct (existsb _ (rows (users d))); cbn; [exact Hu|].
  destruct (account_type =? "trainer")%string; [|exact G].
  destruct (existsb _ (rows (trainers d))); cbn; exact G.
Qed.

End CredentialStore.

(** ** Subscriptions *)

Lemma is_subscribed_spec (user_id plan_id now : Z) (d : db) :
  fst (is_subscribed user_id plan_id now d)
  = existsb (fun s => subscription_of user_id plan_id s
                      && (Subscriptions.end_date s >=? date_of now))
      (rows (subscriptions d)).
Proof. unfold is_subscribed, query. simpl. apply fetchone_is_some. Qed.

Lemma fetchone_map_none {A B : Type} (f : A -> B) (p : A -> bool) (l : list A) :
  fetchone (map f (filter p l)) = None <-> existsb p l = false.
Proof.
  rewrite <- (fetchone_is_some f p l).
  destruct (fetchone (map f (filter p l))); split; congruence.
Qed.

(** A prior row for the pair is reported before anything else is looked at. *)
Lemma subscribe_to_plan_already (user_id plan_id : Z) (amount : float) (now ts : Z)
  (d : db) :
  existsb (subscription_of user_id plan_id) (rows (subscriptions d)) = true ->
  subscribe_to_plan user_id plan_id amount now ts d
  = (inr (false, "Already subscribed to this plan"), d).
Proof.
  intros E. unfold subscribe_to_plan.
  destruct (fetchone _) eqn:F; [reflexivity|].
  apply fetchone_map_none in F. congruence.
Qed.

Lemma subscribe_to_plan_succeeds (user_id plan_id : Z) (amount : float) (now ts : Z)
  (d : db) (duration : Z) :
  existsb (subscription_of user_id plan_id) (rows (subscriptions d)) = false ->
  fetchone (map FitnessPlans.duration_days
              (filter (fun p => FitnessPlans.id p =? plan_id) (rows (fitness_plans d))))
  = Some duration ->
  date_min <= date_of now + duration <= date_max ->
  subscribe_to_plan user_id plan_id amount now ts d
  = (inr (true, "Subscription successful!"),
     set_subscriptions
       (Table (rows (subscriptions d)
               ++ [Subscriptions.mk (seq (subscriptions d) + 1) user_id plan_id
                     (date_of now) (date_of now + duration) "completed" amount ts])
          (seq (subscriptions d) + 1)) d).
Proof.
  intros E P R. unfold subscribe_to_plan.
  apply (fetchone_map_none Subscriptions.id) in E. rewrite E, P.
  unfold date_plus_days.
  destruct R as [R1 R2]. apply Z.leb_le in R1, R2. rewrite R1, R2. reflexivity.
Qed.

(** What a successful [subscribe_to_plan] found and wrote. *)
Lemma subscribe_to_plan_success (user_id plan_id : Z) (amount : float) (now ts : Z)
  (d : db) (msg : string) :
  fst (subscribe_to_plan user_id plan_id amount now ts d) = inr (true, msg) ->
  existsb (subscription_of user_id plan_id) (rows (subscriptions d)) = false
  /\ exists duration,
      fetchone (map FitnessPlans.duration_days
                  (filter (fun p => FitnessPlans.id p =? plan_id)
                     (rows (fitness_plans d)))) = Some duration
      /\ date_min <= date_of now + duration <= date_max.
Proof.
  unfold subscribe_to_plan.
  destruct (fetchone (map Subscriptions.id _)) eqn:F; [discriminate|].
  apply fetchone_map_none in F. intros H. split; [exact F|].
  destruct (fetchone (map FitnessPlans.duration_days _)) as [duration|];
    [|discriminate].
  exists duration. split; [reflexivity|].
  unfold date_plus_days in H.
  destruct (date_min <=? _) eqn:R1; [|discriminate].
  destruct (_ <=? date_max) eqn:R2; [|discriminate].
  apply Z.leb_le in R1, R2. lia.
Qed.

(** C4.  When there is no row yet for the pair, the plan exists and the end
    date is a date, [subscribe_to_plan] succeeds; from then on, in every
    database that still holds the rows of [subscriptions] (they are never
    deleted), a call for the same pair returns "Already subscribed to this
    plan" and writes nothing, whatever the date and whatever the plans table
    holds: also after the subscription has expired, and also after the plan
    has been deleted. *)
Theorem subscribe_to_plan_twice (user_id plan_id : Z) (amount : float) (now ts : Z)
  (d : db) (duration : Z) :
  existsb (subscription_of user_id plan_id) (rows (subscriptions d)) = false ->
  fetchone (map FitnessPlans.duration_days
              (filter (fun p => FitnessPlans.id p =? plan_id) (rows (fitness_plans d))))
  = Some duration ->
  date_min <= date_of now + duration <= date_max ->
  fst (subscribe_to_plan user_id plan_id amount now ts d)
  = inr (true, "Subscription successful!")
  /\ (forall d2 amount2 now2 ts2,
         incl (rows (subscriptions
                       (snd (subscribe_to_plan user_id plan_id amount now ts d))))
           (rows (subscriptions d2)) ->
         subscribe_to_plan user_id plan_id amount2 now2 ts2 d2
         = (inr (false, "Already subscribed to this plan"), d2))
  /\ (forall trainer_id amount2 now2 ts2,
         fst (subscribe_to_plan user_id plan_id amount2 now2 ts2
                (snd (delete_fitness_plan plan_id trainer_id
                        (snd (subscribe_to_plan user_id plan_id amount now ts d)))))
         = inr (false, "Already subscribed to this plan")).
Proof.
  intros E P R. rewrite (subscribe_to_plan_succeeds _ _ _ _ _ _ _ E P R).
  cbn [fst snd].
  assert (G : forall d2,
             incl (rows (subscriptions d) ++
                   [Subscriptions.mk (seq (subscriptions d) + 1) user_id plan_id
                      (date_of now) (date_of now + duration) "completed" amount ts])
               (rows (subscriptions d2)) ->
             existsb (subscription_of user_id plan_id) (rows (subscriptions d2)) = true).
  { intros d2 Hincl. apply existsb_exists. eexists. split.
    - apply Hincl, in_or_app. right. left. reflexivity.
    - unfold subscription_of. simpl. now rewrite !Z.eqb_refl. }
  split; [reflexivity|]. split.
  - intros d2 amount2 now2 ts2 Hincl.
    apply subscribe_to_plan_already, G, Hincl.
  - intros trainer_id amount2 now2 ts2.
    rewrite subscribe_to_plan_already; [reflexivity|].
    apply G. unfold delete_fitness_plan, delete. simpl. apply incl_refl.
Qed.

(** C2, as the code has it.  After a successful [subscribe_to_plan], which
    stores [start_date = today] and [end_date = start_date + duration_days],
    [is_subscribed] holds on the same day when the duration is not negative,
    and on a later day it holds exactly when that day is not after
    [start_date + duration_days]: the day [start_date + duration_days] is
    still covered, and [is_subscribed] turns false exactly when
    [today > start_date + duration_days]. *)
Theorem is_subscribed_window (user_id plan_id : Z) (amount : float) (now ts : Z)
  (d : db) (duration : Z) :
  existsb (subscription_of user_id plan_id) (rows (subscriptions d)) = false ->
  fetchone (map FitnessPlans.duration_days
              (filter (fun p => FitnessPlans.id p =? plan_id) (rows (fitness_plans d))))
  = Some duration ->
  date_min <= date_of now + duration <= date_max ->
  fst (subscribe_to_plan user_id plan_id amount now ts d)
  = inr (true, "Subscription successful!")
  /\ (exists s,
         In s (rows (subscriptions
                       (snd (subscribe_to_plan user_id plan_id amount now ts d))))
         /\ subscription_of user_id plan_id s = true
         /\ Subscriptions.start_date s = date_of now
         /\ Subscriptions.end_date s = Subscriptions.start_date s + duration)
  /\ (0 <= duration ->
      fst (is_subscribed user_id plan_id now
             (snd (subscribe_to_plan user_id plan_id amount now ts d))) = true)
  /\ (forall now',
         fst (is_subscribed user_id plan_id now'
                (snd (subscribe_to_plan user_id plan_id amount now ts d))) = false
         <-> date_of now' > date_of now + duration).
Proof.
  intros E P R. rewrite (subscribe_to_plan_succeeds _ _ _ _ _ _ _ E P R).
  cbn [fst snd].
  assert (W : forall now',
             fst (is_subscribed user_id plan_id now'
                    (set_subscriptions
                       (Table (rows (subscriptions d)
                               ++ [Subscriptions.mk (seq (subscriptions d) + 1)
                                     user_id plan_id (date_of now)
                                     (date_of now + duration) "completed" amount ts])
                          (seq (subscriptions d) + 1)) d))
             = (date_of now + duration >=? date_of now')).
  { intros now'. rewrite is_subscribed_spec. simpl. rewrite existsb_app.
    replace (existsb _ (rows (subscriptions d))) with false.
    - simpl. unfold subscription_of. simpl. rewrite !Z.eqb_refl. simpl.
      apply orb_false_r.
    - symmetry. apply existsb_false_forall. intros s Hs.
      rewrite existsb_false_forall in E. now rewrite (E s Hs). }
  split; [reflexivity|]. split; [|split].
  - eexists. split; [simpl; apply in_or_app; right; left; reflexivity|].
    unfold subscription_of. simpl. rewrite !Z.eqb_refl. auto.
  - intros Hd. rewrite W. apply Z.geb_le. lia.
  - intros now'. rewrite W. rewrite Z.geb_leb, Z.leb_gt. lia.
Qed.

(** ** Personalized feed *)

Lemma in_left_join {A B : Type} (on : A -> B -> bool) (l : list A) (r : list B)
  (a : A) (ob : option B) :
  In (a, ob) (left_join on l r)
  <-> In a l /\ match ob with
                | Some b => In b r /\ on a b = true
                | None => existsb (on a) r = false
                end.
Proof.
  unfold left_join. rewrite in_flat_map. split.
  - intros [x [Hx Hin]]. destruct (filter (on x) r) as [|b0 bs] eqn:F.
    + destruct Hin as [Heq|[]]. inversion Heq; subst. split; [exact Hx|].
      apply fetchone_none. now rewrite F.
    + apply in_map_iff in Hin. destruct Hin as [b [Heq Hb]].
      inversion Heq; subst. split; [exact Hx|].
      apply filter_In. now rewrite F.
  - intros [Ha Hob]. exists a. split; [exact Ha|].
    destruct ob as [b|].
    + apply filter_In in Hob. destruct (filter (on a) r) as [|b0 bs] eqn:F.
      * destruct Hob.
      * apply in_map_iff. eauto.
    + apply fetchone_none in Hob. unfold fetchone in Hob.
      destruct (filter (on a) r); [now left | discriminate].
Qed.

(** What [is_purchased] tells: whether a row of [subscriptions] exists for
    the user and the plan. *)
Lemma is_purchased_spec (user_id : Z) (d : db) (r : feed_row) :
  In r (fst (get_personalized_feed user_id d)) ->
  is_purchased r
  = if existsb (subscription_of user_id (fr_id r)) (rows (subscriptions d))
    then 1 else 0.
Proof.
  unfold get_personalized_feed, query. cbn [fst]. rewrite in_map_iff.
  intros [[[[fp u] f] s] [Hr Hin]].
  apply order_by_In, filter_In in Hin. destruct Hin as [Hin _].
  apply in_left_join in Hin. destruct Hin as [_ Hs].
  subst r. cbn [feed_select fr_id is_purchased].
  destruct s as [s|].
  - destruct Hs as [Hs Hon]. apply andb_true_iff in Hon.
    replace (existsb _ _) with true; [reflexivity|].
    symmetry. apply existsb_exists. exists s. split; [exact Hs|].
    unfold subscription_of. apply andb_true_iff. tauto.
  - replace (existsb _ _) with false; [reflexivity|].
    symmetry. rewrite existsb_false_forall in Hs |- *.
    intros s Hin. specialize (Hs s Hin). unfold subscription_of.
    rewrite andb_comm. exact Hs.
Qed.

(** C1, as the code has it.  On every row of the feed, [is_purchased] is 1
    exactly when [subscriptions] holds a row for the user and the plan,
    whatever its [end_date], and 0 otherwise.  So it is 1 whenever
    [is_subscribed] holds, and the two agree when no row of the user for the
    plan has expired. *)
Theorem is_purchased_is_subscription_row (user_id now : Z) (d : db) (r : feed_row) :
  In r (fst (get_personalized_feed user_id d)) ->
  (is_purchased r = 1 \/ is_purchased r = 0)
  /\ (is_purchased r = 1
      <-> existsb (subscription_of user_id (fr_id r)) (rows (subscriptions d)) = true)
  /\ (fst (is_subscribed user_id (fr_id r) now d) = true -> is_purchased r = 1)
  /\ ((forall s, In s (rows (subscriptions d)) ->
                 subscription_of user_id (fr_id r) s = true ->
                 date_of now <= Subscriptions.end_date s) ->
      (is_purchased r = 1 <-> fst (is_subscribed user_id (fr_id r) now d) = true)).
Proof.
  intros Hin. rewrite (is_purchased_spec _ _ _ Hin), is_subscribed_spec.
  destruct (existsb (subscription_of _ _) _) eqn:E.
  - split; [now left|]. split; [tauto|]. split; [reflexivity|].
    intros Hlive. split; [intros _ | reflexivity].
    apply existsb_exists in E. destruct E as [s [Hs Hsub]].
    apply existsb_exists. exists s. split; [exact Hs|].
    rewrite Hsub. simpl. apply Z.geb_le. now apply Hlive.
  - split; [now right|]. split; [split; discriminate|].
    assert (F : existsb (fun s => subscription_of user_id (fr_id r) s
                                  && (Subscriptions.end_date s >=? date_of now))
                  (rows (subscriptions d)) = false).
    { rewrite existsb_false_forall in E |- *. intros s Hs. now rewrite (E s Hs). }
    rewrite F. split; [discriminate|]. intros _. split; discriminate.
Qed.

(** ** The scenario of the specification *)

Example scenario_feed_before :
  map (fun r => (fr_title r, is_purchased r)) (fst (get_personalized_feed 1 scenario_db))
  = [("P1", 0)].
Proof. vm_compute. reflexivity. Qed.

Example scenario_feed_after :
  map (fun r => (fr_title r, is_purchased r)) (fst (get_personalized_feed 1 subscribed_db))
  = [("P1", 1)].
Proof. vm_compute. reflexivity. Qed.

Example scenario_subscribe_again :
  fst (subscribe_to_plan 1 1 10%float t0 6 subscribed_db)
  = inr (false, "Already subscribed to this plan").
Proof. vm_compute. reflexivity. Qed.

Example scenario_profile :
  map Trainers.user_id (rows (trainers scenario_db)) = [2]
  /\ missing_profiles scenario_db = [].
Proof. vm_compute. split; reflexivity. Qed.

(** ** Trainer profiles *)

Section TrainerProfiles.

Variable sha256 : string -> string.

(** The calls that write neither [users] nor [trainers]. *)
Lemma exec_frame (c : call) (d : db) :
  match c with
  | CreateUser _ _ _ _ _ _ _ _ _ | VerifyUser _ _ _ _
  | UpdateTrainerProfile _ _ _ _ => True
  | _ => users (exec sha256 c d) = users d /\ trainers (exec sha256 c d) = trainers d
  end.
Proof.
  destruct c; cbn [exec]; auto.
  - unfold subscribe_to_plan.
    destruct (fetchone (map Subscriptions.id _)); [now split|].
    destruct (fetchone (map FitnessPlans.duration_days _)); [|now split].
    destruct (date_plus_days _ _); now split.
  - unfold follow_trainer. destruct (insert_unique _ _ _) as [e|[t i]]; now split.
Qed.

Lemma create_user_preserves
  (name email mobile password account_type salt auth_token : string) (now ts : Z)
  (d : db) :
  trainer_profiles_complete d /\ profiles_behind_users d ->
  trainer_profiles_complete
    (snd (create_user sha256 name email mobile password account_type salt auth_token
            now ts d))
  /\ profiles_behind_users
       (snd (create_user sha256 name email mobile password account_type salt
               auth_token now ts d)).
Proof.
  intros [Hc Hb].
  unfold create_user, create_user_insert_user, create_user_insert_trainer,
    insert_unique, insert.
  destruct (existsb _ (rows (users d))) eqn:E; cbn [snd]; [now split|].
  assert (Hfree : existsb (fun t => Trainers.user_id t =? seq (users d) + 1)
                    (rows (trainers d)) = false).
  { apply existsb_false_forall. intros t Ht. apply Z.eqb_neq.
    specialize (Hb t Ht). lia. }
  destruct (String.eqb_spec account_type "trainer") as [Ht|Ht].
  - cbn. rewrite Hfree. cbn. split.
    + intros u Hu Hty. apply in_app_or in Hu. destruct Hu as [Hu|[<-|[]]].
      * destruct (Hc u Hu Hty) as [t [Hin Hid]].
        exists t. split; [apply in_or_app; now left | exact Hid].
      * eexists. split; [apply in_or_app; right; left; reflexivity | reflexivity].
    + intros t Hin. apply in_app_or in Hin. destruct Hin as [Hin|[<-|[]]]; cbn.
      * specialize (Hb t Hin). lia.
      * lia.
  - cbn. split.
    + intros u Hu Hty. apply in_app_or in Hu. destruct Hu as [Hu|[<-|[]]].
      * exact (Hc u Hu Hty).
      * contradiction.
    + intros t Hin. cbn in Hin |- *. specialize (Hb t Hin). lia.
Qed.

Lemma verify_user_preserves (email password new_token : string) (now : Z) (d : db) :
  trainer_profiles_complete d /\ profiles_behind_users d ->
  trainer_profiles_complete (snd (verify_user sha256 email password new_token now d))
  /\ profiles_behind_users (snd (verify_user sha256 email password new_token now d)).
Proof.
  intros [Hc Hb]. unfold verify_user.
  destruct (fetchone _) as [user|]; [|now split].
  destruct (_ =? _)%string; [|now split].
  cbn. split; [|exact Hb].
  intros u' Hu' Hty. apply in_map_iff in Hu'. destruct Hu' as [u [Heq Hu]].
  destruct (Users.id u =? Users.id user); subst u'; apply (Hc u Hu Hty).
Qed.

Lemma update_trainer_profile_preserves (user_id : Z) (specialization : string)
  (experience : Z) (bio : string) (d : db) :
  trainer_profiles_complete d /\ profiles_behind_users d ->
  trainer_profiles_complete
    (snd (update_trainer_profile user_id specialization experience bio d))
  /\ profiles_behind_users
       (snd (update_trainer_profile user_id specialization experience bio d)).
Proof.
  intros [Hc Hb]. unfold update_trainer_profile. cbn. split.
  - intros u Hu Hty. destruct (Hc u Hu Hty) as [t [Hin Hid]].
    exists (if Trainers.user_id t =? user_id
            then set_profile specialization experience bio t else t).
    split; [|now destruct (_ =? _)].
    cbn. apply in_map_iff. exists t. split; [reflexivity | exact Hin].
  - intros t' Hin. apply in_map_iff in Hin. destruct Hin as [t [Heq Hin]].
    specialize (Hb t Hin). destruct (_ =? _); now subst t'.
Qed.

Lemma exec_preserves (c : call) (d : db) :
  trainer_profiles_complete d /\ profiles_behind_users d ->
  trainer_profiles_complete (exec sha256 c d) /\ profiles_behind_users (exec sha256 c d).
Proof.
  intros H. pose proof (exec_frame c d) as F.
  destruct c;
    lazymatch type of F with
    | True => idtac
    | _ => destruct F as [Fu Ft];
           unfold trainer_profiles_complete, profiles_behind_users;
           rewrite Fu, Ft; exact H
    end.
  - now apply create_user_preserves.
  - now apply verify_user_preserves.
  - now apply update_trainer_profile_preserves.
Qed.

Lemma reachable_profiles (d : db) :
  reachable sha256 d -> trainer_profiles_complete d /\ profiles_behind_users d.
Proof.
  induction 1 as [|c d Hd IH].
  - split; intros x [].
  - now apply exec_preserves.
Qed.

Lemma missing_profiles_nil (d : db) :
  trainer_profiles_complete d <-> missing_profiles d = [].
Proof.
  unfold trainer_profiles_complete, missing_profiles.
  induction (rows (users d)) as [|u l IH]; cbn [filter].
  - split; [reflexivity | intros _ u []].
  - destruct (String.eqb_spec (Users.account_type u) "trainer") as [Ht|Ht];
      cbn [andb].
    + destruct (existsb _ (rows (trainers d))) eqn:E; cbn [negb].
      * rewrite <- IH. split.
        -- intros H x Hx. apply H. now right.
        -- intros H x [<-|Hx]; [intros _ | now apply H].
           apply existsb_exists in E. destruct E as [t [Hin Hid]].
           apply Z.eqb_eq in Hid. eauto.
      * split; [|discriminate]. intros H.
        destruct (H u (or_introl eq_refl) Ht) as [t [Hin Hid]].
        rewrite existsb_false_forall in E. specialize (E t Hin).
        apply Z.eqb_neq in E. contradiction.
    + rewrite <- IH. split.
      * intros H x Hx. apply H. now right.
      * intros H x [<-|Hx]; [contradiction | now apply H].
Qed.

(** C6, as the code has it.  In every database reached by complete calls,
    each trainer-typed user has a row in [trainers]; and there a signup of a
    trainer with an email not yet taken succeeds in two commits: the first
    leaves the new user, and only that user, without a profile row, and the
    second adds the profile row. *)
Theorem create_user_trainer_profile (d : db) :
  reachable sha256 d ->
  trainer_profiles_complete d
  /\ (forall name email mobile password salt auth_token now ts,
         existsb (fun u => (Users.email u =? email)%string) (rows (users d)) = false ->
         exists d1 d2,
           create_user_commits sha256 name email mobile password "trainer" salt
             auth_token now ts d = [d1; d2]
           /\ create_user sha256 name email mobile password "trainer" salt
                auth_token now ts d
              = ((true, "Account created successfully!", Some auth_token), d2)
           /\ map Users.id (missing_profiles d1) = [seq (users d) + 1]
           /\ missing_profiles d2 = []).
Proof.
  intros Hr. pose proof (reachable_profiles d Hr) as [Hc Hb].
  split; [exact Hc|].
  intros name email mobile password salt auth_token now ts E.
  assert (Hfree : existsb (fun t => Trainers.user_id t =? seq (users d) + 1)
                    (rows (trainers d)) = false).
  { apply existsb_false_forall. intros t Ht. apply Z.eqb_neq.
    specialize (Hb t Ht). lia. }
  pose proof (create_user_preserves name email mobile password "trainer" salt
                auth_token now ts d (conj Hc Hb)) as [Hc2 _].
  apply missing_profiles_nil in Hc2. revert Hc2.
  unfold create_user, create_user_commits, create_user_insert_user,
    create_user_insert_trainer, insert_unique, insert.
  rewrite E. cbn. rewrite Hfree. cbn. intros Hc2.
  do 2 eexists. split; [reflexivity|]. split; [reflexivity|].
  split; [|exact Hc2].
  unfold missing_profiles. cbn. rewrite filter_app. cbn.
  apply missing_profiles_nil in Hc. unfold missing_profiles in Hc. rewrite Hc.
  cbn. rewrite Hfree. reflexivity.
Qed.

(** In a reachable database a signup with an email not yet taken succeeds,
    for either account type. *)
Lemma create_user_fresh_email_succeeds
  (name email mobile password account_type salt auth_token : string) (now ts : Z)
  (d : db) :
  reachable sha256 d ->
  existsb (fun u => (Users.email u =? email)%string) (rows (users d)) = false ->
  fst (create_user sha256 name email mobile password account_type salt auth_token
         now ts d)
  = (true, "Account created successfully!", Some auth_token).
Proof.
  intros Hr E. pose proof (reachable_profiles d Hr) as [_ Hb].
  unfold create_user, create_user_insert_user, create_user_insert_trainer,
    insert_unique, insert.
  rewrite E. cbn.
  destruct (account_type =? "trainer")%string; [|reflexivity].
  replace (existsb _ (rows (trainers d))) with false; [reflexivity|].
  symmetry. apply existsb_false_forall. intros t Ht. apply Z.eqb_neq.
  specialize (Hb t Ht). lia.
Qed.

End TrainerProfiles.

(** ** The claims on the scenario *)

(** C1, as stated, fails: 31 days after alice subscribed to the 30-day plan
    P1, her feed still shows P1 with [is_purchased = 1] while
    [is_subscribed] is false. *)
Lemma is_purchased_after_expiry :
  map (fun r => (fr_id r, is_purchased r)) (fst (get_personalized_feed 1 subscribed_db))
  = [(1, 1)]
  /\ fst (is_subscribed 1 1 (plus_days t0 31) subscribed_db) = false.
Proof. vm_compute. split; reflexivity. Qed.

(** C1 on the scenario: the row of P1 in alice's feed after she subscribed. *)
Lemma is_purchased_is_subscription_row_scenario :
  In p1_purchased (fst (get_personalized_feed 1 subscribed_db))
  /\ (is_purchased p1_purchased = 1
      <-> existsb (subscription_of 1 (fr_id p1_purchased))
            (rows (subscriptions subscribed_db)) = true)
  /\ (fst (is_subscribed 1 (fr_id p1_purchased) (plus_days t0 31) subscribed_db) = true ->
      is_purchased p1_purchased = 1).
Proof.
  assert (Hin : In p1_purchased (fst (get_personalized_feed 1 subscribed_db))).
  { vm_compute. left. reflexivity. }
  split; [exact Hin|].
  pose proof (is_purchased_is_subscription_row 1 (plus_days t0 31) subscribed_db
                p1_purchased Hin) as [_ [H1 [H2 _]]].
  split; assumption.
Defined.

(** C2, as stated, fails: on the day [start_date + duration_days], which is
    after [start_date + duration_days - 1], alice's subscription to the
    30-day plan is still active. *)
Lemma is_subscribed_on_end_date :
  fst (subscribe_to_plan 1 1 10%float t0 5 scenario_db)
  = inr (true, "Subscription successful!")
  /\ date_of t0 + 30 - 1 < date_of (plus_days t0 30)
  /\ fst (is_subscribed 1 1 (plus_days t0 30)
            (snd (subscribe_to_plan 1 1 10%float t0 5 scenario_db))) = true.
Proof. vm_compute. repeat split; reflexivity. Qed.

(** C2 on the scenario: alice's subscription to the 30-day plan P1. *)
Lemma is_subscribed_window_scenario :
  fst (subscribe_to_plan 1 1 10%float t0 5 scenario_db)
  = inr (true, "Subscription successful!")
  /\ (forall now',
         fst (is_subscribed 1 1 now'
                (snd (subscribe_to_plan 1 1 10%float t0 5 scenario_db))) = false
         <-> date_of now' > date_of t0 + 30).
Proof.
  destruct (is_subscribed_window 1 1 10%float t0 5 scenario_db 30)
    as [H1 [_ [_ H2]]].
  - vm_compute. reflexivity.
  - vm_compute. reflexivity.
  - vm_compute. split; discriminate.
  - split; assumption.
Defined.

(** C4 on the scenario: alice subscribes to P1, then again after P1 is
    deleted. *)
Lemma subscribe_to_plan_twice_scenario :
  fst (subscribe_to_plan 1 1 10%float t0 5 scenario_db)
  = inr (true, "Subscription successful!")
  /\ (forall trainer_id amount2 now2 ts2,
         fst (subscribe_to_plan 1 1 amount2 now2 ts2
                (snd (delete_fitness_plan 1 trainer_id
                        (snd (subscribe_to_plan 1 1 10%float t0 5 scenario_db)))))
         = inr (false, "Already subscribed to this plan")).
Proof.
  destruct (subscribe_to_plan_twice 1 1 10%float t0 5 scenario_db 30)
    as [H1 [_ H2]].
  - vm_compute. reflexivity.
  - vm_compute. reflexivity.
  - vm_compute. split; discriminate.
  - split; assumption.
Defined.

Lemma reachable_run (sha256 : string -> string) (cs : list call) (d : db) :
  reachable sha256 d -> reachable sha256 (run sha256 cs d).
Proof.
  revert d. induction cs as [|c cs IH]; intros d Hd; [exact Hd|].
  apply IH. now constructor.
Qed.

(** C3 on the scenario: alice logs in a day after her signup. *)
Lemma verify_user_rotates_token_scenario :
  fst (verify_user toy_sha256 "alice@x.com" "secret1" "token-a2" (plus_days t0 1)
         scenario_db)
  = Some (LoginView 1 "alice" "alice@x.com" "user" "token-a2")
  /\ (forall now',
         fst (verify_token "token-a" now'
                (snd (verify_user toy_sha256 "alice@x.com" "secret1" "token-a2"
                        (plus_days t0 1) scenario_db))) = None)
  /\ (forall now', now' < plus_days (plus_days t0 1) 7 ->
         exists v,
           fst (verify_token "token-a2" now'
                  (snd (verify_user toy_sha256 "alice@x.com" "secret1" "token-a2"
                          (plus_days t0 1) scenario_db))) = Some v
           /\ tv_id v = 1).
Proof.
  destruct (verify_user_rotates_token toy_sha256 "alice@x.com" "secret1" "token-a2"
              "token-a" (plus_days t0 1) scenario_db alice_row)
    as [H1 [H2 [H3 _]]].
  - vm_compute. reflexivity.
  - vm_compute. reflexivity.
  - reflexivity.
  - intros u Hu. vm_compute in Hu.
    destruct Hu as [<-|[<-|[]]]; discriminate.
  - intros u Hu. vm_compute in Hu.
    destruct Hu as [<-|[<-|[]]]; [intros Hid; now contradiction Hid | discriminate].
  - split; [exact H1|]. split; [exact H2 | exact H3].
Defined.

(** C5 on the scenario: carol signs up, then her email is used again. *)
Lemma create_user_token_verifies_scenario :
  (forall now', now' < plus_days t0 7 ->
      fst (verify_token "token-c" now'
             (snd (create_user toy_sha256 "carol" "carol@x.com" "555-0102" "secret3"
                     "user" "salt-c" "token-c" t0 6 scenario_db)))
      = Some (TokenView 3 "carol" "carol@x.com" "user"))
  /\ fst (create_user toy_sha256 "carl" "carol@x.com" "555-0103" "secret4" "trainer"
            "salt-d" "token-d" (plus_days t0 1) 7
            (snd (create_user toy_sha256 "carol" "carol@x.com" "555-0102" "secret3"
                    "user" "salt-c" "token-c" t0 6 scenario_db)))
     = (false, "Email already exists!", None).
Proof.
  destruct (create_user_token_verifies toy_sha256 "carol" "carol@x.com" "555-0102"
              "secret3" "user" "salt-c" "token-c" "Account created successfully!"
              (Some "token-c") t0 6 scenario_db)
    as [_ [_ [H3 H4]]].
  - vm_compute. reflexivity.
  - split.
    + apply H3. intros u Hu. vm_compute in Hu.
      destruct Hu as [<-|[<-|[]]]; discriminate.
    + now rewrite H4.
Defined.

(** C10 on the scenario: alice's email with a wrong password. *)
Lemma verify_user_failure_scenario :
  fst (verify_user toy_sha256 "alice@x.com" "secret2" "token-a2" (plus_days t0 1)
         scenario_db) = None
  /\ snd (verify_user toy_sha256 "alice@x.com" "secret2" "token-a2" (plus_days t0 1)
            scenario_db) = scenario_db
  /\ fst (verify_token "token-a" (plus_days t0 2)
            (snd (verify_user toy_sha256 "alice@x.com" "secret2" "token-a2"
                    (plus_days t0 1) scenario_db)))
     = Some (TokenView 1 "alice" "alice@x.com" "user").
Proof.
  destruct (verify_user_failure_writes_nothing toy_sha256 "alice@x.com" "secret2"
              "token-a2" (plus_days t0 1) scenario_db) as [H1 [H2 H3]].
  - right. exists alice_row. split; [vm_compute; reflexivity|].
    vm_compute. discriminate.
  - split; [exact H1|]. split; [exact H2|].
    rewrite H3. vm_compute. reflexivity.
Defined.

(** C6, as stated, fails: the first commit of bob's signup as a trainer
    leaves a database file with the trainer-typed user 1 and no profile row;
    the profile row comes with the second commit. *)
Lemma create_user_commits_user_first :
  exists d1 d2,
    create_user_commits toy_sha256 "bob" "bob@x.com" "555-0101" "secret1" "trainer"
      "salt-b" "token-b" t0 2 init_db = [d1; d2]
    /\ fst (create_user toy_sha256 "bob" "bob@x.com" "555-0101" "secret1" "trainer"
              "salt-b" "token-b" t0 2 init_db)
       = (true, "Account created successfully!", Some "token-b")
    /\ map (fun u => (Users.id u, Users.account_type u)) (rows (users d1))
       = [(1, "trainer")]
    /\ rows (trainers d1) = []
    /\ map Users.id (missing_profiles d1) = [1]
    /\ map Trainers.user_id (rows (trainers d2)) = [1].
Proof.
  do 2 eexists. split; [vm_compute; reflexivity|].
  vm_compute. repeat split; reflexivity.
Qed.

(** C6 on the scenario: dave signs up as a trainer after the four calls. *)
Lemma create_user_trainer_profile_scenario :
  trainer_profiles_complete scenario_db
  /\ exists d1 d2,
      create_user_commits toy_sha256 "dave" "dave@x.com" "555-0104" "secret5"
        "trainer" "salt-e" "token-e" t0 8 scenario_db = [d1; d2]
      /\ create_user toy_sha256 "dave" "dave@x.com" "555-0104" "secret5" "trainer"
           "salt-e" "token-e" t0 8 scenario_db
         = ((true, "Account created successfully!", Some "token-e"), d2)
      /\ map Users.id (missing_profiles d1) = [seq (users scenario_db) + 1]
      /\ missing_profiles d2 = [].
Proof.
  destruct (create_user_trainer_profile toy_sha256 scenario_db) as [H1 H2].
  - apply reachable_run, reachable_init.
  - split; [exact H1|]. apply H2. vm_compute. reflexivity.
Defined.

(** * Further properties of the data-access layer *)

(** ** Tables under [INSERT], [UPDATE] and [DELETE] *)

Section TableFacts.

Context {A : Type} (id : A -> Z).

Lemma NoDup_map_filter {K : Type} (key : A -> K) (p : A -> bool) (l : list A) :
  NoDup (map key l) -> NoDup (map key (filter p l)).
Proof.
  induction l as [|x l IH]; simpl; [auto|].
  intros H. inversion H as [|? ? Hx Hl]; subst.
  destruct (p x); simpl; [|auto].
  constructor; [|auto].
  rewrite in_map_iff in *. intros [y [Hy Hin]]. apply Hx.
  exists y. split; [exact Hy|]. apply filter_In in Hin. tauto.
Qed.

Lemma NoDup_map_snoc {K : Type} (key : A -> K) (l : list A) (x : A) :
  NoDup (map key l) -> (forall y, In y l -> key y <> key x) ->
  NoDup (map key (l ++ [x])).
Proof.
  intros Hl Hx. rewrite map_app. simpl.
  apply NoDup_app; [exact Hl | repeat constructor; intros [] |].
  intros k Hk [<-|[]]. apply in_map_iff in Hk.
  destruct Hk as [y [Hy Hin]]. exact (Hx y Hin Hy).
Qed.

Lemma update_map {K : Type} (f : A -> K) (c : A -> bool) (set : A -> A)
  (t : table A) :
  (forall r, f (set r) = f r) ->
  map f (rows (update c set t)) = map f (rows t).
Proof.
  intros Hf. unfold update. simpl. rewrite map_map. apply map_ext.
  intros r. destruct (c r); [apply Hf | reflexivity].
Qed.

Lemma table_ok_insert (mk_row : Z -> A) (t : table A) :
  (forall i, id (mk_row i) = i) ->
  table_ok id t -> table_ok id (fst (insert mk_row t)).
Proof.
  intros Hid [Hn Hs]. unfold insert. simpl. split.
  - apply NoDup_map_snoc; [exact Hn|].
    intros y Hy. rewrite Hid. specialize (Hs y Hy). lia.
  - intros r Hr. simpl in Hr |- *. apply in_app_or in Hr.
    destruct Hr as [Hr|[<-|[]]].
    + specialize (Hs r Hr). lia.
    + rewrite Hid. lia.
Qed.

Lemma table_ok_update (c : A -> bool) (set : A -> A) (t : table A) :
  (forall r, id (set r) = id r) ->
  table_ok id t -> table_ok id (update c set t).
Proof.
  intros Hid [Hn Hs]. split.
  - now rewrite update_map.
  - intros r' Hr'. unfold update in Hr'. simpl in *. apply in_map_iff in Hr'.
    destruct Hr' as [r [<- Hr]]. specialize (Hs r Hr).
    destruct (c r); [now rewrite Hid | assumption].
Qed.

Lemma table_ok_delete (c : A -> bool) (t : table A) :
  table_ok id t -> table_ok id (fst (delete c t)).
Proof.
  intros [Hn Hs]. unfold delete. simpl. split.
  - now apply NoDup_map_filter.
  - intros r Hr. apply filter_In in Hr. now apply Hs.
Qed.

End TableFacts.

Lemma insert_unique_ok {A K : Type} (id : A -> Z) (key : A -> K)
  (conflict : A -> bool) (mk_row : Z -> A) (k : K) (t t' : table A) (i : Z) :
  insert_unique conflict mk_row t = inr (t', i) ->
  (forall j, id (mk_row j) = j) ->
  (forall j, key (mk_row j) = k) ->
  (forall r, key r = k -> conflict r = true) ->
  table_ok id t -> NoDup (map key (rows t)) ->
  table_ok id t' /\ NoDup (map key (rows t')).
Proof.
  unfold insert_unique. destruct (existsb conflict (rows t)) eqn:E; [discriminate|].
  intros H Hid Hkey Hc Hok Hn. inversion H; subst. split.
  - now apply (table_ok_insert id mk_row t).
  - apply NoDup_map_snoc; [exact Hn|]. intros y Hy Hk.
    rewrite existsb_false_forall in E. specialize (E y Hy).
    rewrite Hc in E; [discriminate|]. now rewrite Hk, Hkey.
Qed.

Lemma insert_ok {A : Type} (id : A -> Z) (mk_row : Z -> A) (t t' : table A) (i : Z) :
  insert mk_row t = (t', i) ->
  (forall j, id (mk_row j) = j) ->
  table_ok id t -> table_ok id t'.
Proof.
  intros E Hid H. replace t' with (fst (insert mk_row t)) by now rewrite E.
  now apply table_ok_insert.
Qed.

Lemma delete_ok {A K : Type} (id : A -> Z) (key : A -> K) (c : A -> bool)
  (t t' : table A) (n : Z) :
  delete c t = (t', n) ->
  table_ok id t -> NoDup (map key (rows t)) ->
  table_ok id t' /\ NoDup (map key (rows t')).
Proof.
  intros E H Hn. replace t' with (fst (delete c t)) by now rewrite E.
  split; [now apply table_ok_delete | now apply NoDup_map_filter].
Qed.

(** ** The schema's constraints in the reachable databases *)

Lemma schema_ok_set_users (t : table Users.row) (d : db) :
  schema_ok d -> table_ok Users.id t -> NoDup (map Users.email (rows t)) ->
  schema_ok (set_users t d).
Proof. intros [] ? ?. constructor; assumption. Qed.

Lemma schema_ok_set_trainers (t : table Trainers.row) (d : db) :
  schema_ok d -> table_ok Trainers.id t -> NoDup (map Trainers.user_id (rows t)) ->
  schema_ok (set_trainers t d).
Proof. intros [] ? ?. constructor; assumption. Qed.

Lemma schema_ok_set_fitness_plans (t : table FitnessPlans.row) (d : db) :
  schema_ok d -> table_ok FitnessPlans.id t -> schema_ok (set_fitness_plans t d).
Proof. intros [] ?. constructor; assumption. Qed.

Lemma schema_ok_set_subscriptions (t : table Subscriptions.row) (d : db) :
  schema_ok d -> table_ok Subscriptions.id t ->
  NoDup (map subscription_key (rows t)) ->
  schema_ok (set_subscriptions t d).
Proof. intros [] ? ?. constructor; assumption. Qed.

Lemma schema_ok_set_followers (t : table Followers.row) (d : db) :
  schema_ok d -> table_ok Followers.id t -> NoDup (map follower_key (rows t)) ->
  schema_ok (set_followers t d).
Proof. intros [] ? ?. constructor; assumption. Qed.

Lemma schema_ok_set_messages (t : table Messages.row) (d : db) :
  schema_ok d -> table_ok Messages.id t -> schema_ok (set_messages t d).
Proof. intros [] ?. constructor; assumption. Qed.

Lemma subscription_of_key (user_id plan_id : Z) (s : Subscriptions.row) :
  subscription_of user_id plan_id s = true <-> subscription_key s = (user_id, plan_id).
Proof.
  unfold subscription_of, subscription_key.
  rewrite andb_true_iff, !Z.eqb_eq. split; [intros [-> ->]; reflexivity|].
  intros H; inversion H; auto.
Qed.

Lemma follow_edge_key (user_id trainer_id : Z) (f : Followers.row) :
  follow_edge user_id trainer_id f = true <-> follower_key f = (user_id, trainer_id).
Proof.
  unfold follow_edge, follower_key.
  rewrite andb_true_iff, !Z.eqb_eq. split; [intros [-> ->]; reflexivity|].
  intros H; inversion H; auto.
Qed.

Section Schema.

Variable sha256 : string -> string.

Lemma create_user_schema_ok
  (name email mobile password account_type salt auth_token : string) (now ts : Z)
  (d : db) :
  schema_ok d ->
  schema_ok (snd (create_user sha256 name email mobile password account_type salt
                    auth_token now ts d)).
Proof.
  intros H. unfold create_user, create_user_insert_user.
  destruct (insert_unique _ _ (users d)) as [e|[t user_id]] eqn:Eu; [exact H|].
  assert (H1 : schema_ok (set_users t d)).
  { eapply (insert_unique_ok Users.id Users.email _ _ email) in Eu;
      [destruct Eu; now apply schema_ok_set_users | reflexivity | reflexivity | |
       apply H | apply H].
    intros r Hr. simpl in Hr. apply String.eqb_eq. exact Hr. }
  destruct (account_type =? "trainer")%string; [|exact H1].
  unfold create_user_insert_trainer.
  destruct (insert_unique _ _ (trainers _)) as [e|[t' i]] eqn:Et; [exact H1|].
  cbn [snd].
  eapply (insert_unique_ok Trainers.id Trainers.user_id _ _ user_id) in Et;
    [destruct Et; now apply schema_ok_set_trainers | reflexivity | reflexivity | |
     apply H1 | apply H1].
  intros r Hr. simpl in Hr. apply Z.eqb_eq. exact Hr.
Qed.

Lemma exec_schema_ok (c : call) (d : db) :
  schema_ok d -> schema_ok (exec sha256 c d).
Proof.
  intros H. destruct c; cbn [exec].
  - now apply create_user_schema_ok.
  - unfold verify_user. destruct (fetchone _) as [user|]; [|exact H].
    destruct (_ =? _)%string; [|exact H]. cbn [snd].
    apply schema_ok_set_users; [exact H | |].
    + apply table_ok_update; [reflexivity | apply H].
    + rewrite update_map; [apply H | reflexivity].
  - unfold create_fitness_plan.
    destruct (insert _ _) as [t i] eqn:E. cbn [snd].
    apply schema_ok_set_fitness_plans; [exact H|].
    eapply (insert_ok FitnessPlans.id); [exact E | reflexivity | apply H].
  - unfold update_fitness_plan. cbn [snd].
    apply schema_ok_set_fitness_plans; [exact H|].
    apply table_ok_update; [reflexivity | apply H].
  - unfold delete_fitness_plan.
    destruct (delete _ _) as [t n] eqn:E. cbn [snd].
    apply schema_ok_set_fitness_plans; [exact H|].
    eapply (delete_ok FitnessPlans.id FitnessPlans.id); [exact E | apply H | apply H].
  - unfold subscribe_to_plan.
    destruct (fetchone (map Subscriptions.id _)) eqn:F; [exact H|].
    destruct (fetchone (map FitnessPlans.duration_days _)); [|exact H].
    destruct (date_plus_days _ _) as [e|end_date]; [exact H|].
    destruct (insert _ _) as [t i] eqn:E. cbn [snd].
    apply fetchone_map_none in F. rewrite existsb_false_forall in F.
    apply schema_ok_set_subscriptions; [exact H | |].
    + eapply (insert_ok Subscriptions.id); [exact E | reflexivity | apply H].
    + unfold insert in E. inversion E; subst. cbn [rows].
      apply NoDup_map_snoc; [apply H|]. intros s Hs Hk.
      apply subscription_of_key in Hk. rewrite F in Hk; [discriminate | exact Hs].
  - unfold follow_trainer.
    destruct (insert_unique _ _ _) as [e|[t i]] eqn:E; [exact H|]. cbn [snd].
    eapply (insert_unique_ok Followers.id follower_key _ _ (user_id, trainer_id)) in E;
      [destruct E; now apply schema_ok_set_followers | reflexivity | reflexivity | |
       apply H | apply H].
    intros r Hr. now apply follow_edge_key.
  - unfold unfollow_trainer.
    destruct (delete _ _) as [t n] eqn:E. cbn [snd].
    eapply (delete_ok Followers.id follower_key) in E; [|apply H|apply H].
    destruct E. now apply schema_ok_set_followers.
  - unfold send_message.
    destruct (insert _ _) as [t i] eqn:E. cbn [snd].
    apply schema_ok_set_messages; [exact H|].
    eapply (insert_ok Messages.id); [exact E | reflexivity | apply H].
  - unfold mark_messages_read. cbn [snd].
    apply schema_ok_set_messages; [exact H|].
    apply table_ok_update; [reflexivity | apply H].
  - unfold update_trainer_profile. cbn [snd].
    apply schema_ok_set_trainers; [exact H | |].
    + apply table_ok_update; [reflexivity | apply H].
    + rewrite update_map; [apply H | reflexivity].
Qed.

Lemma reachable_schema (d : db) : reachable sha256 d -> schema_ok d.
Proof.
  induction 1 as [|c d Hd IH]; [|now apply exec_schema_ok].
  constructor; try (split; [constructor | intros r []]); constructor.
Qed.

(** X1.  In every database reached from [init_db] by the calls of the
    model, the [UNIQUE] constraints of the schema hold: no two users share
    an email, no two rows of [subscriptions] are for the same user and plan
    (the work of the check [subscribe_to_plan] makes before it inserts), no
    two rows of [followers] are the same edge, no user has two profile rows;
    and the ids of [users] and [fitness_plans] are pairwise distinct. *)
Theorem reachable_unique_keys (d : db) :
  reachable sha256 d ->
  NoDup (map Users.email (rows (users d)))
  /\ NoDup (map subscription_key (rows (subscriptions d)))
  /\ NoDup (map follower_key (rows (followers d)))
  /\ NoDup (map Trainers.user_id (rows (trainers d)))
  /\ NoDup (map Users.id (rows (users d)))
  /\ NoDup (map FitnessPlans.id (rows (fitness_plans d))).
Proof.
  intros H. apply reachable_schema in H. destruct H.
  repeat split; try assumption; [apply ok_users0 | apply ok_fitness_plans0].
Qed.

End Schema.

(** ** Followers: counts and lists *)

Lemma filter_none {A : Type} (p : A -> bool) (l : list A) :
  existsb p l = false -> filter (fun r => negb (p r)) l = l.
Proof.
  induction l as [|x l IH]; simpl; [reflexivity|].
  intros H. apply orb_false_iff in H. destruct H as [Hx Hl].
  rewrite Hx. simpl. now rewrite IH.
Qed.

Lemma followers_count_spec (trainer_id : Z) (d : db) :
  fst (get_trainer_followers_count trainer_id d)
  = Z.of_nat (List.length (filter (fun f => Followers.trainer_id f =? trainer_id)
                             (rows (followers d)))).
Proof. reflexivity. Qed.

(** X2.  [follow_trainer] succeeds exactly when the edge is not there yet,
    whoever the two ids belong to; the trainer's follower count then grows
    by one, and it is unchanged when the call is refused; the counts of the
    other trainers are never touched. *)
Theorem follow_trainer_count (user_id trainer_id ts : Z) (d : db) :
  fst (follow_trainer user_id trainer_id ts d)
  = (if fst (is_following user_id trainer_id d)
     then (false, "Already following this trainer")
     else (true, "Now following trainer!"))
  /\ fst (get_trainer_followers_count trainer_id
            (snd (follow_trainer user_id trainer_id ts d)))
     = fst (get_trainer_followers_count trainer_id d)
       + (if fst (is_following user_id trainer_id d) then 0 else 1)
  /\ (forall t, t <> trainer_id ->
         fst (get_trainer_followers_count t
                (snd (follow_trainer user_id trainer_id ts d)))
         = fst (get_trainer_followers_count t d)).
Proof.
  rewrite is_following_spec.
  unfold follow_trainer, insert_unique, insert.
  destruct (existsb _ (rows (followers d))) eqn:E; cbn [fst snd].
  - split; [reflexivity|]. split; [apply Zplus_0_r_reverse | reflexivity].
  - split; [reflexivity|]. split.
    + rewrite !followers_count_spec. cbn [set_followers followers rows].
      rewrite filter_app, length_app. cbn [filter Followers.trainer_id].
      rewrite Z.eqb_refl. cbn [List.length]. lia.
    + intros t Ht. rewrite !followers_count_spec.
      cbn [set_followers followers rows].
      rewrite filter_app, length_app. cbn [filter Followers.trainer_id].
      apply Z.eqb_neq in Ht. rewrite Z.eqb_sym in Ht. rewrite Ht.
      cbn [List.length]. lia.
Qed.

Lemma unfollow_count (user_id trainer_id : Z) (l : list Followers.row) :
  NoDup (map follower_key l) ->
  Z.of_nat (List.length
              (filter (fun f => Followers.trainer_id f =? trainer_id)
                 (filter (fun f => negb (follow_edge user_id trainer_id f)) l)))
  = Z.of_nat (List.length (filter (fun f => Followers.trainer_id f =? trainer_id) l))
    - (if existsb (follow_edge user_id trainer_id) l then 1 else 0).
Proof.
  induction l as [|x l IH]; [reflexivity|].
  intros H. inversion H as [|? ? Hx Hl]; subst. cbn [filter existsb].
  destruct (follow_edge user_id trainer_id x) eqn:E; cbn [negb orb].
  - assert (F : existsb (follow_edge user_id trainer_id) l = false).
    { apply existsb_false_forall. intros y Hy.
      destruct (follow_edge user_id trainer_id y) eqn:Ey; [|reflexivity].
      exfalso. apply Hx. apply in_map_iff. exists y. split; [|exact Hy].
      apply follow_edge_key in E, Ey. congruence. }
    rewrite (filter_none _ _ F).
    unfold follow_edge in E. apply andb_true_iff in E. destruct E as [_ E].
    rewrite E. cbn [List.length]. lia.
  - specialize (IH Hl). cbn [filter].
    destruct (Followers.trainer_id x =? trainer_id); cbn [List.length]; lia.
Qed.

Section FollowerCounts.

Variable sha256 : string -> string.

(** X3.  In a reachable database [unfollow_trainer] removes exactly the one
    edge: the trainer's follower count drops by one when the user was
    following, and stays when not. *)
Theorem unfollow_trainer_count (user_id trainer_id : Z) (d : db) :
  reachable sha256 d ->
  fst (get_trainer_followers_count trainer_id
         (snd (unfollow_trainer user_id trainer_id d)))
  = fst (get_trainer_followers_count trainer_id d)
    - (if fst (is_following user_id trainer_id d) then 1 else 0).
Proof.
  intros H. apply reachable_schema in H.
  rewrite is_following_spec, !followers_count_spec.
  unfold unfollow_trainer, delete. cbn [snd set_followers followers rows].
  apply unfollow_count, H.
Qed.

End FollowerCounts.

Lemma left_join_total {A B : Type} (on : A -> B -> bool) (l : list A) (r : list B)
  (a : A) :
  In a l -> exists ob, In (a, ob) (left_join on l r).
Proof.
  intros Ha. destruct (existsb (on a) r) eqn:E.
  - apply existsb_exists in E. destruct E as [b [Hb Hon]].
    exists (Some b). apply in_left_join. auto.
  - exists None. apply in_left_join. auto.
Qed.

Lemma tr_id_select (u : Users.row) (t : option Trainers.row) :
  tr_id (trainer_select u t) = Users.id u.
Proof. destruct t; reflexivity. Qed.

(** X4.  [get_followed_trainers] lists a trainer id exactly when the user
    follows it and a row of [users] has that id: an edge to an id that is
    not in [users] is kept by [is_following] and shown nowhere. *)
Theorem get_followed_trainers_ids (user_id trainer_id : Z) (d : db) :
  In trainer_id (map tr_id (fst (get_followed_trainers user_id d)))
  <-> fst (is_following user_id trainer_id d) = true
      /\ In trainer_id (map Users.id (rows (users d))).
Proof.
  rewrite is_following_spec. unfold get_followed_trainers, query. cbn [fst].
  rewrite map_map, in_map_iff. split.
  - intros [[[f u] t] [Hid Hin]]. rewrite tr_id_select in Hid.
    apply filter_In in Hin. destruct Hin as [Hin Hu].
    apply in_left_join in Hin. destruct Hin as [Hin _].
    apply in_join in Hin. destruct Hin as [Hf [Hiu Hon]].
    apply Z.eqb_eq in Hu, Hon. split.
    + apply existsb_exists. exists f. split; [exact Hf|].
      unfold follow_edge. apply andb_true_iff. rewrite !Z.eqb_eq. split; congruence.
    + apply in_map_iff. eauto.
  - intros [Hf Hu]. apply existsb_exists in Hf. destruct Hf as [f [Hf He]].
    apply in_map_iff in Hu. destruct Hu as [u [Hid Hu]].
    unfold follow_edge in He. apply andb_true_iff in He.
    rewrite !Z.eqb_eq in He. destruct He as [He1 He2].
    destruct (left_join_total
                (fun '(_, u) t => Users.id u =? Trainers.user_id t)
                (join (fun f u => Followers.trainer_id f =? Users.id u)
                   (rows (followers d)) (rows (users d)))
                (rows (trainers d)) (f, u)) as [t Ht].
    + apply in_join. rewrite Z.eqb_eq. repeat split; [exact Hf | exact Hu | congruence].
    + exists (f, u, t). rewrite tr_id_select. split; [exact Hid|].
      apply filter_In. split; [exact Ht | now apply Z.eqb_eq].
Qed.

(** ** Trainers *)

Lemma left_join_unique {A B : Type} (on : A -> B -> bool) (key : B -> Z)
  (k : A -> Z) (l : list A) (r : list B) :
  (forall a b, on a b = true -> key b = k a) ->
  NoDup (map key r) ->
  map fst (left_join on l r) = l.
Proof.
  intros Hon Hn. unfold left_join.
  induction l as [|a l IH]; [reflexivity|]. cbn [flat_map].
  rewrite map_app, IH. f_equal.
  assert (H1 : forall r, NoDup (map key r) ->
                         (List.length (filter (on a) r) <= 1)%nat).
  { clear -Hon. induction r as [|b r IHr]; simpl; [lia|].
    intros H. inversion H as [|? ? Hb Hr]; subst. specialize (IHr Hr).
    destruct (on a b) eqn:E; [|exact IHr]. simpl.
    destruct (filter (on a) r) as [|b' r'] eqn:F; [simpl; lia|].
    exfalso. apply Hb. apply in_map_iff. exists b'.
    assert (Hb' : In b' (filter (on a) r)) by (rewrite F; now left).
    apply filter_In in Hb'. destruct Hb' as [Hin Hon'].
    split; [|exact Hin]. rewrite (Hon a b E), (Hon a b' Hon'). reflexivity. }
  specialize (H1 r Hn).
  destruct (filter (on a) r) as [|b [|b' r']]; simpl in *; [reflexivity..|lia].
Qed.

Lemma map_filter_fst {A B C : Type} (f : A -> C) (p : A -> bool) (l : list (A * B)) :
  map (fun x => f (fst x)) (filter (fun x => p (fst x)) l)
  = map f (filter p (map fst l)).
Proof.
  induction l as [|[a b] l IH]; simpl; [reflexivity|].
  destruct (p a); simpl; now rewrite IH.
Qed.

Lemma NoDup_map_inj {A K : Type} (key : A -> K) (l : list A) (a b : A) :
  NoDup (map key l) -> In a l -> In b l -> key a = key b -> a = b.
Proof.
  induction l as [|x l IH]; [intros _ []|].
  intros H Ha Hb E. inversion H as [|? ? Hx Hl]; subst.
  destruct Ha as [<-|Ha], Hb as [<-|Hb]; auto.
  - exfalso. apply Hx. rewrite E. now apply in_map.
  - exfalso. apply Hx. rewrite <- E. now apply in_map.
Qed.

Lemma all_trainers_ids (d : db) :
  schema_ok d ->
  map tr_id (fst (get_all_trainers d))
  = map Users.id
      (filter (fun u => (Users.account_type u =? "trainer")%string) (rows (users d))).
Proof.
  intros H. unfold get_all_trainers, query. cbn [fst]. rewrite map_map.
  rewrite (map_ext _ (fun x => Users.id (fst x)))
    by (intros [u t]; apply tr_id_select).
  rewrite (filter_ext _ (fun x => (Users.account_type (fst x) =? "trainer")%string))
    by (intros [u t]; reflexivity).
  rewrite (map_filter_fst Users.id
             (fun u => (Users.account_type u =? "trainer")%string)).
  rewrite (left_join_unique _ Trainers.user_id Users.id); [reflexivity | | apply H].
  intros u t Hon. apply Z.eqb_eq in Hon. now symmetry.
Qed.

Section Trainers.

Variable sha256 : string -> string.

(** X5.  In a reachable database [get_all_trainers] has exactly one row for
    each trainer-typed user, in the order of [users]: the [LEFT JOIN] never
    repeats a trainer, since no user has two profile rows. *)
Theorem get_all_trainers_once (d : db) :
  reachable sha256 d ->
  map tr_id (fst (get_all_trainers d))
  = map Users.id
      (filter (fun u => (Users.account_type u =? "trainer")%string) (rows (users d)))
  /\ NoDup (map tr_id (fst (get_all_trainers d))).
Proof.
  intros H. apply reachable_schema in H.
  split; [now apply all_trainers_ids|]. rewrite (all_trainers_ids d H).
  apply (NoDup_map_filter Users.id). exact (proj1 (ok_users d H)).
Qed.

(** X6.  In a reachable database the list the chat tab offers to start a
    new chat with, [get_all_users] followed by [get_all_trainers] (line
    1247), names no user twice. *)
Theorem chat_options_distinct (d : db) :
  reachable sha256 d ->
  NoDup (map tv_id (fst (get_all_users d)) ++ map tr_id (fst (get_all_trainers d))).
Proof.
  intros H. apply reachable_schema in H.
  pose proof (proj1 (ok_users d H)) as Hn.
  rewrite (all_trainers_ids d H). unfold get_all_users, query. cbn [fst].
  rewrite map_map. cbn [view_of tv_id].
  apply NoDup_app.
  - now apply (NoDup_map_filter Users.id).
  - now apply (NoDup_map_filter Users.id).
  - intros i H1 H2. apply in_map_iff in H1, H2.
    destruct H1 as [u1 [E1 H1]], H2 as [u2 [E2 H2]].
    apply filter_In in H1, H2. destruct H1 as [H1 T1], H2 as [H2 T2].
    assert (E : u1 = u2)
      by (apply (NoDup_map_inj Users.id (rows (users d))); auto; congruence).
    subst u2. apply String.eqb_eq in T1, T2. rewrite T1 in T2. discriminate.
Qed.

End Trainers.

(** ** The feed and the catalogue *)

Lemma feed_In (user_id : Z) (d : db) (r : feed_row) :
  In r (fst (get_personalized_feed user_id d))
  <-> exists fp tr f s,
      In fp (rows (fitness_plans d)) /\ In tr (rows (users d))
      /\ FitnessPlans.trainer_id fp = Users.id tr
      /\ In f (rows (followers d))
      /\ Followers.trainer_id f = Users.id tr /\ Followers.user_id f = user_id
      /\ FitnessPlans.is_active fp = 1
      /\ match s with
         | Some s0 =>
             In s0 (rows (subscriptions d))
             /\ Subscriptions.plan_id s0 = FitnessPlans.id fp
             /\ Subscriptions.user_id s0 = user_id
         | None =>
             existsb (fun s0 => (Subscriptions.plan_id s0 =? FitnessPlans.id fp)
                                && (Subscriptions.user_id s0 =? user_id))
               (rows (subscriptions d)) = false
         end
      /\ r = feed_select (fp, tr, f, s).
Proof.
  unfold get_personalized_feed, query. cbn [fst]. rewrite in_map_iff. split.
  - intros [[[[fp tr] f] s] [Hr Hin]]. apply order_by_In, filter_In in Hin.
    destruct Hin as [Hin Hact]. apply in_left_join in Hin.
    destruct Hin as [Hin Hs]. apply in_join in Hin. destruct Hin as [Hin [Hf Hon]].
    apply in_join in Hin. destruct Hin as [Hfp [Htr Ht]].
    apply andb_true_iff in Hon. rewrite !Z.eqb_eq in Hon.
    apply Z.eqb_eq in Hact, Ht.
    exists fp, tr, f, s. repeat split; try tauto; [|now symmetry].
    destruct s as [s0|]; [|exact Hs].
    destruct Hs as [Hs0 Hon']. apply andb_true_iff in Hon'.
    rewrite !Z.eqb_eq in Hon'. tauto.
  - intros [fp [tr [f [s [Hfp [Htr [Ht [Hf [Hft [Hfu [Hact [Hs Hr]]]]]]]]]]]].
    exists (fp, tr, f, s). split; [now symmetry|].
    apply order_by_In, filter_In. split; [|now apply Z.eqb_eq].
    apply in_left_join. split.
    + apply in_join. split; [|split; [exact Hf|]].
      * apply in_join. rewrite Z.eqb_eq. tauto.
      * apply andb_true_iff. rewrite !Z.eqb_eq. tauto.
    + destruct s as [s0|]; [|exact Hs].
      split; [tauto|]. apply andb_true_iff. rewrite !Z.eqb_eq. tauto.
Qed.

Lemma subscription_some (user_id : Z) (fp : FitnessPlans.row) (d : db) :
  exists s,
    match s with
    | Some s0 =>
        In s0 (rows (subscriptions d))
        /\ Subscriptions.plan_id s0 = FitnessPlans.id fp
        /\ Subscriptions.user_id s0 = user_id
    | None =>
        existsb (fun s0 => (Subscriptions.plan_id s0 =? FitnessPlans.id fp)
                           && (Subscriptions.user_id s0 =? user_id))
          (rows (subscriptions d)) = false
    end.
Proof.
  destruct (existsb _ (rows (subscriptions d))) eqn:E.
  - apply existsb_exists in E. destruct E as [s0 [Hin Hon]].
    apply andb_true_iff in Hon. rewrite !Z.eqb_eq in Hon.
    exists (Some s0). tauto.
  - exists None. reflexivity.
Qed.

(** X7.  The feed of a user shows a plan exactly when the plan is active,
    its trainer is a row of [users] and the user follows that trainer; its
    rows come in descending order of the plans' [created_at]. *)
Theorem get_personalized_feed_plans (user_id plan_id : Z) (d : db) :
  (In plan_id (map fr_id (fst (get_personalized_feed user_id d)))
   <-> exists fp,
       In fp (rows (fitness_plans d)) /\ FitnessPlans.id fp = plan_id
       /\ FitnessPlans.is_active fp = 1
       /\ fst (is_following user_id (FitnessPlans.trainer_id fp) d) = true
       /\ In (FitnessPlans.trainer_id fp) (map Users.id (rows (users d))))
  /\ Sorted (fun r1 r2 => fr_created_at r1 >= fr_created_at r2)
       (fst (get_personalized_feed user_id d)).
Proof.
  split.
  - rewrite in_map_iff. split.
    + intros [r [Hid Hr]]. apply feed_In in Hr.
      destruct Hr as [fp [tr [f [s [Hfp [Htr [Ht [Hf [Hft [Hfu [Hact [_ Hr]]]]]]]]]]]].
      subst r. cbn in Hid. exists fp. repeat split; try assumption.
      * rewrite is_following_spec. apply existsb_exists. exists f.
        split; [exact Hf|]. unfold follow_edge.
        apply andb_true_iff. rewrite !Z.eqb_eq. split; congruence.
      * apply in_map_iff. exists tr. split; [now symmetry | exact Htr].
    + intros [fp [Hfp [Hid [Hact [Hfol Hu]]]]].
      rewrite is_following_spec in Hfol. apply existsb_exists in Hfol.
      destruct Hfol as [f [Hf He]]. unfold follow_edge in He.
      apply andb_true_iff in He. rewrite !Z.eqb_eq in He. destruct He as [He1 He2].
      apply in_map_iff in Hu. destruct Hu as [tr [Hid' Htr]].
      destruct (subscription_some user_id fp d) as [s Hs].
      exists (feed_select (fp, tr, f, s)). split; [exact Hid|].
      apply feed_In. exists fp, tr, f, s.
      repeat split; try assumption; try tauto; [now symmetry | congruence].
  - unfold get_personalized_feed, query. cbn [fst].
    eapply Sorted_map; [|apply order_by_sorted].
    + intros [[[fp1 ?] ?] ?] [[[fp2 ?] ?] ?]. cbn. intros H.
      apply Z.geb_le in H. lia.
    + intros [[[fp1 ?] ?] ?] [[[fp2 ?] ?] ?] H.
      rewrite Z.geb_leb in *. apply Z.leb_le. apply Z.leb_gt in H. lia.
Qed.

(** X8.  [unfollow_trainer] takes the plans of that trainer, and nothing
    else, out of the user's feed. *)
Theorem unfollow_trainer_feed (user_id trainer_id : Z) (d : db) (r : feed_row) :
  In r (fst (get_personalized_feed user_id
               (snd (unfollow_trainer user_id trainer_id d))))
  <-> In r (fst (get_personalized_feed user_id d)) /\ fr_trainer_id r <> trainer_id.
Proof.
  rewrite !feed_In. unfold unfollow_trainer, delete.
  cbn [snd set_followers followers fitness_plans users subscriptions rows].
  split.
  - intros [fp [tr [f [s [Hfp [Htr [Ht [Hf [Hft [Hfu [Hact [Hs Hr]]]]]]]]]]]].
    apply filter_In in Hf. destruct Hf as [Hf Hne]. split.
    + exists fp, tr, f, s. tauto.
    + subst r. cbn. intros E. apply negb_true_iff in Hne.
      unfold follow_edge in Hne. apply andb_false_iff in Hne.
      rewrite !Z.eqb_neq in Hne. destruct Hne; congruence.
  - intros [[fp [tr [f [s [Hfp [Htr [Ht [Hf [Hft [Hfu [Hact [Hs Hr]]]]]]]]]]]] Hne].
    exists fp, tr, f, s. repeat split; try assumption.
    apply filter_In. split; [exact Hf|]. apply negb_true_iff.
    unfold follow_edge. apply andb_false_iff. right. apply Z.eqb_neq.
    subst r. cbn in Hne. congruence.
Qed.

Lemma all_plans_In (d : db) (r : plan_row) :
  In r (fst (get_all_plans d))
  <-> exists fp tr,
      In fp (rows (fitness_plans d)) /\ In tr (rows (users d))
      /\ FitnessPlans.trainer_id fp = Users.id tr
      /\ FitnessPlans.is_active fp = 1
      /\ r = plan_select (fp, tr).
Proof.
  unfold get_all_plans, query. cbn [fst]. rewrite in_map_iff. split.
  - intros [[fp tr] [Hr Hin]]. apply order_by_In, filter_In in Hin.
    destruct Hin as [Hin Hact]. apply in_join in Hin.
    rewrite Z.eqb_eq in Hin. apply Z.eqb_eq in Hact.
    exists fp, tr. repeat split; try tauto. now symmetry.
  - intros [fp [tr [Hfp [Htr [Ht [Hact Hr]]]]]]. exists (fp, tr).
    split; [now symmetry|]. apply order_by_In, filter_In.
    split; [|now apply Z.eqb_eq]. apply in_join. rewrite Z.eqb_eq. tauto.
Qed.

(** X9.  Every row of a feed is, for its plan columns, a row of
    [get_all_plans]: the feed shows no plan that the catalogue hides. *)
Theorem get_personalized_feed_in_catalogue (user_id : Z) (d : db) :
  Forall (fun r => In (feed_plan r) (fst (get_all_plans d)))
    (fst (get_personalized_feed user_id d)).
Proof.
  apply Forall_forall. intros r Hr. apply feed_In in Hr.
  destruct Hr as [fp [tr [f [s [Hfp [Htr [Ht [_ [_ [_ [Hact [_ Hr]]]]]]]]]]]].
  apply all_plans_In. exists fp, tr. subst r. repeat split; assumption.
Qed.

(** ** Plans and their owners *)

Lemma update_none {A : Type} (c : A -> bool) (set : A -> A) (t : table A) :
  existsb c (rows t) = false -> update c set t = t.
Proof.
  intros E. destruct t as [l n]. unfold update. cbn in *. f_equal.
  rewrite existsb_false_forall in E.
  rewrite <- (map_id l) at 2. apply map_ext_in.
  intros r Hr. now rewrite (E r Hr).
Qed.

Lemma delete_none {A : Type} (c : A -> bool) (t : table A) :
  existsb c (rows t) = false -> delete c t = (t, 0).
Proof.
  intros E. destruct t as [l n]. unfold delete. cbn in *.
  rewrite (filter_none _ _ E).
  rewrite existsb_false_forall in E.
  replace (filter c l) with (@nil A); [reflexivity|].
  symmetry. clear n. induction l as [|x l IH]; [reflexivity|]. cbn.
  rewrite (E x (or_introl eq_refl)). apply IH. intros y Hy. apply E. now right.
Qed.

Lemma set_fitness_plans_same (d : db) : set_fitness_plans (fitness_plans d) d = d.
Proof. now destruct d. Qed.

(** X10.  [update_fitness_plan] and [delete_fitness_plan] return whether a
    plan with that id belongs to that trainer; when none does (the plan is
    another trainer's, or does not exist) they return [False] and leave the
    database as it was. *)
Theorem plan_owner_guard (plan_id trainer_id : Z) (title description : string)
  (price : float) (duration_days : Z) (difficulty category : string) (now : Z)
  (d : db) :
  existsb (owned_plan plan_id trainer_id) (rows (fitness_plans d)) = false ->
  update_fitness_plan plan_id trainer_id title description price duration_days
    difficulty category now d = (false, d)
  /\ delete_fitness_plan plan_id trainer_id d = (false, d).
Proof.
  intros E. unfold update_fitness_plan, delete_fitness_plan.
  rewrite (update_none _ _ _ E), (delete_none _ _ E), set_fitness_plans_same.
  rewrite rowcount_positive, E. split; reflexivity.
Qed.

Lemma owner_result (plan_id trainer_id : Z) (title description : string)
  (price : float) (duration_days : Z) (difficulty category : string) (now : Z)
  (d : db) :
  fst (update_fitness_plan plan_id trainer_id title description price duration_days
         difficulty category now d)
  = existsb (owned_plan plan_id trainer_id) (rows (fitness_plans d))
  /\ fst (delete_fitness_plan plan_id trainer_id d)
     = existsb (owned_plan plan_id trainer_id) (rows (fitness_plans d)).
Proof.
  unfold update_fitness_plan, delete_fitness_plan, delete. cbn [fst].
  rewrite rowcount_positive. split; reflexivity.
Qed.

Lemma plan_details_none (plan_id : Z) (d : db) :
  (forall fp, In fp (rows (fitness_plans d)) -> FitnessPlans.id fp <> plan_id) ->
  fst (get_plan_details plan_id d) = None.
Proof.
  intros H. unfold get_plan_details, query. cbn [fst].
  apply fetchone_map_none, existsb_false_forall.
  intros [fp tr] Hin. apply in_join in Hin. apply Z.eqb_neq, H, Hin.
Qed.

Lemma user_subscriptions_In (user_id : Z) (d : db) (r : subscription_row) :
  In r (fst (get_user_subscriptions user_id d))
  <-> exists s fp tr,
      In s (rows (subscriptions d)) /\ In fp (rows (fitness_plans d))
      /\ In tr (rows (users d))
      /\ Subscriptions.plan_id s = FitnessPlans.id fp
      /\ FitnessPlans.trainer_id fp = Users.id tr
      /\ Subscriptions.user_id s = user_id
      /\ r = subscription_select (s, fp, tr).
Proof.
  unfold get_user_subscriptions, query. cbn [fst]. rewrite in_map_iff. split.
  - intros [[[s fp] tr] [Hr Hin]]. apply order_by_In, filter_In in Hin.
    destruct Hin as [Hin Hu]. apply in_join in Hin. destruct Hin as [Hin [Htr Ht]].
    apply in_join in Hin. rewrite Z.eqb_eq in Hin. apply Z.eqb_eq in Hu, Ht.
    exists s, fp, tr. repeat split; try tauto. now symmetry.
  - intros [s [fp [tr [Hs [Hfp [Htr [Hp [Ht [Hu Hr]]]]]]]]]. exists (s, fp, tr).
    split; [now symmetry|]. apply order_by_In, filter_In.
    split; [|now apply Z.eqb_eq]. apply in_join. split; [|split; [exact Htr|]].
    + apply in_join. rewrite Z.eqb_eq. tauto.
    + now apply Z.eqb_eq.
Qed.

Section PlanLifecycle.

Variable sha256 : string -> string.

Lemma deleted_plan_gone (plan_id trainer_id : Z) (d : db) :
  reachable sha256 d ->
  fst (delete_fitness_plan plan_id trainer_id d) = true ->
  forall fp,
    In fp (rows (fitness_plans (snd (delete_fitness_plan plan_id trainer_id d)))) ->
    FitnessPlans.id fp <> plan_id.
Proof.
  intros Hr Hdel fp Hfp Hid. apply reachable_schema in Hr.
  destruct (owner_result plan_id trainer_id "" "" 0%float 0 "" "" 0 d) as [_ Ho].
  rewrite Ho in Hdel. apply existsb_exists in Hdel. destruct Hdel as [fp' [Hfp' Hown]].
  unfold delete_fitness_plan, delete in Hfp. cbn in Hfp.
  apply filter_In in Hfp. destruct Hfp as [Hfp Hnot].
  assert (E : fp = fp').
  { apply (NoDup_map_inj FitnessPlans.id (rows (fitness_plans d))); auto.
    - apply Hr.
    - unfold owned_plan in Hown. apply andb_true_iff in Hown.
      rewrite Z.eqb_eq in Hown. destruct Hown. congruence. }
  subst fp'. rewrite Hown in Hnot. discriminate.
Qed.

(** X11.  In a reachable database, after its owner has deleted a plan, the
    plan is in no catalogue, feed or subscription list, and
    [get_plan_details] finds nothing; but the rows of [subscriptions] stay,
    so [is_subscribed] answers for the deleted plan as it did before. *)
Theorem delete_fitness_plan_leaves_subscriptions (plan_id trainer_id : Z) (d : db) :
  reachable sha256 d ->
  fst (delete_fitness_plan plan_id trainer_id d) = true ->
  fst (get_plan_details plan_id (snd (delete_fitness_plan plan_id trainer_id d)))
  = None
  /\ Forall (fun r => pr_id r <> plan_id)
       (fst (get_all_plans (snd (delete_fitness_plan plan_id trainer_id d))))
  /\ (forall user_id,
         Forall (fun r => fr_id r <> plan_id)
           (fst (get_personalized_feed user_id
                   (snd (delete_fitness_plan plan_id trainer_id d)))))
  /\ (forall user_id,
         Forall (fun r => sr_plan_id r <> plan_id)
           (fst (get_user_subscriptions user_id
                   (snd (delete_fitness_plan plan_id trainer_id d)))))
  /\ (forall user_id now,
         fst (is_subscribed user_id plan_id now
                (snd (delete_fitness_plan plan_id trainer_id d)))
         = fst (is_subscribed user_id plan_id now d)).
Proof.
  intros Hr Hdel. pose proof (deleted_plan_gone _ _ _ Hr Hdel) as G.
  split; [now apply plan_details_none|]. split; [|split; [|split]].
  - apply Forall_forall. intros r Hin. apply all_plans_In in Hin.
    destruct Hin as [fp [tr [Hfp [_ [_ [_ ->]]]]]]. cbn. now apply G.
  - intros user_id. apply Forall_forall. intros r Hin. apply feed_In in Hin.
    destruct Hin as [fp [tr [f [s [Hfp [_ [_ [_ [_ [_ [_ [_ ->]]]]]]]]]]]].
    cbn. now apply G.
  - intros user_id. apply Forall_forall. intros r Hin.
    apply user_subscriptions_In in Hin.
    destruct Hin as [s [fp [tr [_ [Hfp [_ [_ [_ [_ ->]]]]]]]]]. cbn. now apply G.
  - intros user_id now. reflexivity.
Qed.

End PlanLifecycle.

Lemma filter_nil {A : Type} (p : A -> bool) (l : list A) :
  (forall x, In x l -> p x = false) -> filter p l = [].
Proof.
  induction l as [|x l IH]; [reflexivity|]. intros H. cbn.
  rewrite (H x (or_introl eq_refl)). apply IH. intros y Hy. apply H. now right.
Qed.

Lemma filter_all {A : Type} (p : A -> bool) (l : list A) :
  (forall x, In x l -> p x = true) -> filter p l = l.
Proof.
  induction l as [|x l IH]; [reflexivity|]. intros H. cbn.
  rewrite (H x (or_introl eq_refl)). f_equal. apply IH. intros y Hy. apply H. now right.
Qed.

Lemma join_app {A B : Type} (on : A -> B -> bool) (l1 l2 : list A) (r : list B) :
  join on (l1 ++ l2) r = join on l1 r ++ join on l2 r.
Proof. unfold join. apply flat_map_app. Qed.

Section PlanCreation.

Variable sha256 : string -> string.

(** X12.  In a reachable database a plan just created is found by
    [get_plan_details] under the id [create_fitness_plan] gave it, with the
    values passed and the trainer's name, when [trainer_id] is the id of a
    user; when no user has that id the call still returns [True], and the
    plan it stored is found by neither [get_plan_details] nor
    [get_all_plans]. *)
Theorem create_fitness_plan_details (trainer_id : Z) (title description : string)
  (price : float) (duration_days : Z) (difficulty category : string) (ts : Z)
  (d : db) :
  reachable sha256 d ->
  fst (create_fitness_plan trainer_id title description price duration_days
         difficulty category ts d) = true
  /\ (forall tr,
         fetchone (filter (fun u => trainer_id =? Users.id u) (rows (users d)))
         = Some tr ->
         fst (get_plan_details (seq (fitness_plans d) + 1)
                (snd (create_fitness_plan trainer_id title description price
                        duration_days difficulty category ts d)))
         = Some (PlanRow (seq (fitness_plans d) + 1) title description price
                   duration_days difficulty category trainer_id (Users.name tr) ts))
  /\ (existsb (fun u => trainer_id =? Users.id u) (rows (users d)) = false ->
      fst (get_plan_details (seq (fitness_plans d) + 1)
             (snd (create_fitness_plan trainer_id title description price
                     duration_days difficulty category ts d))) = None
      /\ Forall (fun r => pr_id r <> seq (fitness_plans d) + 1)
           (fst (get_all_plans
                   (snd (create_fitness_plan trainer_id title description price
                           duration_days difficulty category ts d))))).
Proof.
  intros Hr. apply reachable_schema in Hr.
  pose proof (proj2 (ok_fitness_plans d Hr)) as Hseq.
  split; [reflexivity|].
  assert (Hold : filter (fun '(fp, _) => FitnessPlans.id fp =? seq (fitness_plans d) + 1)
                   (join (fun fp u => FitnessPlans.trainer_id fp =? Users.id u)
                      (rows (fitness_plans d)) (rows (users d))) = []).
  { apply filter_nil. intros [fp tr] Hin. apply in_join in Hin.
    destruct Hin as [Hfp _]. apply Z.eqb_neq. specialize (Hseq fp Hfp). lia. }
  split.
  - intros tr Htr. unfold get_plan_details, create_fitness_plan, insert, query.
    cbn [fst snd set_fitness_plans fitness_plans users rows].
    rewrite join_app, filter_app, Hold. cbn [app].
    unfold join. cbn [flat_map FitnessPlans.trainer_id]. rewrite app_nil_r.
    unfold fetchone in Htr.
    destruct (filter _ (rows (users d))) as [|tr' rest] eqn:F; [discriminate|].
    inversion Htr; subst tr'. cbn. rewrite Z.eqb_refl. cbn.
    assert (Eid : Users.id tr = trainer_id).
    { assert (Hin : In tr (filter (fun u => trainer_id =? Users.id u) (rows (users d))))
        by (rewrite F; now left).
      apply filter_In in Hin. destruct Hin as [_ Hin]. apply Z.eqb_eq in Hin.
      now symmetry. }
    now rewrite Eid.
  - intros Hno. split.
    + unfold get_plan_details, create_fitness_plan, insert, query.
      cbn [fst snd set_fitness_plans fitness_plans users rows].
      rewrite join_app, filter_app, Hold. cbn [app].
      unfold join. cbn [flat_map FitnessPlans.trainer_id]. rewrite app_nil_r.
      rewrite (filter_nil _ _ (proj1 (existsb_false_forall _ _) Hno)). reflexivity.
    + apply Forall_forall. intros r Hin. apply all_plans_In in Hin.
      destruct Hin as [fp [tr [Hfp [Htr [Ht [_ ->]]]]]]. cbn.
      unfold create_fitness_plan, insert in Hfp, Htr. cbn in Hfp, Htr.
      apply in_app_or in Hfp. destruct Hfp as [Hfp|[<-|[]]].
      * specialize (Hseq fp Hfp). lia.
      * exfalso. cbn in Ht. rewrite existsb_false_forall in Hno.
        specialize (Hno tr Htr). apply Z.eqb_neq in Hno. contradiction.
Qed.

End PlanCreation.

(** ** Subscriptions: outcomes and permanence *)


(** ** What no call undoes *)

Section Permanence.

Variable sha256 : string -> string.

Lemma run_grows {K : Type} (f : db -> list K) :
  (forall c d, exists l, f (exec sha256 c d) = f d ++ l) ->
  forall cs d, exists l, f (run sha256 cs d) = f d ++ l.
Proof.
  intros Hstep cs. induction cs as [|c cs IH]; intros d.
  - exists []. cbn. now rewrite app_nil_r.
  - destruct (IH (exec sha256 c d)) as [l1 H1].
    destruct (Hstep c d) as [l0 H0].
    exists (l0 ++ l1). cbn [run fold_left]. unfold run in H1.
    now rewrite H1, H0, app_assoc.
Qed.

Lemma exec_subscriptions_grow (c : call) (d : db) :
  exists l, rows (subscriptions (exec sha256 c d)) = rows (subscriptions d) ++ l.
Proof.
  destruct c; cbn [exec]; unfold_call; break_call; cbn;
    first [ exists []; now rewrite app_nil_r | eexists; reflexivity ].
Qed.

Lemma exec_users_grow (c : call) (d : db) :
  exists l,
    map stored_identity (rows (users (exec sha256 c d)))
    = map stored_identity (rows (users d)) ++ l.
Proof.
  destruct c; cbn [exec];
    try (unfold_call; break_call; cbn;
         first [ exists []; now rewrite app_nil_r
               | rewrite map_app; eexists; reflexivity ]).
  unfold verify_user. break_call; cbn [snd set_users users];
    exists []; rewrite app_nil_r; [|reflexivity..].
  apply update_map. reflexivity.
Qed.

Lemma exec_messages_grow (c : call) (d : db) :
  exists l,
    map message_content (rows (messages (exec sha256 c d)))
    = map message_content (rows (messages d)) ++ l.
Proof.
  destruct c; cbn [exec];
    try (unfold_call; break_call; cbn;
         first [ exists []; now rewrite app_nil_r
               | rewrite map_app; eexists; reflexivity ]).
  unfold mark_messages_read. cbn [snd set_messages messages].
  exists []. rewrite app_nil_r. apply update_map. reflexivity.
Qed.

End Permanence.

Lemma first_match_identity (email : string) (new : Users.row)
  (l0 l' : list Users.row) (ext : list _) :
  existsb (fun u => (Users.email u =? email)%string) l0 = false ->
  Users.email new = email ->
  map stored_identity l' = map stored_identity (l0 ++ [new]) ++ ext ->
  exists u',
    fetchone (filter (fun u => (Users.email u =? email)%string) l') = Some u'
    /\ stored_identity u' = stored_identity new.
Proof.
  revert l'. induction l0 as [|x l0 IH]; intros l' Hno Hnew Hmap.
  - destruct l' as [|u' l']; [discriminate|]. cbn in Hmap.
    inversion Hmap as [[Hid Hname Hemail Hrest]]. exists u'.
    split; [|unfold stored_identity; congruence].
    cbn. replace (Users.email u' =? email)%string with true; [reflexivity|].
    symmetry. apply String.eqb_eq. congruence.
  - destruct l' as [|x' l']; [discriminate|]. cbn in Hmap, Hno.
    apply orb_false_iff in Hno. destruct Hno as [Hx Hno].
    inversion Hmap as [[Hid Hname Hemail Hmobile Hhash Hsalt Htype Hcreated Hrest]].
    destruct (IH l' Hno Hnew Hrest) as [u' [Hu' Hsi]].
    exists u'. split; [|exact Hsi]. cbn. now rewrite Hemail, Hx.
Qed.

Section PermanenceFacts.

Variable sha256 : string -> string.

(** X14.  Once [subscribe_to_plan] has succeeded for a user and a plan, no
    sequence of calls makes it succeed again for the pair: no call deletes
    or rewrites a row of [subscriptions], so every later attempt, at any
    date, returns "Already subscribed to this plan" and writes nothing. *)
Theorem subscribe_to_plan_never_again (user_id plan_id : Z) (amount amount2 : float)
  (now ts now2 ts2 : Z) (d : db) (msg : string) (cs : list call) :
  fst (subscribe_to_plan user_id plan_id amount now ts d) = inr (true, msg) ->
  subscribe_to_plan user_id plan_id amount2 now2 ts2
    (run sha256 cs (snd (subscribe_to_plan user_id plan_id amount now ts d)))
  = (inr (false, "Already subscribed to this plan"),
     run sha256 cs (snd (subscribe_to_plan user_id plan_id amount now ts d))).
Proof.
  intros Hok. apply subscribe_to_plan_success in Hok.
  destruct Hok as [E [duration [P R]]].
  apply subscribe_to_plan_already.
  destruct (run_grows sha256 (fun d => rows (subscriptions d))
              (exec_subscriptions_grow sha256) cs
              (snd (subscribe_to_plan user_id plan_id amount now ts d))) as [l Hl].
  cbn beta in Hl. rewrite Hl.
  rewrite (subscribe_to_plan_succeeds _ _ _ _ _ _ _ E P R). cbn [snd].
  cbn [set_subscriptions subscriptions rows]. rewrite !existsb_app.
  cbn [existsb]. unfold subscription_of at 2. cbn. rewrite !Z.eqb_refl. cbn.
  rewrite orb_true_r. reflexivity.
Qed.

(** X15.  No sequence of calls deletes a user or changes a user's id, name,
    email, mobile, password hash, salt, account type or creation time: the
    stored identities of the users before are a prefix of those after. *)
Theorem users_never_change (cs : list call) (d : db) :
  exists l,
    map stored_identity (rows (users (run sha256 cs d)))
    = map stored_identity (rows (users d)) ++ l.
Proof.
  apply (run_grows sha256 (fun d => map stored_identity (rows (users d)))).
  apply exec_users_grow.
Qed.

(** X16.  After a signup that reported success, and whatever calls follow,
    [verify_user] with the same email and password succeeds and returns the
    new user's id, name, email and account type with the token just drawn. *)
Theorem verify_user_after_create_user
  (name email mobile password account_type salt auth_token msg new_token : string)
  (tok : option string) (now ts now' : Z) (d : db) (cs : list call) :
  fst (create_user sha256 name email mobile password account_type salt auth_token
         now ts d) = (true, msg, tok) ->
  fst (verify_user sha256 email password new_token now'
         (run sha256 cs
            (snd (create_user sha256 name email mobile password account_type salt
                    auth_token now ts d))))
  = Some (LoginView (seq (users d) + 1) name email account_type new_token).
Proof.
  intros Hok. apply create_user_success in Hok. destruct Hok as [_ [Hno Hrows]].
  destruct (run_grows sha256 (fun d => map stored_identity (rows (users d)))
              (exec_users_grow sha256) cs
              (snd (create_user sha256 name email mobile password account_type salt
                      auth_token now ts d))) as [ext Hext].
  cbn beta in Hext. rewrite Hrows in Hext. cbn [rows] in Hext.
  destruct (first_match_identity email
              (Users.mk (seq (users d) + 1) name email mobile
                 (hash_password sha256 password salt) salt account_type
                 (Some auth_token) (Some (plus_days now 7)) ts)
              _ _ _ Hno eq_refl Hext) as [u' [Hu' Hsi]].
  unfold verify_user. rewrite Hu'.
  unfold stored_identity in Hsi. cbn in Hsi.
  inversion Hsi as [[Hid Hname Hemail Hmobile Hhash Hsalt Htype Hcreated]].
  rewrite Hsalt, Hhash, String.eqb_refl. cbn [fst].
  now rewrite Hid, Hname, Hemail, Htype.
Qed.

(** X17.  No sequence of calls removes or alters a row of a conversation:
    messages are never deleted or edited, and senders never renamed. *)
Theorem get_conversation_never_shrinks (user1_id user2_id : Z) (d : db)
  (cs : list call) :
  Forall (fun r => In r (fst (get_conversation user1_id user2_id (run sha256 cs d))))
    (fst (get_conversation user1_id user2_id d)).
Proof.
  apply Forall_forall. intros r Hr. apply get_conversation_In in Hr.
  destruct Hr as [m [u [Hm [Hu [Hs [Hb ->]]]]]].
  destruct (run_grows sha256 (fun d => map message_content (rows (messages d)))
              (exec_messages_grow sha256) cs d) as [lm Hlm].
  destruct (run_grows sha256 (fun d => map stored_identity (rows (users d)))
              (exec_users_grow sha256) cs d) as [lu Hlu].
  cbn beta in Hlm, Hlu.
  assert (Hm' : In (message_content m)
                  (map message_content (rows (messages (run sha256 cs d))))).
  { rewrite Hlm. apply in_or_app. left. now apply in_map. }
  assert (Hu' : In (stored_identity u)
                  (map stored_identity (rows (users (run sha256 cs d))))).
  { rewrite Hlu. apply in_or_app. left. now apply in_map. }
  apply in_map_iff in Hm', Hu'.
  destruct Hm' as [m' [Em Hm']], Hu' as [u' [Eu Hu']].
  unfold message_content in Em. unfold stored_identity in Eu.
  inversion Em as [[Mid Msender Mreceiver Mmessage Mcreated]].
  inversion Eu as [[Uid Uname Uemail Umobile Uhash Usalt Utype Ucreated]].
  apply get_conversation_In. exists m', u'.
  repeat split; try assumption; try congruence.
  unfold conversation_select. congruence.
Qed.

End PermanenceFacts.

(** ** Chat: unread counts and contacts *)

Lemma unread_count_spec (user_id : Z) (d : db) :
  fst (get_unread_count user_id d)
  = Z.of_nat (List.length
                (filter (fun m => (Messages.receiver_id m =? user_id)
                                  && (Messages.is_read m =? 0))
                   (rows (messages d)))).
Proof. reflexivity. Qed.

Lemma send_message_count (sender_id receiver_id : Z) (message : string) (ts : Z)
  (d : db) (user_id : Z) :
  fst (get_unread_count user_id (snd (send_message sender_id receiver_id message ts d)))
  = fst (get_unread_count user_id d) + (if receiver_id =? user_id then 1 else 0).
Proof.
  rewrite !unread_count_spec.
  unfold send_message, insert. cbn [snd set_messages messages rows].
  rewrite filter_app, length_app. cbn [filter Messages.receiver_id Messages.is_read].
  destruct (receiver_id =? user_id); cbn; lia.
Qed.

(** X18.  [send_message] always returns [True] and stores the message
    unread: the receiver's unread count grows by one and nobody else's
    changes; and the message is shown in the conversation of the two, under
    the sender's name, when the sender is a row of [users]. *)
Theorem send_message_unread (sender_id receiver_id : Z) (message : string) (ts : Z)
  (d : db) :
  fst (send_message sender_id receiver_id message ts d) = true
  /\ (forall user_id,
         fst (get_unread_count user_id
                (snd (send_message sender_id receiver_id message ts d)))
         = fst (get_unread_count user_id d)
           + (if receiver_id =? user_id then 1 else 0))
  /\ (forall u, In u (rows (users d)) -> Users.id u = sender_id ->
         In (ConversationRow (seq (messages d) + 1) sender_id receiver_id message ts
               (Users.name u))
           (fst (get_conversation sender_id receiver_id
                   (snd (send_message sender_id receiver_id message ts d))))).
Proof.
  split; [reflexivity|]. split.
  - intros user_id. apply send_message_count.
  - intros u Hu Hid. apply get_conversation_In.
    exists (Messages.mk (seq (messages d) + 1) sender_id receiver_id message 0 ts), u.
    unfold send_message, insert. cbn [snd set_messages messages users rows].
    repeat split; cbn; auto.
    apply in_or_app. right. now left.
Qed.

Lemma unread_after_mark (user_id sender_id u : Z) (l : list Messages.row) :
  List.length
    (filter (fun m => (Messages.receiver_id m =? u) && (Messages.is_read m =? 0))
       (map (fun m => if (Messages.receiver_id m =? user_id)
                         && (Messages.sender_id m =? sender_id)
                      then set_is_read 1 m else m) l))
  = List.length
      (filter (fun m => (Messages.receiver_id m =? u) && (Messages.is_read m =? 0)
                        && negb ((Messages.receiver_id m =? user_id)
                                 && (Messages.sender_id m =? sender_id))) l).
Proof.
  induction l as [|m l IH]; [reflexivity|]. cbn [map filter].
  destruct ((Messages.receiver_id m =? user_id) && (Messages.sender_id m =? sender_id));
    cbn [negb set_is_read Messages.receiver_id Messages.is_read].
  - rewrite !andb_false_r. exact IH.
  - rewrite !andb_true_r.
    destruct ((Messages.receiver_id m =? u) && (Messages.is_read m =? 0));
      cbn [List.length]; now rewrite IH.
Qed.

Section MapFacts.

Context {A : Type} (g : A -> A).

Lemma insert_by_map (le : A -> A -> bool) (x : A) (l : list A) :
  (forall a b, le (g a) (g b) = le a b) ->
  insert_by le (g x) (map g l) = map g (insert_by le x l).
Proof.
  intros Hle. induction l as [|y l IH]; [reflexivity|]. cbn.
  rewrite Hle. destruct (le x y); cbn; [reflexivity | now rewrite IH].
Qed.

Lemma order_by_map (le : A -> A -> bool) (l : list A) :
  (forall a b, le (g a) (g b) = le a b) ->
  order_by le (map g l) = map g (order_by le l).
Proof.
  intros Hle. induction l as [|x l IH]; [reflexivity|]. cbn.
  unfold order_by in IH. rewrite IH. now apply insert_by_map.
Qed.

Lemma filter_map_same (p : A -> bool) (l : list A) :
  (forall a, p (g a) = p a) -> filter p (map g l) = map g (filter p l).
Proof.
  intros Hp. induction l as [|x l IH]; [reflexivity|]. cbn.
  rewrite Hp. destruct (p x); cbn; now rewrite IH.
Qed.

End MapFacts.

Lemma join_map_l {A B : Type} (g : A -> A) (on : A -> B -> bool) (l : list A)
  (r : list B) :
  (forall a b, on (g a) b = on a b) ->
  join on (map g l) r = map (fun ab => (g (fst ab), snd ab)) (join on l r).
Proof.
  intros Hon. unfold join. induction l as [|a l IH]; [reflexivity|].
  cbn [map flat_map]. rewrite map_app, IH. f_equal.
  rewrite map_map. cbn. f_equal. apply filter_ext. intros b. apply Hon.
Qed.

(** X19.  After [mark_messages_read user_id sender_id] the unread count of
    [user_id] is the number of unread messages to that user from the other
    senders; the count of every other user is what it was, and so is every
    conversation. *)
Theorem mark_messages_read_unread (user_id sender_id : Z) (d : db) :
  fst (get_unread_count user_id (snd (mark_messages_read user_id sender_id d)))
  = Z.of_nat (List.length
                (filter (fun m => (Messages.receiver_id m =? user_id)
                                  && (Messages.is_read m =? 0)
                                  && negb (Messages.sender_id m =? sender_id))
                   (rows (messages d))))
  /\ (forall u, u <> user_id ->
         fst (get_unread_count u (snd (mark_messages_read user_id sender_id d)))
         = fst (get_unread_count u d))
  /\ (forall a b,
         fst (get_conversation a b (snd (mark_messages_read user_id sender_id d)))
         = fst (get_conversation a b d)).
Proof.
  split; [|split].
  - rewrite unread_count_spec. unfold mark_messages_read, update.
    cbn [snd set_messages messages rows]. rewrite unread_after_mark. do 2 f_equal.
    apply filter_ext. intros m.
    destruct (Messages.receiver_id m =? user_id), (Messages.is_read m =? 0),
      (Messages.sender_id m =? sender_id); reflexivity.
  - intros u Hu. rewrite !unread_count_spec. unfold mark_messages_read, update.
    cbn [snd set_messages messages rows]. rewrite unread_after_mark. do 2 f_equal.
    apply filter_ext. intros m.
    destruct (Z.eqb_spec (Messages.receiver_id m) u),
      (Z.eqb_spec (Messages.receiver_id m) user_id),
      (Messages.is_read m =? 0), (Messages.sender_id m =? sender_id);
      cbn; try reflexivity; congruence.
  - intros a b. unfold get_conversation, query, mark_messages_read, update.
    cbn [fst snd set_messages messages users rows].
    rewrite join_map_l by (intros m u; cbn beta; now break_mark).
    rewrite filter_map_same by (intros [m u]; cbn; now break_mark).
    rewrite order_by_map by (intros [m1 u1] [m2 u2]; cbn; now break_mark).
    rewrite map_map. apply map_ext. intros [m u]. cbn. now break_mark.
Qed.

Lemma filter_length_le {A : Type} (p q : A -> bool) (l : list A) :
  (List.length (filter (fun x => p x && q x) l) <= List.length (filter p l))%nat.
Proof.
  induction l as [|x l IH]; cbn; [lia|].
  destruct (p x), (q x); cbn; lia.
Qed.

Section UnreadCounts.

Variable sha256 : string -> string.

(** X20.  An unread count rises only through [send_message], and then by
    one for the receiver: every other call leaves each user's count as it
    was or lowers it. *)
Theorem unread_count_rises_by_send (c : call) (d : db) (user_id : Z) :
  fst (get_unread_count user_id (exec sha256 c d))
  <= fst (get_unread_count user_id d)
     + match c with
       | SendMessage _ receiver_id _ _ => if receiver_id =? user_id then 1 else 0
       | _ => 0
       end.
Proof.
  destruct c; cbn [exec];
    try (rewrite Z.add_0_r; rewrite !unread_count_spec;
         unfold_call; break_call; cbn; lia).
  - rewrite send_message_count. lia.
  - rewrite !unread_count_spec. unfold mark_messages_read, update.
    cbn [snd set_messages messages rows]. rewrite unread_after_mark, Z.add_0_r.
    apply Nat2Z.inj_le.
    apply (filter_length_le
             (fun m => (Messages.receiver_id m =? user_id) && (Messages.is_read m =? 0))).
Qed.

End UnreadCounts.

Lemma chat_contacts_In (user_id c : Z) (d : db) :
  In c (map ct_id (fst (get_chat_contacts user_id d)))
  <-> In c (map Users.id (rows (users d)))
      /\ exists m,
          In m (rows (messages d))
          /\ ((Messages.sender_id m = user_id /\ Messages.receiver_id m = c)
              \/ (Messages.sender_id m = c /\ Messages.receiver_id m = user_id)).
Proof.
  unfold get_chat_contacts, query. cbn [fst]. rewrite in_map_iff. split.
  - intros [r [Hc Hr]]. apply nodup_In, in_map_iff in Hr.
    destruct Hr as [[m u] [Hr Hin]]. subst r. cbn in Hc.
    apply filter_In in Hin. destruct Hin as [Hin Hw]. apply in_join in Hin.
    destruct Hin as [Hm [Hu Hon]]. apply Z.eqb_eq in Hon. split.
    + apply in_map_iff. exists u. split; [congruence | exact Hu].
    + exists m. split; [exact Hm|]. unfold contact_id in Hc.
      apply orb_true_iff in Hw. rewrite !Z.eqb_eq in Hw.
      destruct (Z.eqb_spec (Messages.sender_id m) user_id) as [E|E]; [now left|].
      right. destruct Hw as [Hw|Hw]; [contradiction | now split].
  - intros [Hu [m [Hm Hb]]]. apply in_map_iff in Hu. destruct Hu as [u [Hid Hu]].
    assert (Hc : contact_id user_id m = c).
    { unfold contact_id.
      destruct (Z.eqb_spec (Messages.sender_id m) user_id) as [E|E];
        destruct Hb as [[H1 H2]|[H1 H2]]; congruence. }
    exists (ContactRow (contact_id user_id m) (Users.name u) (Users.account_type u)).
    split; [exact Hc|]. apply nodup_In, in_map_iff. exists (m, u).
    split; [reflexivity|]. apply filter_In. split.
    + apply in_join. rewrite Z.eqb_eq. repeat split; [exact Hm | exact Hu | congruence].
    + apply orb_true_iff. rewrite !Z.eqb_eq. destruct Hb as [[H1 H2]|[H1 H2]]; auto.
Qed.

(** X21.  [get_chat_contacts] has no repeated row, and it lists an id
    exactly when a row of [users] has that id and some message went between
    the user and that id, in either direction. *)
Theorem get_chat_contacts_ids (user_id c : Z) (d : db) :
  NoDup (fst (get_chat_contacts user_id d))
  /\ (In c (map ct_id (fst (get_chat_contacts user_id d)))
      <-> In c (map Users.id (rows (users d)))
          /\ exists m,
              In m (rows (messages d))
              /\ ((Messages.sender_id m = user_id /\ Messages.receiver_id m = c)
                  \/ (Messages.sender_id m = c /\ Messages.receiver_id m = user_id))).
Proof.
  split; [apply NoDup_nodup | apply chat_contacts_In].
Qed.

(** X22.  For two ids that are both in [users], each is a chat contact of
    the other exactly when the other is of it, and exactly when their
    conversation is not empty. *)
Theorem get_chat_contacts_symmetric (a b : Z) (d : db) :
  In a (map Users.id (rows (users d))) ->
  In b (map Users.id (rows (users d))) ->
  (In b (map ct_id (fst (get_chat_contacts a d)))
   <-> In a (map ct_id (fst (get_chat_contacts b d))))
  /\ (In b (map ct_id (fst (get_chat_contacts a d)))
      <-> fst (get_conversation a b d) <> []).
Proof.
  intros Ha Hb. rewrite !chat_contacts_In. split.
  - split; intros [_ [m [Hm H]]]; (split; [assumption|]); exists m; tauto.
  - split.
    + intros [_ [m [Hm H]]].
      assert (Hs : In (Messages.sender_id m) (map Users.id (rows (users d)))).
      { destruct H as [[-> _]|[-> _]]; assumption. }
      apply in_map_iff in Hs. destruct Hs as [u [Hid Hu]].
      assert (Hin : In (conversation_select (m, u)) (fst (get_conversation a b d))).
      { apply get_conversation_In. exists m, u. repeat split; auto. }
      intros E. rewrite E in Hin. destruct Hin.
    + intros Hne. destruct (fst (get_conversation a b d)) as [|r l] eqn:E;
        [contradiction|].
      assert (Hin : In r (fst (get_conversation a b d))) by (rewrite E; now left).
      apply get_conversation_In in Hin.
      destruct Hin as [m [u [Hm [_ [_ [H _]]]]]].
      split; [exact Hb|]. exists m. tauto.
Qed.

(** ** The subscriptions tab *)

Lemma subscription_badge_expired (end_date now : Z) :
  subscription_badge end_date now = Expired <-> end_date <= date_of now.
Proof.
  unfold subscription_badge.
  destruct (end_date - date_of now >? 0) eqn:E.
  - apply Z.gtb_lt in E. split; [discriminate | lia].
  - rewrite Z.gtb_ltb in E. apply Z.ltb_ge in E. split; [lia | reflexivity].
Qed.

(** X23.  The badge of the "My Subscriptions" tab reads "Expired" from the
    end date on, while [is_subscribed] still holds on the end date: a
    subscription is active exactly when one of its rows shows days left, or
    shows "Expired" on the very day it ends. *)
Theorem subscription_badge_last_day (user_id plan_id now : Z) (d : db) :
  (forall end_date,
      subscription_badge end_date now = Expired <-> end_date <= date_of now)
  /\ (fst (is_subscribed user_id plan_id now d) = true
      <-> exists s,
          In s (rows (subscriptions d))
          /\ subscription_of user_id plan_id s = true
          /\ (subscription_badge (Subscriptions.end_date s) now
              = DaysLeft (Subscriptions.end_date s - date_of now)
              \/ (subscription_badge (Subscriptions.end_date s) now = Expired
                  /\ Subscriptions.end_date s = date_of now))).
Proof.
  split; [intros e; apply subscription_badge_expired|].
  rewrite is_subscribed_spec, existsb_exists. split.
  - intros [s [Hs Hc]]. apply andb_true_iff in Hc. destruct Hc as [Hk He].
    apply Z.geb_le in He. exists s. split; [exact Hs|]. split; [exact Hk|].
    unfold subscription_badge.
    destruct (Subscriptions.end_date s - date_of now >? 0) eqn:E; [now left|].
    right. split; [reflexivity|].
    rewrite Z.gtb_ltb in E. apply Z.ltb_ge in E. lia.
  - intros [s [Hs [Hk Hb]]]. exists s. split; [exact Hs|]. rewrite Hk. cbn.
    apply Z.geb_le. destruct Hb as [Hb|[_ Hb]]; [|lia].
    unfold subscription_badge in Hb.
    destruct (Subscriptions.end_date s - date_of now >? 0) eqn:E; [|discriminate].
    apply Z.gtb_lt in E. lia.
Qed.

(** X24.  A subscription just made is listed by [get_user_subscriptions]
    with the plan's columns, the trainer's name, today as start date and
    today plus the plan's duration as end date, provided the plan's trainer
    is a row of [users]. *)
Theorem subscribe_to_plan_listed (user_id plan_id : Z) (amount : float) (now ts : Z)
  (d : db) (msg : string) (fp : FitnessPlans.row) (tr : Users.row) :
  fst (subscribe_to_plan user_id plan_id amount now ts d) = inr (true, msg) ->
  fetchone (filter (fun p => FitnessPlans.id p =? plan_id) (rows (fitness_plans d)))
  = Some fp ->
  In tr (rows (users d)) ->
  FitnessPlans.trainer_id fp = Users.id tr ->
  In (SubscriptionRow (seq (subscriptions d) + 1) plan_id (FitnessPlans.title fp)
        (FitnessPlans.description fp) (FitnessPlans.price fp)
        (FitnessPlans.duration_days fp) (Users.name tr) (date_of now)
        (date_of now + FitnessPlans.duration_days fp) amount)
    (fst (get_user_subscriptions user_id
            (snd (subscribe_to_plan user_id plan_id amount now ts d)))).
Proof.
  intros Hok Hfp Htr Ht. apply subscribe_to_plan_success in Hok.
  destruct Hok as [E [duration [P R]]].
  assert (Hd : duration = FitnessPlans.duration_days fp).
  { unfold fetchone in Hfp, P.
    destruct (filter _ (rows (fitness_plans d))) as [|x l]; [discriminate|].
    cbn in P, Hfp. congruence. }
  subst duration. apply fetchone_some in Hfp. destruct Hfp as [Hfp Hid].
  apply Z.eqb_eq in Hid.
  rewrite (subscribe_to_plan_succeeds _ _ _ _ _ _ _ E P R). cbn [snd].
  apply user_subscriptions_In.
  exists (Subscriptions.mk (seq (subscriptions d) + 1) user_id plan_id (date_of now)
            (date_of now + FitnessPlans.duration_days fp) "completed" amount ts),
    fp, tr.
  cbn [set_subscriptions subscriptions fitness_plans users rows].
  repeat split; cbn; auto.
  - apply in_or_app. right. now left.
  - now rewrite Hid.
Qed.

(** ** Edits *)

Lemma fetchone_map {A B : Type} (f : A -> B) (l : list A) :
  fetchone (map f l) = option_map f (fetchone l).
Proof. now destruct l. Qed.

(** X25.  [update_fitness_plan] by the plan's trainer changes what
    [get_plan_details] shows to the values passed, and never the plan's id,
    trainer or creation time; by anybody else it changes nothing that
    [get_plan_details] shows.  Either way no subscription moves: the end
    dates stored at subscription time are not recomputed from the new
    duration. *)
Theorem update_fitness_plan_details (plan_id trainer_id : Z)
  (title description : string) (price : float) (duration_days : Z)
  (difficulty category : string) (now : Z) (d : db) :
  fst (get_plan_details plan_id
         (snd (update_fitness_plan plan_id trainer_id title description price
                 duration_days difficulty category now d)))
  = option_map
      (fun old =>
         if pr_trainer_id old =? trainer_id
         then PlanRow plan_id title description price duration_days difficulty
                category trainer_id (pr_trainer_name old) (pr_created_at old)
         else old)
      (fst (get_plan_details plan_id d))
  /\ (forall user_id p now',
         fst (is_subscribed user_id p now'
                (snd (update_fitness_plan plan_id trainer_id title description price
                        duration_days difficulty category now d)))
         = fst (is_subscribed user_id p now' d)).
Proof.
  split; [|reflexivity].
  unfold get_plan_details, update_fitness_plan, update, query.
  cbn [fst snd set_fitness_plans fitness_plans users rows].
  rewrite join_map_l
    by (intros fp u; cbn beta; now destruct (owned_plan plan_id trainer_id fp)).
  rewrite filter_map_same
    by (intros [fp u]; cbn; now destruct (owned_plan plan_id trainer_id fp)).
  rewrite map_map, !fetchone_map.
  destruct (fetchone _) as [[fp u]|] eqn:F; [|reflexivity]. cbn [option_map].
  apply fetchone_some in F. destruct F as [Hin Hid]. apply Z.eqb_eq in Hid.
  apply in_join in Hin. destruct Hin as [_ [_ Ht]]. apply Z.eqb_eq in Ht.
  f_equal. cbn [fst snd plan_select pr_trainer_id pr_trainer_name pr_created_at].
  unfold owned_plan. rewrite Ht.
  replace (FitnessPlans.id fp =? plan_id) with true
    by (symmetry; now apply Z.eqb_eq).
  cbn [andb].
  destruct (Z.eqb_spec (Users.id u) trainer_id) as [E|E]; [|reflexivity].
  cbn. now rewrite Hid, E.
Qed.

Lemma set_trainers_same (d : db) : set_trainers (trainers d) d = d.
Proof. now destruct d. Qed.

(** X26.  [update_trainer_profile] followed by [get_trainer_profile] gives
    back the specialization, experience and bio passed when the user has a
    profile row; for a user without one it silently writes nothing; and the
    profiles of the other users are never touched. *)
Theorem update_trainer_profile_round_trip (user_id : Z) (specialization : string)
  (experience : Z) (bio : string) (d : db) :
  match fst (get_trainer_profile user_id d) with
  | Some _ =>
      option_map
        (fun t => (Trainers.specialization t, Trainers.experience_years t,
                   Trainers.bio t))
        (fst (get_trainer_profile user_id
                (snd (update_trainer_profile user_id specialization experience bio d))))
      = Some (Some specialization, Some experience, Some bio)
  | None => update_trainer_profile user_id specialization experience bio d = (tt, d)
  end
  /\ (forall other, other <> user_id ->
         fst (get_trainer_profile other
                (snd (update_trainer_profile user_id specialization experience bio d)))
         = fst (get_trainer_profile other d)).
Proof.
  split.
  - unfold get_trainer_profile, update_trainer_profile, query. cbn [fst snd].
    destruct (fetchone _) as [t|] eqn:F.
    + unfold update. cbn [set_trainers trainers rows].
      rewrite filter_map_same
        by (intros t0; cbn beta; destruct (Trainers.user_id t0 =? user_id) eqn:E0;
            cbn; auto).
      rewrite fetchone_map, F. cbn [option_map].
      apply fetchone_some in F. destruct F as [_ F]. now rewrite F.
    + apply fetchone_none in F. rewrite (update_none _ _ _ F).
      now rewrite set_trainers_same.
  - intros other Hne. unfold get_trainer_profile, update_trainer_profile, update, query.
    cbn [fst snd set_trainers trainers rows].
    rewrite filter_map_same
      by (intros t0; cbn beta; destruct (Trainers.user_id t0 =? user_id) eqn:E0;
          cbn; auto).
    f_equal. rewrite <- (map_id (filter _ (rows (trainers d)))) at 2.
    apply map_ext_in. intros t Ht. apply filter_In in Ht. destruct Ht as [_ Ht].
    apply Z.eqb_eq in Ht. replace (Trainers.user_id t =? user_id) with false;
      [reflexivity|].
    symmetry. apply Z.eqb_neq. congruence.
Qed.

(** ** Workouts and goals *)

Lemma tracker_goals_active (cs : list tracker_call) (t : tracker) :
  (forall g, In g (rows (goals t)) -> Goals.status g = "active") ->
  forall g, In g (rows (goals (tracker_run cs t))) -> Goals.status g = "active".
Proof.
  revert t. induction cs as [|c cs IH]; intros t H; [exact H|].
  cbn [tracker_run fold_left]. apply IH. clear IH.
  destruct c; cbn; [exact H | |].
  - intros g Hg. apply in_app_or in Hg. destruct Hg as [Hg|[<-|[]]]; auto.
  - intros g' Hg. apply in_map_iff in Hg. destruct Hg as [g [<- Hg]].
    destruct (Goals.id g =? goal_id); cbn; auto.
Qed.

(** X27.  No goal ever leaves the status it is created with: whatever
    workouts and goals are added and whatever progress is recorded, every
    row of [get_user_goals] has status "active". *)
Theorem goals_stay_active (cs : list tracker_call) (user_id : Z) :
  Forall (fun g => gr_status g = "active")
    (get_user_goals user_id (tracker_run cs init_tracker)).
Proof.
  apply Forall_forall. intros r Hr. unfold get_user_goals in Hr.
  apply in_map_iff in Hr. destruct Hr as [g [<- Hg]].
  apply order_by_In, filter_In in Hg. destruct Hg as [Hg _]. cbn.
  apply (tracker_goals_active cs init_tracker); [intros g0 []|exact Hg].
Qed.

(** X28.  [update_goal_progress] sets [current_value] on the goal with the
    id passed, whoever owns it, and changes nothing else: each user's list of
    goals is the one before, in the same order, with that one value
    replaced. *)
Theorem update_goal_progress_list (goal_id : Z) (current_value : float)
  (user_id : Z) (t : tracker) :
  get_user_goals user_id (snd (update_goal_progress goal_id current_value t))
  = map (with_current_value goal_id current_value) (get_user_goals user_id t)
  /\ workouts (snd (update_goal_progress goal_id current_value t)) = workouts t.
Proof.
  split; [|reflexivity].
  unfold get_user_goals, update_goal_progress, update. cbn [snd goals rows].
  rewrite filter_map_same
    by (intros g; cbn beta; now destruct (Goals.id g =? goal_id)).
  rewrite order_by_map
    by (intros g1 g2; cbn beta;
        now destruct (Goals.id g1 =? goal_id), (Goals.id g2 =? goal_id)).
  rewrite !map_map. apply map_ext. intros g.
  unfold with_current_value. cbn. now destruct (Goals.id g =? goal_id).
Qed.

(** X29.  [get_user_workouts] lists the workouts of that user and no
    other, each once, latest workout date first; and [add_workout] for one
    user leaves the list of every other user as it was. *)
Theorem get_user_workouts_sorted (user_id : Z) (t : tracker) :
  Permutation
    (map workout_select
       (filter (fun w => Workouts.user_id w =? user_id) (rows (workouts t))))
    (get_user_workouts user_id t)
  /\ Sorted (fun w1 w2 => wr_workout_date w1 >= wr_workout_date w2)
       (get_user_workouts user_id t)
  /\ (forall other workout_name duration calories workout_date notes ts,
         other <> user_id ->
         get_user_workouts user_id
           (snd (add_workout other workout_name duration calories workout_date
                   notes ts t))
         = get_user_workouts user_id t).
Proof.
  split; [|split].
  - apply Permutation_map, order_by_perm.
  - unfold get_user_workouts. eapply Sorted_map; [|apply order_by_sorted].
    + intros w1 w2 H. cbn. apply Z.geb_le in H. lia.
    + intros w1 w2 H. rewrite Z.geb_leb in *. apply Z.leb_le.
      apply Z.leb_gt in H. lia.
  - intros other workout_name duration calories workout_date notes ts Hne.
    unfold get_user_workouts, add_workout, insert. cbn [snd workouts rows].
    rewrite filter_app. cbn [filter Workouts.user_id].
    apply Z.eqb_neq in Hne. rewrite Hne. now rewrite app_nil_r.
Qed.

(** ** The further properties on the scenario *)

Lemma subscribed_db_reachable : reachable toy_sha256 subscribed_db.
Proof. apply reachable_call, reachable_run, reachable_init. Qed.

Lemma chat_db_reachable : reachable toy_sha256 chat_db.
Proof. apply reachable_run, subscribed_db_reachable. Qed.

(** X1 on the scenario, after alice has subscribed. *)
Lemma reachable_unique_keys_scenario :
  NoDup (map Users.email (rows (users subscribed_db)))
  /\ NoDup (map subscription_key (rows (subscriptions subscribed_db)))
  /\ NoDup (map follower_key (rows (followers subscribed_db)))
  /\ NoDup (map Trainers.user_id (rows (trainers subscribed_db)))
  /\ NoDup (map Users.id (rows (users subscribed_db)))
  /\ NoDup (map FitnessPlans.id (rows (fitness_plans subscribed_db))).
Proof.
  exact (reachable_unique_keys toy_sha256 subscribed_db subscribed_db_reachable).
Defined.

(** X3 on the scenario: alice unfollows bob. *)
Lemma unfollow_trainer_count_scenario :
  fst (get_trainer_followers_count 2 subscribed_db) = 1
  /\ fst (get_trainer_followers_count 2 (snd (unfollow_trainer 1 2 subscribed_db)))
     = fst (get_trainer_followers_count 2 subscribed_db)
       - (if fst (is_following 1 2 subscribed_db) then 1 else 0).
Proof.
  split; [vm_compute; reflexivity|].
  exact (unfollow_trainer_count toy_sha256 1 2 subscribed_db subscribed_db_reachable).
Defined.

(** X5 on the scenario: bob is the one trainer. *)
Lemma get_all_trainers_once_scenario :
  map tr_id (fst (get_all_trainers subscribed_db))
  = map Users.id
      (filter (fun u => (Users.account_type u =? "trainer")%string)
         (rows (users subscribed_db)))
  /\ NoDup (map tr_id (fst (get_all_trainers subscribed_db))).
Proof.
  exact (get_all_trainers_once toy_sha256 subscribed_db subscribed_db_reachable).
Defined.

(** X10 on the scenario: alice tries to edit and to delete bob's plan. *)
Lemma plan_owner_guard_scenario :
  update_fitness_plan 1 1 "mine" "now" 0%float 1 "Beginner" "General" t0
    subscribed_db = (false, subscribed_db)
  /\ delete_fitness_plan 1 1 subscribed_db = (false, subscribed_db).
Proof.
  apply plan_owner_guard. vm_compute. reflexivity.
Defined.

(** X11 on the scenario: bob deletes the plan alice has subscribed to. *)
Lemma delete_fitness_plan_leaves_subscriptions_scenario :
  fst (get_plan_details 1 (snd (delete_fitness_plan 1 2 subscribed_db))) = None
  /\ (forall user_id now,
         fst (is_subscribed user_id 1 now (snd (delete_fitness_plan 1 2 subscribed_db)))
         = fst (is_subscribed user_id 1 now subscribed_db))
  /\ fst (is_subscribed 1 1 t0 (snd (delete_fitness_plan 1 2 subscribed_db))) = true.
Proof.
  destruct (delete_fitness_plan_leaves_subscriptions toy_sha256 1 2 subscribed_db)
    as [H1 [_ [_ [_ H5]]]].
  - exact subscribed_db_reachable.
  - vm_compute. reflexivity.
  - split; [exact H1|]. split; [exact H5|]. vm_compute. reflexivity.
Defined.

(** X12 on the scenario: bob creates a second plan. *)
Lemma create_fitness_plan_details_scenario :
  fst (get_plan_details 2
         (snd (create_fitness_plan 2 "P2" "sixty days" 20%float 60 "Advanced" "Cardio"
                 11 subscribed_db)))
  = Some (PlanRow 2 "P2" "sixty days" 20%float 60 "Advanced" "Cardio" 2 "bob" 11).
Proof.
  destruct (create_fitness_plan_details toy_sha256 2 "P2" "sixty days" 20%float 60
              "Advanced" "Cardio" 11 subscribed_db subscribed_db_reachable)
    as [_ [H _]].
  apply (H bob_row). vm_compute. reflexivity.
Defined.

(** X14 on the scenario: alice subscribes, bob deletes the plan and creates
    another, alice tries again two months later. *)
Lemma subscribe_to_plan_never_again_scenario :
  fst (subscribe_to_plan 1 1 10%float (plus_days t0 60) 12
         (run toy_sha256
            [DeleteFitnessPlan 1 2;
             CreateFitnessPlan 2 "P2" "sixty days" 20%float 60 "Advanced" "Cardio" 11]
            (snd (subscribe_to_plan 1 1 10%float t0 5 scenario_db))))
  = inr (false, "Already subscribed to this plan").
Proof.
  rewrite (subscribe_to_plan_never_again toy_sha256 1 1 10%float 10%float t0 5
             (plus_days t0 60) 12 scenario_db "Subscription successful!");
    [reflexivity|].
  vm_compute. reflexivity.
Defined.

(** X16 on the scenario: carol signs up, alice logs in, carol logs in. *)
Lemma verify_user_after_create_user_scenario :
  fst (verify_user toy_sha256 "carol@x.com" "secret3" "token-c2" (plus_days t0 2)
         (run toy_sha256 [VerifyUser "alice@x.com" "secret1" "token-a2" (plus_days t0 1)]
            (snd (create_user toy_sha256 "carol" "carol@x.com" "555-0102" "secret3"
                    "user" "salt-c" "token-c" t0 6 scenario_db))))
  = Some (LoginView (seq (users scenario_db) + 1) "carol" "carol@x.com" "user"
            "token-c2").
Proof.
  apply (verify_user_after_create_user toy_sha256 "carol" "carol@x.com" "555-0102"
           "secret3" "user" "salt-c" "token-c" "Account created successfully!"
           "token-c2" (Some "token-c")).
  vm_compute. reflexivity.
Defined.

(** X22 on the scenario: alice and bob after their two messages. *)
Lemma get_chat_contacts_symmetric_scenario :
  (In 2 (map ct_id (fst (get_chat_contacts 1 chat_db)))
   <-> In 1 (map ct_id (fst (get_chat_contacts 2 chat_db))))
  /\ (In 2 (map ct_id (fst (get_chat_contacts 1 chat_db)))
      <-> fst (get_conversation 1 2 chat_db) <> []).
Proof.
  apply get_chat_contacts_symmetric; vm_compute; auto.
Defined.

(** X24 on the scenario: alice's subscription to P1 in her list. *)
Lemma subscribe_to_plan_listed_scenario :
  In (SubscriptionRow 1 1 "P1" "thirty days" 10%float 30 "bob" day0 (day0 + 30)
        10%float)
    (fst (get_user_subscriptions 1
            (snd (subscribe_to_plan 1 1 10%float t0 5 scenario_db)))).
Proof.
  apply (subscribe_to_plan_listed 1 1 10%float t0 5 scenario_db
           "Subscription successful!" p1_row bob_row).
  - vm_compute. reflexivity.
  - vm_compute. reflexivity.
  - vm_compute. auto.
  - reflexivity.
Defined.

(** X6 on the scenario: alice, then bob. *)
Lemma chat_options_distinct_scenario :
  map tv_id (fst (get_all_users subscribed_db))
  ++ map tr_id (fst (get_all_trainers subscribed_db)) = [1; 2]
  /\ NoDup (map tv_id (fst (get_all_users subscribed_db))
            ++ map tr_id (fst (get_all_trainers subscribed_db))).
Proof.
  split; [vm_compute; reflexivity|].
  exact (chat_options_distinct toy_sha256 subscribed_db subscribed_db_reachable).
Defined.

(** ** The trainer's dashboard *)

(** X30.  The plans a trainer's dashboard lists with [get_trainer_plans]
    are exactly the plans [update_fitness_plan] and [delete_fitness_plan]
    accept from that trainer, active or not; they come latest first. *)
Theorem get_trainer_plans_editable (plan_id trainer_id : Z)
  (title description : string) (price : float) (duration_days : Z)
  (difficulty category : string) (now : Z) (d : db) :
  (In plan_id (map tp_id (fst (get_trainer_plans trainer_id d)))
   <-> fst (delete_fitness_plan plan_id trainer_id d) = true)
  /\ (In plan_id (map tp_id (fst (get_trainer_plans trainer_id d)))
      <-> fst (update_fitness_plan plan_id trainer_id title description price
                 duration_days difficulty category now d) = true)
  /\ Sorted (fun p1 p2 => tp_created_at p1 >= tp_created_at p2)
       (fst (get_trainer_plans trainer_id d)).
Proof.
  destruct (owner_result plan_id trainer_id title description price duration_days
              difficulty category now d) as [Hu Hd].
  rewrite Hu, Hd.
  assert (E : In plan_id (map tp_id (fst (get_trainer_plans trainer_id d)))
              <-> existsb (owned_plan plan_id trainer_id) (rows (fitness_plans d))
                  = true).
  { unfold get_trainer_plans, query. cbn [fst]. rewrite map_map, in_map_iff.
    rewrite existsb_exists. unfold owned_plan. split.
    - intros [fp [Hid Hin]]. apply order_by_In, filter_In in Hin.
      destruct Hin as [Hin Ht]. exists fp. split; [exact Hin|].
      apply andb_true_iff. split; [now apply Z.eqb_eq | exact Ht].
    - intros [fp [Hin Ho]]. apply andb_true_iff in Ho. destruct Ho as [Hid Ht].
      exists fp. split; [now apply Z.eqb_eq|].
      apply order_by_In, filter_In. now split. }
  split; [exact E|]. split; [exact E|].
  unfold get_trainer_plans, query. cbn [fst].
  eapply Sorted_map; [|apply order_by_sorted].
  - intros p1 p2 H. cbn. apply Z.geb_le in H. lia.
  - intros p1 p2 H. rewrite Z.geb_leb in *. apply Z.leb_le. apply Z.leb_gt in H. lia.
Qed.
